(** * A shallow embedding of the Solana memecoin sniper bot

    The development follows the Python sources file by file:
    [config.py], [token_utils.py], [scorer.py], [db.py], [wallet_utils.py],
    [trader.py], [scanner.py], [main.py] and [wmain.py].

    Conventions of the embedding:
    - Python floats and ints are rationals [Q] and integers [Z]; the
      thresholds of the sources are exact decimal constants.
    - A decoded JSON payload is a value of [json]; a Python [dict] built by
      the code is a [gmap string json].
    - A Python exception is the [Raise] branch of [res]; [try/except] is a
      [match] on it.
    - Everything outside the process (HTTP services, the RPC node, the
      clock) is a field of the record [world]. *)

From Stdlib Require Import QArith Qround Qminmax Lqa ZArith Lia.
From stdpp Require Import gmap strings list.

Local Open Scope Z_scope.

(** ** Python values and exceptions *)

Inductive pyexn : Type :=
| TypeError
| ValueError
| AttributeError
| KeyError
| IndexError
| ZeroDivisionError
| RequestException   (* requests / aiohttp: connection error or timeout *)
| HTTPError          (* raise_for_status on a 4xx or 5xx reply *)
| JSONDecodeError
| OSError            (* file system and RPC transport *)
| DecimalError.      (* decimal.InvalidOperation *)

Inductive res (A : Type) : Type :=
| Ok (a : A)
| Raise (e : pyexn).
Arguments Ok {A} a.
Arguments Raise {A} e.

#[global] Instance res_ret : MRet res := fun A a => Ok a.
#[global] Instance res_bind : MBind res := fun A B f m =>
  match m with
  | Ok a => f a
  | Raise e => Raise e
  end.

#[local] Unset Elimination Schemes.
Inductive json : Type :=
| JNull
| JBool (b : bool)
| JNum (q : Q)
| JStr (s : string)
| JArr (l : list json)
| JObj (o : list (string * json)).
#[local] Set Elimination Schemes.

Abbreviation dict := (gmap string json).

Definition JInt (z : Z) : json := JNum (inject_Z z).

(** Python truthiness ([if not x], [x or y]). *)
Definition truthy (v : json) : bool :=
  match v with
  | JNull => false
  | JBool b => b
  | JNum q => negb (Qeq_bool q 0)
  | JStr s => negb (String.eqb s "")
  | JArr l => match l with [] => false | _ => true end
  | JObj o => match o with [] => false | _ => true end
  end.

Definition py_or (a b : json) : json := if truthy a then a else b.

(** Key lookup in a decoded JSON object (keys are distinct after decoding). *)
Fixpoint obj_get (o : list (string * json)) (k : string) : option json :=
  match o with
  | [] => None
  | (k', v) :: o' => if String.eqb k' k then Some v else obj_get o' k
  end.

(** [v.get(k, d)]: only a dict has the method. *)
Definition py_get (v : json) (k : string) (d : json) : res json :=
  match v with
  | JObj o => Ok (default d (obj_get o k))
  | _ => Raise AttributeError
  end.

(** [v[k]] for a string key. *)
Definition py_item (v : json) (k : string) : res json :=
  match v with
  | JObj o => match obj_get o k with
              | Some x => Ok x
              | None => Raise KeyError
              end
  | _ => Raise TypeError
  end.

(** [v[0]]. *)
Definition py_index0 (v : json) : res json :=
  match v with
  | JArr (x :: _) => Ok x
  | JArr [] => Raise IndexError
  | JStr (String c _) => Ok (JStr (String c EmptyString))
  | JStr EmptyString => Raise IndexError
  | JObj _ => Raise KeyError
  | _ => Raise TypeError
  end.

(** [for p in v]. *)
Definition py_iter (v : json) : res (list json) :=
  match v with
  | JArr l => Ok l
  | JObj o => Ok (map (fun kv => JStr (fst kv)) o)
  | JStr s => Ok (map (fun c => JStr (String c EmptyString)) (String.list_ascii_of_string s))
  | _ => Raise TypeError
  end.

(** [d.get(k)] and [d.get(k, dflt)] on a dict built by the code. *)
Definition dget (d : dict) (k : string) : json := default JNull (d !! k).
Definition dget_or (d : dict) (k : string) (dflt : json) : json := default dflt (d !! k).

(** ** The world outside the process *)

Inductive http : Type :=
| Transport                                   (* the request itself raised *)
| Reply (status : Z) (body : option json).    (* [None]: the body is not JSON *)

(** A token account of the wallet as the RPC node reports it. *)
Inductive program : Type := TOKEN_PROGRAM_ID | TOKEN_2022_PROGRAM_ID.

Record rpc_account : Type := {
  rpc_mint : string;
  rpc_amount : Z;
  rpc_decimals : Z;
  rpc_uiAmount : Q;
}.

Record world : Type := {
  (* Python's own parsers, kept abstract: float(str), int(str),
     Decimal(str), and datetime.fromisoformat(value.replace("Z", "+00:00"))
     read as an instant in seconds ([None] when the parser raises). *)
  float_of_str : string -> option Q;
  int_of_str : string -> option Z;
  decimal_of_str : string -> option Q;
  fromisoformat : string -> option Q;
  (* datetime.now(timezone.utc) and time.time(), in seconds *)
  now_utc : Q;
  time_now : Q;
  (* GET datapi.jup.ag/v1/assets/search?query=<mint> *)
  jup_search : string -> http;
  (* GET api.geckoterminal.com/.../tokens/<mint>/pools *)
  gecko_pools : string -> http;
  (* the n-th GET of RUGCHECK_URL<mint>/report within one call *)
  rug_report : string -> nat -> http;
  (* GET PUMPFUN_URL *)
  pumpfun_feed : http;
  (* the key pair read from KEYPAIR_PATH: its public key, if it loads *)
  keypair_pubkey : option string;
  (* RPC reads: lamports of the wallet; the uiAmount of the first account
     of a mint ([None]: no account); the parsed accounts of a program *)
  rpc_get_balance : res Z;
  rpc_token_balance : string -> res (option (option Q));
  rpc_parsed_accounts : program -> res (list rpc_account);
  (* Jupiter: GET quote (input mint, output mint, raw amount) and POST swap
     (quote, public key) *)
  jup_quote : string -> string -> Z -> http;
  jup_swap : json -> string -> http;
  (* base64 decoding, deserialisation and signing of swapTransaction *)
  sign_tx : json -> res string;
  (* RPC writes: send_raw_transaction gives a signature,
     confirm_transaction gives [confirmed.value] *)
  rpc_send : string -> res string;
  rpc_confirm : string -> res bool;
  (* MySQL: whether connect() succeeds, and CURRENT_TIMESTAMP *)
  db_available : bool;
  db_now : Q;
}.

Definition raise_for_status (status : Z) : bool :=
  (400 <=? status) && (status <? 600).

(** [r.json()] *)
Definition json_body (body : option json) : res json :=
  match body with
  | Some j => Ok j
  | None => Raise JSONDecodeError
  end.

(** [float(v)] *)
Definition py_float (w : world) (v : json) : res Q :=
  match v with
  | JNum q => Ok q
  | JBool b => Ok (if b then 1%Q else 0%Q)
  | JStr s => match float_of_str w s with
              | Some q => Ok q
              | None => Raise ValueError
              end
  | _ => Raise TypeError
  end.

(** Truncation toward zero, as [int] does on a float. *)
Definition Qtrunc (q : Q) : Z := Z.quot (Qnum q) (Zpos (Qden q)).

(** [int(v)] *)
Definition py_int (w : world) (v : json) : res Z :=
  match v with
  | JNum q => Ok (Qtrunc q)
  | JBool b => Ok (if b then 1 else 0)
  | JStr s => match int_of_str w s with
              | Some z => Ok z
              | None => Raise ValueError
              end
  | _ => Raise TypeError
  end.

(** [round(x, n)] on exact values: to the nearest multiple of [10^-n], ties
    to the even one. *)
Definition round_half_even (x : Q) : Z :=
  let f := Qfloor x in
  let d := (x - inject_Z f)%Q in
  match (d ?= 1 # 2)%Q with
  | Lt => f
  | Gt => f + 1
  | Eq => if Z.even f then f else f + 1
  end.

Definition py_round (x : Q) (n : Z) : Q :=
  (inject_Z (round_half_even (x * inject_Z (10 ^ n))) / inject_Z (10 ^ n))%Q.

(** Boolean comparisons of floats. *)
Definition Qleb (x y : Q) : bool := Qle_bool x y.
Definition Qltb (x y : Q) : bool := negb (Qle_bool y x).

(** ** config.py *)

Definition TESTING_MODE : bool := false.
Definition MAX_OPEN_POSITIONS : Z := 2.
Definition STOP_LOSS : Q := (-50)%Q.
Definition TAKE_PROFIT : Q := 40%Q.
Definition RISK_PER_TRADE : Q := 0.01%Q.
Definition AMOUNT_PER_TRADE : Q := (100 * RISK_PER_TRADE)%Q.
Definition START_CAPITAL : Q := 15%Q.
Definition MIN_LIQUIDITY : Q := 100000%Q.
Definition DEFAULT_SLIPPAGE_BPS : Z := 50.
Definition MIN_POOL_SHARE : Q := 0.10%Q.
Definition MIN_24H_VOLUME : Q := 5000%Q.
Definition PRIORITY_FEE_MICRO_LAMPORTS : Z := 100000.
Definition VALID_POOL_LIQUIDITY : Q := 25000%Q.
Definition ALLOWED_DEXES : gset string :=
  {[ "raydium"%string; "orca"%string; "meteora"%string; "pump-fun"%string ]}.
Definition MIN_SCORE : Z := 55.
Definition AGGRESSIVE_SCORE : Z := 60.
Definition RUG_SCORE : Z := 1.
Definition WSOL : string := "So11111111111111111111111111111111111111112".
Definition USDT : string := "Es9vMFrzaCERmJfrF4H2FYD4KCoNkY11McCe8BenwNYB".
Definition EXCLUDED_TOKENS : gset string :=
  {[ "Es9vMFrzaCERmJfrF4H2FYD4KCoNkY11McCe8BenwNYB"%string ]}.

(** ** token_utils.py *)

(** The body of the [try] block of [get_token_info]. *)
Definition get_token_info_try (w : world) (token_mint : string) : res (option dict) :=
  match jup_search w token_mint with
  | Transport => Raise RequestException
  | Reply status body =>
    if raise_for_status status then Raise HTTPError else
    data ← json_body body;
    if negb (truthy data) then Ok None else
    token ← py_index0 data;
    stats ← py_get token "stats1h" (JObj []);
    usdPrice ← py_get token "usdPrice" JNull;
    liquidity ← py_get token "liquidity" JNull;
    mcap ← py_get token "mcap" JNull;
    symbol ← py_get token "symbol" JNull;
    id ← py_get token "id" JNull;
    holderCount ← py_get token "holderCount" (JInt 0);
    audit ← py_get token "audit" (JObj []);
    mint_authority ← py_get audit "mintAuthorityDisabled" (JBool true);
    audit' ← py_get token "audit" (JObj []);
    freeze_authority ← py_get audit' "freezeAuthorityDisabled" (JBool true);
    priceChange ← py_get stats "priceChange" JNull;
    buyVolume ← py_get stats "buyVolume" JNull;
    createdAt ← py_get token "createdAt" JNull;
    name ← py_get token "name" JNull;
    Ok (Some (list_to_map [
      ("usdPrice"%string, usdPrice);
      ("liquidity"%string, liquidity);
      ("mcap"%string, mcap);
      ("symbol"%string, symbol);
      ("mint"%string, id);
      ("holderCount"%string, holderCount);
      ("mint_authority"%string, mint_authority);
      ("freeze_authority"%string, freeze_authority);
      ("priceChange_H1"%string, priceChange);
      ("volume_H1"%string, buyVolume);
      ("createdAt"%string, createdAt);
      ("name"%string, name) ]))
  end.

(** [get_token_info]: every exception of the body is caught and gives [None]. *)
Definition get_token_info (w : world) (token_mint : string) : option dict :=
  match get_token_info_try w token_mint with
  | Ok r => r
  | Raise _ => None
  end.

(** [get_token_price] *)
Definition get_token_price (w : world) (mint : string) : option json :=
  match get_token_info w mint with
  | Some info => Some (dget info "usdPrice")
  | None => None
  end.

(** [dex in ALLOWED_DEXES]: lists and dicts are unhashable. *)
Definition dex_allowed (dex : json) : res bool :=
  match dex with
  | JStr s => Ok (bool_decide (s ∈ ALLOWED_DEXES))
  | JArr _ | JObj _ => Raise TypeError
  | _ => Ok false
  end.

(** One iteration of the loop over the pools: the liquidity appended to
    [valid], if any. *)
Definition valid_pool (w : world) (p : json) : res (option Q) :=
  a ← py_item p "attributes";
  rel ← py_item p "relationships";
  rel_dex ← py_item rel "dex";
  rel_data ← py_item rel_dex "data";
  dex ← py_item rel_data "id";
  fdv ← py_get a "fdv_usd" (JInt 0);
  liquidity ← py_float w fdv;
  vols ← py_get a "volume_usd" (JObj []);
  h24 ← py_get vols "h24" (JInt 0);
  volume ← py_float w h24;
  if Qleb VALID_POOL_LIQUIDITY liquidity && Qleb MIN_24H_VOLUME volume then
    ok ← dex_allowed dex;
    Ok (if ok : bool then Some liquidity else None)
  else Ok None.

Fixpoint valid_pools (w : world) (pools : list json) : res (list Q) :=
  match pools with
  | [] => Ok []
  | p :: rest =>
    v ← valid_pool w p;
    vs ← valid_pools w rest;
    Ok (match v with Some lp => lp :: vs | None => vs end)
  end.

(** [max(valid)] and [sum(...)] over floats. *)
Definition py_max (l : list Q) : Q :=
  match l with
  | [] => 0%Q
  | x :: xs => fold_left Qmax xs x
  end.
Definition py_sum (l : list Q) : Q := fold_left Qplus l 0%Q.

Definition compute_effective_liquidity_from_gecko (w : world) (token_mint : string) : res dict :=
  let empty : dict := {[ "effective_lp"%string := JNum 0 ]} in
  match gecko_pools w token_mint with
  | Transport => Ok empty
  | Reply status body =>
    if raise_for_status status then Ok empty else
    data ← json_body body;
    pools ← py_get data "data" (JArr []);
    items ← py_iter pools;
    valid ← valid_pools w items;
    match valid with
    | [] => Ok empty
    | _ =>
      let max_lp := py_max valid in
      let effective_lp :=
        py_sum (filter (fun lp => Qleb (max_lp * MIN_POOL_SHARE) lp && Qleb MIN_LIQUIDITY lp = true) valid) in
      Ok (list_to_map [
        ("effective_lp"%string, JNum effective_lp);
        ("max_pool_lp"%string, JNum max_lp);
        ("pools"%string, JInt (Z.of_nat (length valid))) ])
    end
  end.

(** ** scorer.py *)

(** [parse_iso_datetime] of scorer.py: a falsy value gives [None]; a value
    without [replace] raises inside the [try], which gives [None] too. *)
Definition parse_iso_datetime (w : world) (value : json) : option Q :=
  if negb (truthy value) then None else
  match value with
  | JStr s => fromisoformat w s
  | _ => None
  end.

(** The values [score_token] reads from its two upstream calls, in the order
    in which it converts them; every conversion can raise. *)
Record score_inputs : Type := {
  si_effective_lp : Q;
  si_max_pool_lp : Q;
  si_mc : Q;
  si_createdAt_raw : json;
  si_age_minutes : option Q;
  si_holders : Z;
  si_top_pct : Q;
}.

Definition read_score_inputs (w : world) (mint : string) (token : dict) : res score_inputs :=
  pools_info ← compute_effective_liquidity_from_gecko w mint;
  effective_lp ← py_float w (dget_or pools_info "effective_lp" (JNum 0));
  max_pool_lp ← py_float w (dget_or pools_info "max_pool_lp" (JNum 0));
  mc ← py_float w (py_or (dget token "mcap") (py_or (dget token "fdv") (JInt 0)));
  let created_time := dget token "createdAt" in
  let age_minutes :=
    match parse_iso_datetime w created_time with
    | Some created_dt => Some (py_round ((now_utc w - created_dt) / 60) 2)
    | None => None
    end in
  holders ← py_int w (py_or (dget token "holderCount") (JInt 0));
  top_pct ← py_float w (py_or (dget token "topHoldersPercentage") (JInt 100));
  Ok {| si_effective_lp := effective_lp; si_max_pool_lp := max_pool_lp; si_mc := mc;
        si_createdAt_raw := created_time; si_age_minutes := age_minutes;
        si_holders := holders; si_top_pct := top_pct |}.

(** [lp_mc = effective_lp / mc if mc > 0 else 0.0] *)
Definition lp_mc (i : score_inputs) : Q :=
  if Qltb 0 (si_mc i) then (si_effective_lp i / si_mc i)%Q else 0%Q.

(** 1. LP / MC ratio (max 26) *)
Definition lp_mc_score (r : Q) : Z :=
  if Qleb 0.25 r then 26
  else if Qleb 0.18 r then 22
  else if Qleb 0.12 r then 18
  else if Qleb 0.08 r then 12
  else if Qleb 0.05 r then 8
  else 0.

(** 2. Token age (max 12) *)
Definition age_score (age_minutes : option Q) : Z :=
  match age_minutes with
  | None => 0
  | Some a =>
    if Qleb a 20 then 12
    else if Qleb a 60 then 9
    else if Qleb a 180 then 6
    else if Qleb a 720 then 3
    else 0
  end.

(** 3. Holder count (max 12) *)
Definition holders_score (holders : Z) : Z :=
  if 10000 <=? holders then 12
  else if 5000 <=? holders then 9
  else if 2000 <=? holders then 6
  else if 600 <=? holders then 4
  else if 200 <=? holders then 2
  else 0.

(** 4. Top holders concentration (max 10) *)
Definition top_holders_score (top_pct : Q) : Z :=
  if Qleb top_pct 20 then 10
  else if Qleb top_pct 30 then 6
  else if Qleb top_pct 40 then 3
  else 0.

Definition total_score (i : score_inputs) : Z :=
  lp_mc_score (lp_mc i) + age_score (si_age_minutes i)
  + holders_score (si_holders i) + top_holders_score (si_top_pct i).

(** [final_score = min(score, 100)] *)
Definition final_score (i : score_inputs) : Z := Z.min (total_score i) 100.

(** [trace[k] = v] only in the branch that scored. *)
Definition trace_points (k : string) (points : Z) (trace : dict) : dict :=
  if points =? 0 then trace else <[k := JInt points]> trace.

Definition score_trace (i : score_inputs) : dict :=
  <["final_score" := JInt (final_score i)]>
  (<["top_holders_pct" := JNum (si_top_pct i)]>
  (<["holders" := JInt (si_holders i)]>
  (trace_points "age_score" (age_score (si_age_minutes i))
  (<["age_minutes" := match si_age_minutes i with Some a => JNum a | None => JNull end]>
  (<["createdAt_raw" := si_createdAt_raw i]>
  (trace_points "lp_mc_score" (lp_mc_score (lp_mc i))
  (<["lp_mc_ratio" := JNum (py_round (lp_mc i) 4)]>
  (<["mc" := JNum (si_mc i)]>
  (<["max_pool_lp" := JNum (si_max_pool_lp i)]>
  (<["effective_lp" := JNum (si_effective_lp i)]> ∅)))))))))).

Definition score_token (w : world) (mint : string) : res (Z * dict) :=
  match get_token_info w mint with
  | None => Ok (0, {[ "error"%string := JStr "token_info_unavailable" ]})
  | Some token =>
    i ← read_score_inputs w mint token;
    Ok (final_score i, score_trace i)
  end.

(** ** token_utils.py, continued: the RugCheck report *)

(** The body of one iteration of the retry loop, once a reply with status
    200 arrived. *)
Definition rug_report_dict (body : option json) : res dict :=
  data ← json_body body;
  score ← py_get data "score" JNull;
  tokenMeta ← py_get data "tokenMeta" (JObj []);
  mutable ← py_get tokenMeta "mutable" (JBool true);
  Ok (list_to_map [ ("rug_score"%string, score); ("mutable"%string, mutable) ]).

(** [for _ in range(10)]: [attempt] counts the requests already made and
    [remaining] the iterations left. An exception sleeps and goes on; a
    status other than 200 goes on at once. *)
Fixpoint rug_retry (w : world) (token_mint : string) (attempt remaining : nat) : option dict :=
  match remaining with
  | O => None
  | S k =>
    match rug_report w token_mint attempt with
    | Transport => rug_retry w token_mint (S attempt) k
    | Reply status body =>
      if status =? 200 then
        match rug_report_dict body with
        | Ok d => Some d
        | Raise _ => rug_retry w token_mint (S attempt) k
        end
      else rug_retry w token_mint (S attempt) k
    end
  end.

Definition get_token_rug_info (w : world) (token_mint : string) : option dict :=
  rug_retry w token_mint 0 10.

(** ** The state of the process and of the database *)

(** A row of [swap_logs]. The columns [entering_price] and the amounts hold
    the number that the stored text or decimal denotes. *)
Record swap_row : Type := {
  row_id : Z;
  wallet : string;
  action : string;
  entering_price : Q;
  input_mint : string;
  input_amount_ui : Q;
  input_amount_raw : Z;
  output_mint : string;
  output_amount_ui : Q;
  output_amount_raw : Z;
  tx_signature : string;
  price_impact_pct : option Q;
  slippage_bps : option Z;
  status : string;
  error_message : option string;
  output_liqudation : Q;
  created_at : Q;
  updated_at : Q;
}.

(** An entry of the list [get_wallet_tokens_cached] returns. *)
Record holding : Type := {
  h_mint : string;
  h_amount : Z;
  h_decimals : Z;
  h_ui_amount : Q;
  h_program : program;
}.

(** One invocation of [trader.swap], recorded when the call is entered. *)
Record swap_call : Type := {
  call_input_mint : string;
  call_output_mint : string;
  call_amount : Q;
  call_action : string;
}.

(** The exit branch of the monitoring loop that was entered. *)
Inductive exit_kind : Type := RugChanged | TakeProfitExit | StopLossExit.

Record state : Type := {
  db_rows : list swap_row;             (* swap_logs, in insertion order *)
  db_next_id : Z;                      (* AUTO_INCREMENT of swap_logs.id *)
  SENT_MINTS : gset string;            (* config.SENT_MINTS *)
  cache_ts : Q;                        (* _TOKEN_CACHE["ts"] *)
  cache_data : option (list holding);  (* _TOKEN_CACHE["data"] *)
  capital : Q;                         (* TradingBot.capital *)
  swap_calls : list swap_call;         (* ghost: the calls of swap, oldest first *)
  exit_log : list (string * exit_kind);  (* ghost: the exit branches entered *)
}.

Definition initial_state : state :=
  {| db_rows := []; db_next_id := 1; SENT_MINTS := ∅; cache_ts := 0%Q;
     cache_data := None; capital := START_CAPITAL; swap_calls := [];
     exit_log := [] |}.

Definition set_db (rows : list swap_row) (next : Z) (st : state) : state :=
  {| db_rows := rows; db_next_id := next; SENT_MINTS := SENT_MINTS st;
     cache_ts := cache_ts st; cache_data := cache_data st; capital := capital st;
     swap_calls := swap_calls st; exit_log := exit_log st |}.
Definition set_sent (s : gset string) (st : state) : state :=
  {| db_rows := db_rows st; db_next_id := db_next_id st; SENT_MINTS := s;
     cache_ts := cache_ts st; cache_data := cache_data st; capital := capital st;
     swap_calls := swap_calls st; exit_log := exit_log st |}.
Definition set_cache (ts : Q) (data : option (list holding)) (st : state) : state :=
  {| db_rows := db_rows st; db_next_id := db_next_id st; SENT_MINTS := SENT_MINTS st;
     cache_ts := ts; cache_data := data; capital := capital st;
     swap_calls := swap_calls st; exit_log := exit_log st |}.
Definition set_capital (c : Q) (st : state) : state :=
  {| db_rows := db_rows st; db_next_id := db_next_id st; SENT_MINTS := SENT_MINTS st;
     cache_ts := cache_ts st; cache_data := cache_data st; capital := c;
     swap_calls := swap_calls st; exit_log := exit_log st |}.
Definition record_call (c : swap_call) (st : state) : state :=
  {| db_rows := db_rows st; db_next_id := db_next_id st; SENT_MINTS := SENT_MINTS st;
     cache_ts := cache_ts st; cache_data := cache_data st; capital := capital st;
     swap_calls := swap_calls st ++ [c]; exit_log := exit_log st |}.
Definition record_exit (mint : string) (k : exit_kind) (st : state) : state :=
  {| db_rows := db_rows st; db_next_id := db_next_id st; SENT_MINTS := SENT_MINTS st;
     cache_ts := cache_ts st; cache_data := cache_data st; capital := capital st;
     swap_calls := swap_calls st; exit_log := exit_log st ++ [(mint, k)] |}.

(** State passing with exceptions: a raised exception keeps the mutations
    made before it. *)
Definition M (A : Type) : Type := state -> res A * state.

#[global] Instance M_ret : MRet M := fun A a st => (Ok a, st).
#[global] Instance M_bind : MBind M := fun A B f m st =>
  match m st with
  | (Ok a, st') => f a st'
  | (Raise e, st') => (Raise e, st')
  end.

Definition lift {A : Type} (r : res A) : M A := fun st => (r, st).
Definition raise {A : Type} (e : pyexn) : M A := fun st => (Raise e, st).
Definition get_state : M state := fun st => (Ok st, st).
Definition modify (f : state -> state) : M unit := fun st => (Ok tt, f st).

(** [try: m except Exception: h] *)
Definition try_except {A : Type} (m : M A) (h : M A) : M A := fun st =>
  match m st with
  | (Ok a, st') => (Ok a, st')
  | (Raise _, st') => h st'
  end.

(** ** db.py *)

Record log_args : Type := {
  arg_wallet : string;
  arg_action : string;
  arg_entering_price : Q;
  arg_input_mint : string;
  arg_input_amount_ui : Q;
  arg_input_amount_raw : Z;
  arg_output_mint : string;
  arg_output_amount_ui : Q;
  arg_output_amount_raw : Z;
  arg_output_liqudation : json;
  arg_tx_signature : option string;
  arg_price_impact_pct : option Q;
  arg_slippage_bps : option Z;
  arg_status : string;
  arg_error_message : option string;
}.

(** [Decimal(str(v))] *)
Definition py_decimal (w : world) (v : json) : res Q :=
  match v with
  | JNum q => Ok q
  | JStr s => match decimal_of_str w s with
              | Some q => Ok q
              | None => Raise DecimalError
              end
  | _ => Raise DecimalError
  end.

(** [str(tx_signature)] *)
Definition str_signature (sig : option string) : string :=
  match sig with
  | Some s => s
  | None => "None"
  end.

(** [ON DUPLICATE KEY UPDATE status = VALUES(status),
    error_message = VALUES(error_message), updated_at = CURRENT_TIMESTAMP] *)
Definition update_status (new old : swap_row) : swap_row :=
  {| row_id := row_id old; wallet := wallet old; action := action old;
     entering_price := entering_price old; input_mint := input_mint old;
     input_amount_ui := input_amount_ui old; input_amount_raw := input_amount_raw old;
     output_mint := output_mint old; output_amount_ui := output_amount_ui old;
     output_amount_raw := output_amount_raw old; tx_signature := tx_signature old;
     price_impact_pct := price_impact_pct old; slippage_bps := slippage_bps old;
     status := status new; error_message := error_message new;
     output_liqudation := output_liqudation old;
     created_at := created_at old; updated_at := updated_at new |}.

(** Modelled from the spec: the definition of the table [swap_logs] is not
    in the repository. The spec has "transaction signature (unique key)" and
    "one table keyed by transaction signature with upsert-on-conflict
    semantics for status fields only", so the duplicate key of the INSERT is
    [tx_signature]: the row that holds the signature is updated, and a new
    row is added when there is none. *)
Fixpoint upsert (new : swap_row) (rows : list swap_row) : list swap_row :=
  match rows with
  | [] => [new]
  | r :: rest =>
    if String.eqb (tx_signature r) (tx_signature new)
    then update_status new r :: rest
    else r :: upsert new rest
  end.

(** The tuple [values] of [log_swap]; building it can raise. *)
Definition log_values (w : world) (a : log_args) (next_id : Z) : res swap_row :=
  in_ui ← Ok (arg_input_amount_ui a);
  out_ui ← Ok (arg_output_amount_ui a);
  liq ← py_decimal w (arg_output_liqudation a);
  Ok {| row_id := next_id; wallet := arg_wallet a; action := arg_action a;
        entering_price := arg_entering_price a; input_mint := arg_input_mint a;
        input_amount_ui := in_ui; input_amount_raw := arg_input_amount_raw a;
        output_mint := arg_output_mint a; output_amount_ui := out_ui;
        output_amount_raw := arg_output_amount_raw a;
        tx_signature := str_signature (arg_tx_signature a);
        price_impact_pct := arg_price_impact_pct a; slippage_bps := arg_slippage_bps a;
        status := arg_status a; error_message := arg_error_message a;
        output_liqudation := liq; created_at := db_now w; updated_at := db_now w |}.

(** [log_swap]: the connection is opened outside the [try]; inside it, a
    failure before [commit] leaves the table as it was. The [print] after
    [commit] slices [tx_signature] and raises on [None], which the [except]
    catches: the rollback that follows a commit changes nothing. *)
Definition log_swap (w : world) (a : log_args) : M unit := fun st =>
  if negb (db_available w) then (Raise OSError, st) else
  match log_values w a (db_next_id st) with
  | Raise _ => (Ok tt, st)
  | Ok new => (Ok tt, set_db (upsert new (db_rows st)) (db_next_id st + 1) st)
  end.

(** [SELECT ... WHERE output_mint = %s ORDER BY id DESC]: the rows are kept
    in the order of their ids. *)
Definition swaps_of (mint : string) (rows : list swap_row) : list swap_row :=
  reverse (filter (fun r => output_mint r = mint) rows).

Definition token_has_swap (w : world) (mint : string) : M (option swap_row) := fun st =>
  if negb (db_available w) then (Raise OSError, st) else
  (Ok (head (swaps_of mint (db_rows st))), st).

Definition get_swaps_for_token (w : world) (mint : string) : M (list swap_row) := fun st =>
  if negb (db_available w) then (Raise OSError, st) else
  (Ok (swaps_of mint (db_rows st)), st).

(** ** token_utils.py, continued: [already_closed_before] *)

(** [int(last_exit_liq) > int(current_liq)] under
    [except (ValueError, TypeError)]. *)
Definition already_closed_before (w : world) (mint : string) : M bool :=
  match get_token_info w mint with
  | None => mret false
  | Some token_data =>
    swap ← token_has_swap w mint;
    match swap with
    | None => mret false
    | Some row =>
      let last_exit_liq := output_liqudation row in
      match dget token_data "liquidity" with
      | JNull => mret false
      | current_liq =>
        match py_int w current_liq with
        | Ok cur => mret (bool_decide (cur < Qtrunc last_exit_liq))
        | Raise _ => mret false
        end
      end
    end
  end.

(** ** wallet_context.py and wallet_utils.py *)

Definition CACHE_TTL : Q := 5%Q.

(** [get_wallet]: the public key of the key pair, or the exception of the
    load. *)
Definition get_wallet (w : world) : res string :=
  match keypair_pubkey w with
  | Some pk => Ok pk
  | None => Raise OSError
  end.

(** [get_sol_balance]: lamports / 1_000_000_000 *)
Definition get_sol_balance (w : world) : res Q :=
  pubkey ← get_wallet w;
  lamports ← rpc_get_balance w;
  Ok (inject_Z lamports / 1000000000)%Q.

(** [get_token_balance]: [float(bal.value.ui_amount or 0.0)] *)
Definition get_token_balance (w : world) (mint : string) : res Q :=
  pubkey ← get_wallet w;
  resp ← rpc_token_balance w mint;
  match resp with
  | None => Ok 0%Q
  | Some ui_amount => Ok (default 0%Q ui_amount)
  end.

Definition _fetch_tokens (w : world) (program_id : program) : res (list holding) :=
  pubkey ← get_wallet w;
  accounts ← rpc_parsed_accounts w program_id;
  Ok (omap (M := list) (fun acc : rpc_account =>
        if rpc_amount acc =? 0 then None
        else Some {| h_mint := rpc_mint acc; h_amount := rpc_amount acc;
                     h_decimals := rpc_decimals acc; h_ui_amount := rpc_uiAmount acc;
                     h_program := program_id |}) accounts).

(** [get_wallet_tokens_cached]: the cached list is used while it is
    non-empty and younger than [CACHE_TTL]. *)
Definition get_wallet_tokens_cached (w : world) : M (list holding) := fun st =>
  let now := time_now w in
  match cache_data st with
  | Some (t :: ts) =>
    if Qltb (now - cache_ts st) CACHE_TTL then (Ok (t :: ts), st)
    else
      match (a ← _fetch_tokens w TOKEN_PROGRAM_ID;
             b ← _fetch_tokens w TOKEN_2022_PROGRAM_ID; Ok (a ++ b)) with
      | Ok tokens => (Ok tokens, set_cache now (Some tokens) st)
      | Raise e => (Raise e, st)
      end
  | _ =>
    match (a ← _fetch_tokens w TOKEN_PROGRAM_ID;
           b ← _fetch_tokens w TOKEN_2022_PROGRAM_ID; Ok (a ++ b)) with
    | Ok tokens => (Ok tokens, set_cache now (Some tokens) st)
    | Raise e => (Raise e, st)
    end
  end.

(** [can_open_position] *)
Definition can_open_position (w : world) : M bool :=
  tokens ← get_wallet_tokens_cached w;
  let opened := length (filter (fun t => h_mint t ∉ EXCLUDED_TOKENS) tokens) in
  mret (bool_decide (Z.of_nat opened < MAX_OPEN_POSITIONS)).

(** [already_opened] *)
Definition already_opened (w : world) (mint : string) : M bool :=
  tokens ← get_wallet_tokens_cached w;
  mret (bool_decide (Exists (fun t => h_mint t = mint) tokens)).

(** [float * v] for a value read from a dict. *)
Definition py_mul_float (x : Q) (v : json) : res Q :=
  match v with
  | JNum q => Ok (x * q)%Q
  | JBool b => Ok (x * (if b then 1 else 0))%Q
  | _ => Raise TypeError
  end.

(** [calculate_position_size] *)
Definition calculate_position_size (w : world) : res bool :=
  usdt_balance ← get_token_balance w USDT;
  sol_balance ← get_sol_balance w;
  match get_token_price w WSOL with
  | None | Some JNull => Ok false
  | Some sol_price =>
    sol_value ← py_mul_float sol_balance sol_price;
    Ok (Qltb AMOUNT_PER_TRADE usdt_balance && Qltb 1 sol_value)
  end.

(** ** trader.py *)

(** The exponent of [10 ** decimals]. A fractional exponent is outside the
    rationals; [get_token_info] stores no key "decimals", so the default 6
    is what the callers below obtain. *)
Definition py_exponent (v : json) : res Z :=
  match v with
  | JNum q => if Qeq_bool (inject_Z (Qfloor q)) q then Ok (Qfloor q) else Raise ValueError
  | JBool b => Ok (if b then 1 else 0)
  | _ => Raise TypeError
  end.

(** [9 if mint == WSOL else token.get("decimals", 6)] *)
Definition mint_decimals (mint : string) (token : option dict) : res Z :=
  if String.eqb mint WSOL then Ok 9 else
  match token with
  | None => Raise AttributeError
  | Some t => py_exponent (dget_or t "decimals" (JInt 6))
  end.

Definition pow10 (z : Z) : Q := Qpower 10 z.

(** [token.get('symbol', ...)] inside a [print]: only the call can raise. *)
Definition symbol_of (token : option dict) : res json :=
  match token with
  | None => Raise AttributeError
  | Some t => Ok (dget_or t "symbol" (JStr "?"))
  end.

Definition is_str (v : json) (s : string) : bool :=
  match v with
  | JStr s' => String.eqb s' s
  | _ => false
  end.

(** [v / 100] *)
Definition py_div100 (v : json) : res Q :=
  match v with
  | JNum q => Ok (q / 100)%Q
  | JBool b => Ok ((if b then 1 else 0) / 100)%Q
  | _ => Raise TypeError
  end.

(** The platform-fee lines of [get_quote]: nothing is returned, but each
    step can raise. *)
Definition platform_fee_text (w : world) (data : json) : res unit :=
  platform_fee ← py_get data "platformFee" JNull;
  if truthy platform_fee then
    amount ← py_get platform_fee "amount" (JStr "0");
    if is_str amount "0" then Ok tt else
      raw ← py_item platform_fee "amount";
      fee_raw ← py_int w raw;
      fee_bps ← py_item platform_fee "feeBps";
      pct ← py_div100 fee_bps;
      Ok tt
  else Ok tt.

(** [get_quote]: [None] on a status other than 200, the decoded quote
    otherwise; the request and every later step can raise. *)
Definition get_quote (w : world) (input_mint output_mint : string) (amount : Q) : res (option json) :=
  let token_in := get_token_info w input_mint in
  let token_out := get_token_info w output_mint in
  input_decimals ← mint_decimals input_mint token_in;
  output_decimals ← mint_decimals output_mint token_out;
  let amount_raw := Qtrunc (amount * pow10 input_decimals) in
  match jup_quote w input_mint output_mint amount_raw with
  | Transport => Raise RequestException
  | Reply status body =>
    if negb (status =? 200) then Ok None else
    data ← json_body body;
    inAmount ← py_item data "inAmount";
    in_amount_raw ← py_int w inAmount;
    outAmount ← py_item data "outAmount";
    out_amount_raw ← py_int w outAmount;
    fee_text ← platform_fee_text w data;
    symbol ← symbol_of token_out;
    priceImpactPct ← py_get data "priceImpactPct" (JInt 0);
    impact ← py_float w priceImpactPct;
    Ok (Some data)
  end.

(** The [try] block of [swap]: the status, and the signature once
    [send_raw_transaction] has returned. *)
Definition send_and_confirm (w : world) (signed_tx : string) : string * option string :=
  match rpc_send w signed_tx with
  | Raise _ => ("failed"%string, None)
  | Ok sig =>
    match rpc_confirm w sig with
    | Raise _ => ("failed"%string, Some sig)
    | Ok true => ("success"%string, Some sig)
    | Ok false => ("timeout"%string, Some sig)
    end
  end.

(** [swap], from the quote on. *)
Definition swap_with_quote (w : world) (input_mint output_mint action wallet_str : string)
    (token_in token_out : option dict) (input_decimals output_decimals in_amount_raw : Z)
    (quote : json) : M string :=
  let expected_in_ui := (inject_Z in_amount_raw / pow10 input_decimals)%Q in
  outAmount ← lift (py_item quote "outAmount");
  out_amount_raw ← lift (py_int w outAmount);
  let expected_out_ui := (inject_Z out_amount_raw / pow10 output_decimals)%Q in
  priceImpactPct ← lift (py_get quote "priceImpactPct" (JInt 0));
  price_impact_pct ← lift (py_float w priceImpactPct);
  let enter_price :=
    if Qltb 0 expected_out_ui then (expected_in_ui / expected_out_ui)%Q else 0%Q in
  (* the trade summary *)
  symbol_in ← lift (symbol_of token_in);
  symbol_out ← lift (symbol_of token_out);
  if Qeq_bool expected_in_ui 0 then raise ZeroDivisionError else
  match jup_swap w quote wallet_str with
  | Transport => raise RequestException
  | Reply status body =>
    if negb (status =? 200) then mret "failed"%string else
    swap_data ← lift (json_body body);
    swap_tx_encoded ← lift (py_item swap_data "swapTransaction");
    signed_tx ← lift (sign_tx w swap_tx_encoded);
    let '(status, tx_signature) := send_and_confirm w signed_tx in
    liquidity ← lift (match token_out with
                      | None => Raise AttributeError
                      | Some t => Ok (dget_or t "liquidity" (JInt 0))
                      end);
    logged ← log_swap w
      {| arg_wallet := wallet_str; arg_action := action;
         arg_entering_price := py_round enter_price 8;
         arg_input_mint := input_mint; arg_input_amount_ui := expected_in_ui;
         arg_input_amount_raw := in_amount_raw; arg_output_mint := output_mint;
         arg_output_amount_ui := expected_out_ui; arg_output_amount_raw := out_amount_raw;
         arg_output_liqudation := liquidity; arg_tx_signature := tx_signature;
         arg_price_impact_pct := Some price_impact_pct;
         arg_slippage_bps := Some DEFAULT_SLIPPAGE_BPS;
         arg_status := status; arg_error_message := None |};
    mret status
  end.

(** [swap] in live mode, from the load of the key pair on. *)
Definition swap_live (w : world) (input_mint output_mint : string) (amount : Q) (action : string) : M string :=
  wallet_str ← lift (get_wallet w);
  let token_in := get_token_info w input_mint in
  let token_out := get_token_info w output_mint in
  input_decimals ← lift (mint_decimals input_mint token_in);
  output_decimals ← lift (mint_decimals output_mint token_out);
  let in_amount_raw := Qtrunc (amount * pow10 input_decimals) in
  quote ← lift (get_quote w input_mint output_mint amount);
  match quote with
  | None => mret "failed"%string
  | Some q =>
    if negb (truthy q) then mret "failed"%string else
    swap_with_quote w input_mint output_mint action wallet_str token_in token_out
      input_decimals output_decimals in_amount_raw q
  end.

(** [swap]: every call is recorded in [swap_calls] on entry. *)
Definition swap (w : world) (input_mint output_mint : string) (amount : Q) (action : string) : M string :=
  entered ← modify (record_call {| call_input_mint := input_mint; call_output_mint := output_mint;
                                   call_amount := amount; call_action := action |});
  if TESTING_MODE then mret "success"%string else
  swap_live w input_mint output_mint amount action.

(** ** scanner.py *)

(** [round(v, 2)] of a value read from a dict. *)
Definition py_round2 (v : json) : res Q :=
  match v with
  | JNum q => Ok (py_round q 2)
  | JBool b => Ok (if b then 1%Q else 0%Q)
  | _ => Raise TypeError
  end.

(** [v != z] for an int [z]: [True == 1] and [False == 0] in Python. *)
Definition py_ne_int (v : json) (z : Z) : bool :=
  match v with
  | JNum q => negb (Qeq_bool q (inject_Z z))
  | JBool b => negb ((if b then 1 else 0) =? z)
  | _ => true
  end.

(** [f"{v:<44}"]: None, lists and dicts reject a format specification. *)
Definition py_format_align (v : json) : res unit :=
  match v with
  | JNum _ | JStr _ | JBool _ => Ok tt
  | _ => Raise TypeError
  end.

(** [f"{v:,.8f}"] *)
Definition py_format_float (v : json) : res unit :=
  match v with
  | JNum _ | JBool _ => Ok tt
  | JStr _ => Raise ValueError
  | _ => Raise TypeError
  end.

(** [send_telegram_message]: the send is wrapped in its own [try]. *)
Definition send_telegram_message : M unit := mret tt.

(** The console block and the notification of a token that passed the
    filters: the list entry, unless a format raises. *)
Definition announce_token (w : world) (node : json) (mint : string) (token_info : dict) : M dict :=
  let usd_price := dget_or token_info "usdPrice" (JInt 0) in
  let symbol := dget_or token_info "symbol" (JStr "-") in
  name ← lift (py_get node "name" (JStr "—"));
  fmt_name ← lift (py_format_align name);
  fmt_symbol ← lift (py_format_align symbol);
  fmt_price ← lift (py_format_align usd_price);
  st ← get_state;
  if bool_decide (mint ∈ SENT_MINTS st) then mret ({[ "mint"%string := JStr mint ]} : dict)
  else
    fmt_message ← lift (py_format_float usd_price);
    sent ← send_telegram_message;
    added ← modify (fun st => set_sent ({[ mint ]} ∪ SENT_MINTS st) st);
    mret ({[ "mint"%string := JStr mint ]} : dict).

(** One iteration of the loop of [fetch_tokens]: the entry appended to
    [tokens], or [None] on [continue]. The mints of the feed are strings; a
    truthy mint of another type stops the model with TypeError. *)
Definition scan_node (w : world) (node : json) : M (option dict) :=
  mint_v ← lift (py_get node "mint" JNull);
  if negb (truthy mint_v) then mret None else
  match mint_v with
  | JStr mint =>
    match get_token_info w mint with
    | None => mret None
    | Some token_info =>
      match get_token_rug_info w mint with
      | None => mret None
      | Some rug_info =>
        rug_score ← lift (Ok (dget rug_info "rug_score"));
        liquidity ← lift (py_round2 (dget_or token_info "liquidity" (JInt 0)));
        if py_ne_int rug_score RUG_SCORE then mret None else
        if Qltb liquidity MIN_LIQUIDITY then mret None else
        token ← announce_token w node mint token_info;
        mret (Some token)
      end
    end
  | _ => raise TypeError
  end.

Fixpoint scan_nodes (w : world) (data : list json) : M (list dict) :=
  match data with
  | [] => mret []
  | node :: rest =>
    t ← scan_node w node;
    ts ← scan_nodes w rest;
    mret (match t with Some token => token :: ts | None => ts end)
  end.

(** [fetch_tokens]: [None] on a status other than 200 or on a payload that
    is not a list. *)
Definition fetch_tokens (w : world) : M (option (list dict)) :=
  match pumpfun_feed w with
  | Transport => raise RequestException
  | Reply status body =>
    if negb (status =? 200) then mret None else
    data ← lift (json_body body);
    match data with
    | JArr nodes => tokens ← scan_nodes w nodes; mret (Some tokens)
    | _ => mret None
    end
  end.

(** ** main.py *)

(** [process_token] from the score on. *)
Definition buy_if_qualified (w : world) (mint : string) (token_data : dict) (score : Z) : M unit :=
  if score <? MIN_SCORE then mret tt else
  enough ← lift (calculate_position_size w);
  if negb enough then mret tt else
  quote ← lift (get_quote w USDT mint AMOUNT_PER_TRADE);
  try_except
    (status ← swap w USDT mint AMOUNT_PER_TRADE "buy";
     if String.eqb status "success" then
       paid ← modify (fun st => set_capital (capital st - AMOUNT_PER_TRADE)%Q st);
       fmt_price ← lift (py_format_float (dget_or token_data "usdPrice" (JStr "—")));
       fmt_liq ← lift (py_format_float (dget_or token_data "liquidity" (JStr "—")));
       send_telegram_message
     else mret tt)
    (mret tt).

(** [process_token] *)
Definition process_token (w : world) (token : dict) : M unit :=
  let mint_v := dget token "mint" in
  if negb (truthy mint_v) then mret tt else
  match mint_v with
  | JStr mint =>
    closed ← already_closed_before w mint;
    if closed : bool then mret tt else
    opened ← already_opened w mint;
    if opened : bool then mret tt else
    can ← can_open_position w;
    if negb can then mret tt else
    match get_token_info w mint with
    | None => raise AttributeError
    | Some token_data =>
      scored ← lift (score_token w mint);
      buy_if_qualified w mint token_data (fst scored)
    end
  | _ => raise TypeError
  end.

(** [for token_data in tokens: await self.process_token(token_data)] *)
Fixpoint process_tokens (w : world) (tokens : list dict) : M unit :=
  match tokens with
  | [] => mret tt
  | token :: rest =>
    done_one ← process_token w token;
    process_tokens w rest
  end.

(** [run_once]: the whole cycle sits in one [try]. *)
Definition run_once (w : world) : M unit :=
  try_except
    (tokens ← fetch_tokens w;
     match tokens with
     | None | Some [] => mret tt
     | Some ts => process_tokens w ts
     end)
    (mret tt).

(** ** wmain.py *)

(** [safe_float]: [None], TypeError and ValueError give the default. *)
Definition safe_float (w : world) (value : json) : Q :=
  match value with
  | JNull => 0%Q
  | v => match py_float w v with
         | Ok q => q
         | Raise _ => 0%Q
         end
  end.

(** [pnl_pct = ((price - entry_price) / entry_price) * 100] *)
Definition pnl_percent (price entry_price : Q) : Q :=
  ((price - entry_price) / entry_price * 100)%Q.

(** One exit branch: the sell sits in a [try] whose handler only prints. *)
Definition exit_position (w : world) (t : holding) (k : exit_kind) : M unit :=
  entered ← modify (record_exit (h_mint t) k);
  try_except
    (status ← swap w (h_mint t) USDT (h_ui_amount t) "sell"; mret tt)
    (mret tt).

(** The body of the loop of [check_and_monitor] for one held token. *)
Definition monitor_token (w : world) (t : holding) : M unit :=
  let mint := h_mint t in
  if bool_decide (mint ∈ EXCLUDED_TOKENS) then mret tt else
  match get_token_info w mint with
  | None => raise AttributeError
  | Some token_info =>
    let price := safe_float w (dget token_info "usdPrice") in
    let liquidity := safe_float w (dget token_info "liquidity") in
    scored ← lift (score_token w mint);
    match get_token_rug_info w mint with
    | None => mret tt
    | Some token_rug =>
      let rug_score := dget token_rug "rug_score" in
      swaps ← get_swaps_for_token w mint;
      match swaps with
      | [] => mret tt
      | last_swap :: _ =>
        let entry_price := entering_price last_swap in
        let trade_size := input_amount_ui last_swap in
        if Qleb entry_price 0 || Qleb price 0 then mret tt else
        let pnl_pct := pnl_percent price entry_price in
        let pnl := (pnl_pct * trade_size / 100)%Q in
        if py_ne_int rug_score RUG_SCORE then exit_position w t RugChanged
        else if Qleb TAKE_PROFIT pnl_pct then exit_position w t TakeProfitExit
        else if Qleb pnl_pct STOP_LOSS then exit_position w t StopLossExit
        else mret tt
      end
    end
  end.

Fixpoint monitor_tokens (w : world) (tokens : list holding) : M unit :=
  match tokens with
  | [] => mret tt
  | t :: rest =>
    monitored ← monitor_token w t;
    monitor_tokens w rest
  end.

(** [check_and_monitor] *)
Definition check_and_monitor (w : world) : M unit :=
  sol ← lift (get_sol_balance w);
  usdt ← lift (get_token_balance w USDT);
  tokens ← get_wallet_tokens_cached w;
  match tokens with
  | [] => mret tt
  | _ => monitor_tokens w tokens
  end.

(** One turn of [main_loop]: an exception of the cycle is printed. *)
Definition main_loop_cycle (w : world) : M unit :=
  try_except (check_and_monitor w) (mret tt).

(** ** Vocabulary of the statements *)

(** Two readings of the score inputs, the second one more favourable in one
    sub-metric and equal in the three others. *)
Inductive favourable (i i' : score_inputs) : Prop :=
| lp_mc_rises :
    (lp_mc i <= lp_mc i')%Q ->
    si_age_minutes i = si_age_minutes i' ->
    si_holders i = si_holders i' ->
    (si_top_pct i == si_top_pct i')%Q ->
    favourable i i'
| age_falls (a a' : Q) :
    si_age_minutes i = Some a -> si_age_minutes i' = Some a' -> (a' <= a)%Q ->
    (lp_mc i == lp_mc i')%Q ->
    si_holders i = si_holders i' ->
    (si_top_pct i == si_top_pct i')%Q ->
    favourable i i'
| holders_rise :
    si_holders i <= si_holders i' ->
    (lp_mc i == lp_mc i')%Q ->
    si_age_minutes i = si_age_minutes i' ->
    (si_top_pct i == si_top_pct i')%Q ->
    favourable i i'
| top_pct_falls :
    (si_top_pct i' <= si_top_pct i)%Q ->
    (lp_mc i == lp_mc i')%Q ->
    si_age_minutes i = si_age_minutes i' ->
    si_holders i = si_holders i' ->
    favourable i i'.

(** A field that holds a number or nothing. *)
Definition numeric_or_null (v : json) : Prop :=
  match v with
  | JNull | JNum _ | JBool _ => True
  | _ => False
  end.

(** The keys of the dict literal of [get_token_info]. *)
Definition snapshot_keys : list string :=
  [ "usdPrice"; "liquidity"; "mcap"; "symbol"; "mint"; "holderCount"; "mint_authority";
    "freeze_authority"; "priceChange_H1"; "volume_H1"; "createdAt"; "name" ]%string.

(** A computation that leaves a component of the state as it found it;
    in particular the record of swap calls. *)
Definition keeps {A S : Type} (proj : state -> S) (m : M A) : Prop :=
  forall st, proj (m st).2 = proj st.

Abbreviation keeps_calls m := (keeps swap_calls m).

(** ** Reference inputs

    Payloads in the shape the services answer with, and worlds built from
    them; the statements below are instantiated on these. *)

(** An entry of the asset search of Jupiter. *)
Definition asset (mint : string) (price liquidity mcap : json) (holders : json)
    (created : string) : json :=
  JObj [ ("id"%string, JStr mint); ("name"%string, JStr "Token");
         ("symbol"%string, JStr "TKN"); ("usdPrice"%string, price);
         ("liquidity"%string, liquidity); ("mcap"%string, mcap);
         ("holderCount"%string, holders); ("createdAt"%string, JStr created) ].

Definition found (a : json) : http := Reply 200 (Some (JArr [a])).

(** A pool of GeckoTerminal: its [fdv_usd], its 24h volume and its DEX. *)
Definition gecko_pool (liquidity volume : Q) (dex : string) : json :=
  JObj [ ("attributes"%string,
          JObj [ ("fdv_usd"%string, JNum liquidity);
                 ("volume_usd"%string, JObj [ ("h24"%string, JNum volume) ]) ]);
         ("relationships"%string,
          JObj [ ("dex"%string,
                  JObj [ ("data"%string, JObj [ ("id"%string, JStr dex) ]) ]) ]) ].

Definition gecko_reply (pools : list json) : http :=
  Reply 200 (Some (JObj [ ("data"%string, JArr pools) ])).

(** A report of RugCheck with the given score. *)
Definition rug_reply (score : Z) : http :=
  Reply 200 (Some (JObj [ ("score"%string, JInt score) ])).

(** A quote and a swap transaction of Jupiter. *)
Definition quote_reply (in_amount out_amount : Z) : http :=
  Reply 200 (Some (JObj [ ("inAmount"%string, JInt in_amount);
                          ("outAmount"%string, JInt out_amount);
                          ("priceImpactPct"%string, JNum 0.01) ])).

Definition swap_tx_reply : http :=
  Reply 200 (Some (JObj [ ("swapTransaction"%string, JStr "AQAB") ])).

(** A world in which the wallet loads, holds one SOL and the given USDT
    balance, the database is up, and the services answer as given. The
    clock stands ten minutes after the instant every timestamp parses to. *)
Definition service_world (jup gecko : string -> http) (rug : string -> nat -> http)
    (feed : http) (accounts : list rpc_account) (usdt : Q)
    (quote swap_tx : http) (send : res string) (confirm : res bool) : world :=
  {| float_of_str := fun _ => None;
     int_of_str := fun _ => None;
     decimal_of_str := fun _ => None;
     fromisoformat := fun _ => Some 0%Q;
     now_utc := 600%Q;
     time_now := 600%Q;
     jup_search := jup;
     gecko_pools := gecko;
     rug_report := rug;
     pumpfun_feed := feed;
     keypair_pubkey := Some "wallet"%string;
     rpc_get_balance := Ok 1000000000;
     rpc_token_balance := fun _ => Ok (Some (Some usdt));
     rpc_parsed_accounts := fun p =>
       match p with
       | TOKEN_PROGRAM_ID => Ok accounts
       | TOKEN_2022_PROGRAM_ID => Ok []
       end;
     jup_quote := fun _ _ _ => quote;
     jup_swap := fun _ _ => swap_tx;
     sign_tx := fun _ => Ok "signed"%string;
     rpc_send := fun _ => send;
     rpc_confirm := fun _ => confirm;
     db_available := true;
     db_now := 600%Q |}.

(** Two mints and their market data: [MINT_A] is ten minutes old with deep
    liquidity and many holders. *)
Definition MINT_A : string := "AAAAAAAAAAAAAAAAAAAAAAAAAAAAAAAAAAAAAAAApump".
Definition MINT_B : string := "BBBBBBBBBBBBBBBBBBBBBBBBBBBBBBBBBBBBBBBBpump".

Definition asset_A : json :=
  asset MINT_A (JNum 1.4) (JNum 150000) (JNum 400000) (JInt 12000) "2025-01-01T00:00:00Z".
Definition asset_B : json :=
  asset MINT_B (JNum 2) (JNum 120000) (JNum 1000000) (JInt 300) "2025-01-01T00:00:00Z".

Definition jup_AB (mint : string) : http :=
  if String.eqb mint MINT_A then found asset_A
  else if String.eqb mint MINT_B then found asset_B
  else if String.eqb mint USDT then found (asset USDT (JNum 1) (JNum 1000000) (JNum 1000000) (JInt 50000) "2021-01-01T00:00:00Z")
  else if String.eqb mint WSOL then found (asset WSOL (JNum 150) (JNum 1000000) (JNum 1000000) (JInt 50000) "2021-01-01T00:00:00Z")
  else Reply 200 (Some (JArr [])).

Definition gecko_A (mint : string) : http :=
  gecko_reply [ gecko_pool 120000 9000 "raydium" ].

Definition rug_clean (mint : string) (attempt : nat) : http := rug_reply 1.

Definition world_A : world :=
  service_world jup_AB gecko_A rug_clean (Reply 200 (Some (JArr [])))
    [] 50 (quote_reply 1000000 2000000) swap_tx_reply (Ok "5igSig"%string) (Ok true).

(** The score of a call of [score_token] that returned. *)
Definition returned_score (r : res (Z * dict)) : option Z :=
  match r with
  | Ok (score, _) => Some score
  | Raise _ => None
  end.

(** [world_A] after the holder count of [MINT_B] grew from 300 to 6000. *)
Definition jup_B_grown (mint : string) : http :=
  if String.eqb mint MINT_B
  then found (asset MINT_B (JNum 2) (JNum 120000) (JNum 1000000) (JInt 6000) "2025-01-01T00:00:00Z")
  else jup_AB mint.

Definition world_B_grown : world :=
  service_world jup_B_grown gecko_A rug_clean (Reply 200 (Some (JArr [])))
    [] 50 (quote_reply 1000000 2000000) swap_tx_reply (Ok "5igSig"%string) (Ok true).

(** The inputs [score_token] reads for a mint, when the snapshot is there
    and every conversion succeeds. *)
Definition score_inputs_of (w : world) (mint : string) : option score_inputs :=
  match get_token_info w mint with
  | Some token =>
    match read_score_inputs w mint token with
    | Ok i => Some i
    | Raise _ => None
    end
  | None => None
  end.

(** The three pools of the effective-liquidity example: 120,000 and 15,000
    at allowed DEXes, 50,000 at a DEX that is not allowed. *)
Definition example_pools (d1 d2 d3 : string) (v1 v2 v3 : Q) : list json :=
  [ gecko_pool 120000 v1 d1; gecko_pool 15000 v2 d2; gecko_pool 50000 v3 d3 ].

Definition world_pools : world :=
  service_world jup_AB
    (fun _ => gecko_reply (example_pools "raydium" "orca" "lifinity" 9000 5000 20000))
    rug_clean (Reply 200 (Some (JArr [])))
    [] 50 (quote_reply 1000000 2000000) swap_tx_reply (Ok "5igSig"%string) (Ok true).

(** The rows of a table that carry a signature, and the others. *)
Definition rows_signed (sig : string) (rows : list swap_row) : list swap_row :=
  filter (fun r => tx_signature r = sig) rows.
Definition rows_not_signed (sig : string) (rows : list swap_row) : list swap_row :=
  filter (fun r => tx_signature r <> sig) rows.

(** A confirmed buy of [MINT_A], and the same transaction reported again
    as timed out with other amounts. *)
Definition buy_A_logged : log_args :=
  {| arg_wallet := "wallet"; arg_action := "buy"; arg_entering_price := 0.5%Q;
     arg_input_mint := USDT; arg_input_amount_ui := 1%Q; arg_input_amount_raw := 1000000;
     arg_output_mint := MINT_A; arg_output_amount_ui := 2%Q;
     arg_output_amount_raw := 2000000; arg_output_liqudation := JNum 150000;
     arg_tx_signature := Some "5igSig"%string; arg_price_impact_pct := Some 0.01%Q;
     arg_slippage_bps := Some 50; arg_status := "success"; arg_error_message := None |}.

Definition buy_A_again : log_args :=
  {| arg_wallet := "wallet"; arg_action := "buy"; arg_entering_price := 0.75%Q;
     arg_input_mint := USDT; arg_input_amount_ui := 3%Q; arg_input_amount_raw := 3000000;
     arg_output_mint := MINT_A; arg_output_amount_ui := 4%Q;
     arg_output_amount_raw := 4000000; arg_output_liqudation := JNum 90000;
     arg_tx_signature := Some "5igSig"%string; arg_price_impact_pct := Some 0.2%Q;
     arg_slippage_bps := Some 100; arg_status := "timeout";
     arg_error_message := Some "confirmation timed out"%string |}.

(** What the monitoring loop fetches for a mint: the rug score of the
    report and the current price of the snapshot. *)
Definition rug_score_of (w : world) (mint : string) : option json :=
  match get_token_rug_info w mint with
  | Some token_rug => Some (dget token_rug "rug_score")
  | None => None
  end.

Definition price_of (w : world) (mint : string) : option Q :=
  match get_token_info w mint with
  | Some token_info => Some (safe_float w (dget token_info "usdPrice"))
  | None => None
  end.

(** A held token for which the monitoring loop reaches its exit tests: it
    is not excluded, its snapshot, score and rug report are available, the
    database answers with a latest trade record, and both the entry price
    of that record and the current price are positive. *)
Definition position_priced (w : world) (st : state) (t : holding)
    (rug_score : json) (price entry_price : Q) : Prop :=
  (h_mint t ∉ EXCLUDED_TOKENS) /\
  price_of w (h_mint t) = Some price /\
  (exists score, returned_score (score_token w (h_mint t)) = Some score) /\
  rug_score_of w (h_mint t) = Some rug_score /\
  db_available w = true /\
  (exists last_swap, head (swaps_of (h_mint t) (db_rows st)) = Some last_swap /\
                     entering_price last_swap = entry_price) /\
  (0 < entry_price)%Q /\ (0 < price)%Q.

(** The call of the swap executor that sells a holding for USDT. *)
Definition sell_call (t : holding) : swap_call :=
  {| call_input_mint := h_mint t; call_output_mint := USDT;
     call_amount := h_ui_amount t; call_action := "sell" |}.

(** The wallet holds two units of [MINT_A], bought at 1 USDT each. *)
Definition held_A : holding :=
  {| h_mint := MINT_A; h_amount := 2000000; h_decimals := 6; h_ui_amount := 2%Q;
     h_program := TOKEN_PROGRAM_ID |}.

Definition bought_A : swap_row :=
  {| row_id := 1; wallet := "wallet"; action := "buy"; entering_price := 1%Q;
     input_mint := USDT; input_amount_ui := 2%Q; input_amount_raw := 2000000;
     output_mint := MINT_A; output_amount_ui := 2%Q; output_amount_raw := 2000000;
     tx_signature := "4uySig"; price_impact_pct := Some 0.01%Q; slippage_bps := Some 50;
     status := "success"; error_message := None; output_liqudation := 150000%Q;
     created_at := 0%Q; updated_at := 0%Q |}.

Definition state_A_bought : state := set_db [bought_A] 2 initial_state.

(** [world_A] with a rug score of 500 for every mint. *)
Definition rug_risky (mint : string) (attempt : nat) : http := rug_reply 500.

Definition world_A_risky : world :=
  service_world jup_AB gecko_A rug_risky (Reply 200 (Some (JArr [])))
    [] 50 (quote_reply 1000000 2000000) swap_tx_reply (Ok "5igSig"%string) (Ok true).

(** The exit tests of [monitor_token], as the loop reaches them. *)
Definition exit_tests (w : world) (t : holding) (rug_score : json) (price entry_price : Q) : M unit :=
  let pnl_pct := pnl_percent price entry_price in
  if py_ne_int rug_score RUG_SCORE then exit_position w t RugChanged
  else if Qleb TAKE_PROFIT pnl_pct then exit_position w t TakeProfitExit
  else if Qleb pnl_pct STOP_LOSS then exit_position w t StopLossExit
  else mret tt.

(** A computation that appends at most one entry to a record of the state. *)
Definition adds_at_most_one {A T : Type} (proj : state -> list T) (m : M A) : Prop :=
  forall st, exists new, proj (m st).2 = proj st ++ new /\ (length new <= 1)%nat.

(** [world_A] with half a USDT in the wallet. *)
Definition world_A_poor : world :=
  service_world jup_AB gecko_A rug_clean (Reply 200 (Some (JArr [])))
    [] 0.5 (quote_reply 1000000 2000000) swap_tx_reply (Ok "5igSig"%string) (Ok true).

(** The entry of the candidate list for a mint. *)
Definition candidate (mint : string) : dict := {[ "mint"%string := JStr mint ]}.

(** A feed that lists [MINT_A], under a clean and under a risky rug score. *)
Definition feed_A : http :=
  Reply 200 (Some (JArr [ JObj [ ("mint"%string, JStr MINT_A);
                                 ("name"%string, JStr "Token A") ] ])).

Definition world_feed_clean : world :=
  service_world jup_AB gecko_A rug_clean feed_A
    [] 50 (quote_reply 1000000 2000000) swap_tx_reply (Ok "5igSig"%string) (Ok true).

Definition world_feed_risky : world :=
  service_world jup_AB gecko_A rug_risky feed_A
    [] 50 (quote_reply 1000000 2000000) swap_tx_reply (Ok "5igSig"%string) (Ok true).

(** [token_out.get('liquidity', 0)], the value [swap] hands to [log_swap]. *)
Definition output_liquidity (w : world) (mint : string) : option json :=
  match get_token_info w mint with
  | Some token_out => Some (dget_or token_out "liquidity" (JInt 0))
  | None => None
  end.

(** [world_A] when the quote endpoint answers 429. *)
Definition world_no_quote : world :=
  service_world jup_AB gecko_A rug_clean (Reply 200 (Some (JArr [])))
    [] 50 (Reply 429 None) swap_tx_reply (Ok "5igSig"%string) (Ok true).

(** [world_A] when the confirmation of the transaction times out. *)
Definition world_timeout : world :=
  service_world jup_AB gecko_A rug_clean (Reply 200 (Some (JArr [])))
    [] 50 (quote_reply 1000000 2000000) swap_tx_reply (Ok "5igSig"%string) (Ok false).

(** The asset search is down for [MINT_A] and answers for the other mints. *)
Definition jup_A_down (mint : string) : http :=
  if String.eqb mint MINT_A then Transport else jup_AB mint.

Definition account_A : rpc_account :=
  {| rpc_mint := MINT_A; rpc_amount := 2000000; rpc_decimals := 6; rpc_uiAmount := 2%Q |}.
Definition account_B : rpc_account :=
  {| rpc_mint := MINT_B; rpc_amount := 3000000; rpc_decimals := 6; rpc_uiAmount := 3%Q |}.

Definition held_B : holding :=
  {| h_mint := MINT_B; h_amount := 3000000; h_decimals := 6; h_ui_amount := 3%Q;
     h_program := TOKEN_PROGRAM_ID |}.

Definition bought_B : swap_row :=
  {| row_id := 1; wallet := "wallet"; action := "buy"; entering_price := 1%Q;
     input_mint := USDT; input_amount_ui := 3%Q; input_amount_raw := 3000000;
     output_mint := MINT_B; output_amount_ui := 3%Q; output_amount_raw := 3000000;
     tx_signature := "3bxSig"; price_impact_pct := Some 0.01%Q; slippage_bps := Some 50;
     status := "success"; error_message := None; output_liqudation := 120000%Q;
     created_at := 0%Q; updated_at := 0%Q |}.

Definition state_B_bought : state := set_db [bought_B] 2 initial_state.

(** The wallet holds [MINT_A] and [MINT_B], the rug score of both is 500,
    and the asset search is down for [MINT_A]. *)
Definition world_down_held : world :=
  service_world jup_A_down gecko_A rug_risky (Reply 200 (Some (JArr [])))
    [account_A; account_B] 50 (quote_reply 1000000 2000000) swap_tx_reply
    (Ok "5igSig"%string) (Ok true).

(** The same outage seen by the discovery loop, with an empty wallet. *)
Definition world_down : world :=
  service_world jup_A_down gecko_A rug_clean (Reply 200 (Some (JArr [])))
    [] 50 (quote_reply 1000000 2000000) swap_tx_reply (Ok "5igSig"%string) (Ok true).

(** GeckoTerminal answers 200 with a body that is not JSON. *)
Definition world_gecko_garbled : world :=
  service_world jup_AB (fun _ => Reply 200 None) rug_clean (Reply 200 (Some (JArr [])))
    [] 50 (quote_reply 1000000 2000000) swap_tx_reply (Ok "5igSig"%string) (Ok true).

(** ** scorer.py, continued: the labels *)

(** [get_score_label] *)
Definition get_score_label (score : Q) : string :=
  if Qleb 75 score then "🔥 A+ | Very Clean (Strong Buy)"
  else if Qleb 60 score then "🟢 A | Clean (Buy)"
  else if Qleb 45 score then "🟡 B | Medium (Watch / Small Size)"
  else if Qleb 30 score then "🟠 C | Risky (Speculative)"
  else "🔴 D | Weak / Skip".

(** [get_score_label_wallet] *)
Definition get_score_label_wallet (score : Q) : string :=
  if Qleb 75 score then "🔥 A+ | Very Clean (Strong Keep)"
  else if Qleb 60 score then "🟢 A | Clean (Keep)"
  else if Qleb 45 score then "🟡 B | Medium (Watch / Small Size)"
  else if Qleb 30 score then "🟠 C | Risky (Speculative) - Sell"
  else "🔴 D | Weak / Skip - Sell".

(** ** Vocabulary of the further statements *)

(** The report that the n-th request of one call of [get_token_rug_info]
    yields: none on an exception, on a status other than 200, or on a body
    the iteration cannot read. *)
Definition rug_attempt (w : world) (token_mint : string) (n : nat) : option dict :=
  match rug_report w token_mint n with
  | Transport => None
  | Reply status body =>
    if status =? 200 then
      match rug_report_dict body with
      | Ok d => Some d
      | Raise _ => None
      end
    else None
  end.

(** The effective liquidity as [score_token] reads it from the pools call. *)
Definition effective_lp_of (w : world) (mint : string) : option Q :=
  match compute_effective_liquidity_from_gecko w mint with
  | Ok pools_info =>
    match py_float w (dget_or pools_info "effective_lp" (JNum 0)) with
    | Ok q => Some q
    | Raise _ => None
    end
  | Raise _ => None
  end.

(** The liquidity [fetch_tokens] compares with [MIN_LIQUIDITY]. *)
Definition rounded_liquidity_of (w : world) (mint : string) : option Q :=
  match get_token_info w mint with
  | Some token_info =>
    match py_round2 (dget_or token_info "liquidity" (JInt 0)) with
    | Ok q => Some q
    | Raise _ => None
    end
  | None => None
  end.

(** A call of [swap] that gets as far as sending: the key pair loads, both
    tokens have a snapshot, a quote and a signed swap transaction are
    obtained, and the input amount is not zero in raw units. [liq_json] is
    the liquidity the call will hand to [log_swap]. *)
Definition reaches_send (w : world) (input_mint output_mint : string) (amount : Q)
    (signed_tx : string) (liq_json : json) : Prop :=
  exists (wallet_str : string) (din dout : Z) (symbol_in quote swap_data encoded : json),
    get_wallet w = Ok wallet_str /\
    mint_decimals input_mint (get_token_info w input_mint) = Ok din /\
    mint_decimals output_mint (get_token_info w output_mint) = Ok dout /\
    symbol_of (get_token_info w input_mint) = Ok symbol_in /\
    get_quote w input_mint output_mint amount = Ok (Some quote) /\
    Qeq_bool (inject_Z (Qtrunc (amount * pow10 din)) / pow10 din) 0 = false /\
    jup_swap w quote wallet_str = Reply 200 (Some swap_data) /\
    py_item swap_data "swapTransaction" = Ok encoded /\
    sign_tx w encoded = Ok signed_tx /\
    output_liquidity w output_mint = Some liq_json.

(** The accounts that make a holding: a balance other than zero. *)
Definition funded (accounts : list rpc_account) : list rpc_account :=
  filter (fun acc => rpc_amount acc <> 0) accounts.

(** A computation under which a property of the state, once true, stays
    true, whether it returns or raises. *)
Definition preserves {A : Type} (I : state -> Prop) (m : M A) : Prop :=
  forall st, I st -> I (m st).2.

(** No row of the table carries an error text. *)
Definition no_error_text (st : state) : Prop :=
  Forall (fun r => error_message r = None) (db_rows st).

(** What [check_and_monitor] and [already_closed_before] read from the rows
    of a mint, newest first: entry price, trade size and liquidity. *)
Definition entry_view (mint : string) (rows : list swap_row) : list (Q * Q * Q) :=
  (fun r => (entering_price r, input_amount_ui r, output_liqudation r)) <$> swaps_of mint rows.

(** [world_A] when the asset search reports no liquidity for [MINT_A]. *)
Definition jup_A_no_liquidity (mint : string) : http :=
  if String.eqb mint MINT_A
  then found (asset MINT_A (JNum 1.4) JNull (JNum 400000) (JInt 12000) "2025-01-01T00:00:00Z")
  else jup_AB mint.

Definition world_A_no_liquidity : world :=
  service_world jup_A_no_liquidity gecko_A rug_clean (Reply 200 (Some (JArr [])))
    [] 50 (quote_reply 1000000 2000000) swap_tx_reply (Ok "5igSig"%string) (Ok true).

(** A record as [swap] hands it to [log_swap]: mints and action are those
    of the call, and no error text is passed. *)
Definition logged_by (a : log_args) (input_mint output_mint action : string) : Prop :=
  arg_action a = action /\ arg_input_mint a = input_mint /\
  arg_output_mint a = output_mint /\ arg_error_message a = None.

(** [world_A] when sending the transaction raises. *)
Definition world_send_fails : world :=
  service_world jup_AB gecko_A rug_clean (Reply 200 (Some (JArr [])))
    [] 50 (quote_reply 1000000 2000000) swap_tx_reply (Raise OSError) (Ok true).

(** The wallet holds [MINT_A] and its rug score is 500. *)
Definition world_A_held_risky : world :=
  service_world jup_AB gecko_A rug_risky (Reply 200 (Some (JArr [])))
    [account_A] 50 (quote_reply 2000000 2800000) swap_tx_reply (Ok "9xzSig"%string) (Ok true).

(** [MINT_A] bought at 2.8, twice its current price. *)
Definition bought_A_high : swap_row :=
  {| row_id := 1; wallet := "wallet"; action := "buy"; entering_price := 2.8%Q;
     input_mint := USDT; input_amount_ui := 5.6%Q; input_amount_raw := 5600000;
     output_mint := MINT_A; output_amount_ui := 2%Q; output_amount_raw := 2000000;
     tx_signature := "4uySig"; price_impact_pct := Some 0.01%Q; slippage_bps := Some 50;
     status := "success"; error_message := None; output_liqudation := 150000%Q;
     created_at := 0%Q; updated_at := 0%Q |}.

Definition state_A_bought_high : state := set_db [bought_A_high] 2 initial_state.

(** The asset search reports no price for [MINT_A], and its rug score is
    500. *)
Definition jup_A_unpriced (mint : string) : http :=
  if String.eqb mint MINT_A
  then found (asset MINT_A JNull (JNum 150000) (JNum 400000) (JInt 12000) "2025-01-01T00:00:00Z")
  else jup_AB mint.

Definition world_A_unpriced_risky : world :=
  service_world jup_A_unpriced gecko_A rug_risky (Reply 200 (Some (JArr [])))
    [account_A] 50 (quote_reply 2000000 2800000) swap_tx_reply (Ok "9xzSig"%string) (Ok true).

(** [token.get(k, {})] yields a dict: the key is missing, or holds an
    object. *)
Definition dict_or_missing (o : list (string * json)) (k : string) : Prop :=
  match obj_get o k with
  | None | Some (JObj _) => True
  | Some _ => False
  end.

(** The wallet after [MINT_B] was sold: an account of [MINT_A] with a
    balance, the emptied account of [MINT_B], and the USDT account. *)
Definition account_B_emptied : rpc_account :=
  {| rpc_mint := MINT_B; rpc_amount := 0; rpc_decimals := 6; rpc_uiAmount := 0%Q |}.
Definition account_USDT : rpc_account :=
  {| rpc_mint := USDT; rpc_amount := 50000000; rpc_decimals := 6; rpc_uiAmount := 50%Q |}.

Definition world_A_after_exit : world :=
  service_world jup_AB gecko_A rug_clean (Reply 200 (Some (JArr [])))
    [account_A; account_B_emptied; account_USDT] 50 (quote_reply 1000000 2000000)
    swap_tx_reply (Ok "5igSig"%string) (Ok true).

(** * Properties *)

(** ** Comparisons and the error monad *)

Lemma Qleb_le (x y : Q) : Qleb x y = true <-> (x <= y)%Q.
Proof. apply Qle_bool_iff. Qed.

Lemma Qleb_gt (x y : Q) : Qleb x y = false <-> (y < x)%Q.
Proof.
  unfold Qleb. split; intros H.
  - apply Qnot_le_lt. intros Hle. apply Qle_bool_iff in Hle. congruence.
  - destruct (Qle_bool x y) eqn:E; [|reflexivity].
    apply Qle_bool_iff in E. exfalso. apply (Qlt_not_le _ _ H E).
Qed.

Lemma Qltb_lt (x y : Q) : Qltb x y = true <-> (x < y)%Q.
Proof.
  unfold Qltb. rewrite negb_true_iff. apply (Qleb_gt y x).
Qed.

Lemma Qltb_ge (x y : Q) : Qltb x y = false <-> (y <= x)%Q.
Proof.
  unfold Qltb. rewrite negb_false_iff. apply (Qleb_le y x).
Qed.

(** Case analysis on every threshold test of the goal. *)
Ltac thresholds :=
  repeat match goal with
  | |- context [Qleb ?a ?b] =>
      let E := fresh "E" in
      destruct (Qleb a b) eqn:E;
      [apply Qleb_le in E | apply Qleb_gt in E]
  | |- context [Z.leb ?a ?b] =>
      let E := fresh "E" in
      destruct (Z.leb a b) eqn:E;
      [apply Z.leb_le in E | apply Z.leb_gt in E]
  end.

(** ** scorer.py: range and monotonicity of the sub-scores *)

Lemma lp_mc_score_range (r : Q) : 0 <= lp_mc_score r <= 26.
Proof. unfold lp_mc_score. thresholds; lia. Qed.

Lemma age_score_range (a : option Q) : 0 <= age_score a <= 12.
Proof. unfold age_score. destruct a; [thresholds|]; lia. Qed.

Lemma holders_score_range (h : Z) : 0 <= holders_score h <= 12.
Proof. unfold holders_score. thresholds; lia. Qed.

Lemma top_holders_score_range (p : Q) : 0 <= top_holders_score p <= 10.
Proof. unfold top_holders_score. thresholds; lia. Qed.

Lemma final_score_range (i : score_inputs) : 0 <= final_score i <= 60.
Proof.
  unfold final_score, total_score.
  pose proof (lp_mc_score_range (lp_mc i)).
  pose proof (age_score_range (si_age_minutes i)).
  pose proof (holders_score_range (si_holders i)).
  pose proof (top_holders_score_range (si_top_pct i)).
  lia.
Qed.

Lemma lp_mc_score_mono (r r' : Q) : (r <= r')%Q -> lp_mc_score r <= lp_mc_score r'.
Proof.
  intros H. unfold lp_mc_score. thresholds; try lia; exfalso; lra.
Qed.

Lemma age_score_anti (a a' : Q) :
  (a' <= a)%Q -> age_score (Some a) <= age_score (Some a').
Proof.
  intros H. unfold age_score. thresholds; try lia; exfalso; lra.
Qed.

Lemma holders_score_mono (h h' : Z) : h <= h' -> holders_score h <= holders_score h'.
Proof.
  intros H. unfold holders_score. thresholds; lia.
Qed.

Lemma top_holders_score_anti (p p' : Q) :
  (p' <= p)%Q -> top_holders_score p <= top_holders_score p'.
Proof.
  intros H. unfold top_holders_score. thresholds; try lia; exfalso; lra.
Qed.

Lemma final_score_favourable (i i' : score_inputs) :
  favourable i i' -> final_score i <= final_score i'.
Proof.
  intros F. unfold final_score, total_score.
  apply Z.min_le_compat_r.
  destruct F as [Hlp Ha Hh Ht | a a' Ea Ea' Ha Hlp Hh Ht | Hh Hlp Ha Ht | Ht Hlp Ha Hh].
  - rewrite Ha, Hh.
    pose proof (lp_mc_score_mono _ _ Hlp).
    pose proof (top_holders_score_anti (si_top_pct i) (si_top_pct i')) as H1.
    pose proof (top_holders_score_anti (si_top_pct i') (si_top_pct i)) as H2.
    assert (si_top_pct i' <= si_top_pct i)%Q by (rewrite Ht; apply Qle_refl).
    assert (si_top_pct i <= si_top_pct i')%Q by (rewrite Ht; apply Qle_refl).
    specialize (H1 ltac:(assumption)). specialize (H2 ltac:(assumption)). lia.
  - rewrite Ea, Ea', Hh.
    pose proof (age_score_anti _ _ Ha).
    assert (lp_mc i <= lp_mc i')%Q by (rewrite Hlp; apply Qle_refl).
    assert (si_top_pct i' <= si_top_pct i)%Q by (rewrite Ht; apply Qle_refl).
    pose proof (lp_mc_score_mono (lp_mc i) (lp_mc i') ltac:(assumption)).
    pose proof (top_holders_score_anti (si_top_pct i) (si_top_pct i') ltac:(assumption)).
    lia.
  - rewrite Ha.
    pose proof (holders_score_mono _ _ Hh).
    assert (lp_mc i <= lp_mc i')%Q by (rewrite Hlp; apply Qle_refl).
    assert (si_top_pct i' <= si_top_pct i)%Q by (rewrite Ht; apply Qle_refl).
    pose proof (lp_mc_score_mono (lp_mc i) (lp_mc i') ltac:(assumption)).
    pose proof (top_holders_score_anti (si_top_pct i) (si_top_pct i') ltac:(assumption)).
    lia.
  - rewrite Ha, Hh.
    pose proof (top_holders_score_anti _ _ Ht).
    assert (lp_mc i <= lp_mc i')%Q by (rewrite Hlp; apply Qle_refl).
    pose proof (lp_mc_score_mono (lp_mc i) (lp_mc i') ltac:(assumption)).
    lia.
Qed.

(** ** token_utils.py: the snapshot of [get_token_info] *)

(** The snapshot holds the twelve keys of the dict literal and no other. *)
Lemma get_token_info_keys (w : world) (mint : string) (token : dict) (k : string) :
  get_token_info w mint = Some token ->
  (is_Some (token !! k) <-> k ∈ snapshot_keys).
Proof.
  unfold get_token_info, get_token_info_try.
  destruct (jup_search w mint) as [|st body]; [discriminate|].
  destruct (raise_for_status st); [discriminate|].
  destruct body as [data|]; [|discriminate]. cbn.
  destruct (truthy data); cbn; [|discriminate].
  destruct (py_index0 data) as [tok|]; cbn; [|discriminate].
  destruct tok as [| | | | |o]; cbn; try discriminate.
  destruct (default (JObj []) (obj_get o "stats1h")) as [| | | | |stats]; cbn;
    destruct (default (JObj []) (obj_get o "audit")) as [| | | | |audit]; cbn;
    try discriminate.
  intros [= <-].
  rewrite <- elem_of_dom, !dom_insert_L, dom_empty_L.
  unfold snapshot_keys. set_solver.
Qed.

(** A key that is not one of the twelve. *)
Ltac not_a_key :=
  let H := fresh in
  unfold snapshot_keys; intros H;
  repeat (apply elem_of_cons in H as [H|H]; [discriminate H|]);
  apply elem_of_nil in H; exact H.

Lemma get_token_info_absent (w : world) (mint : string) (token : dict) (k : string) :
  get_token_info w mint = Some token -> k ∉ snapshot_keys -> dget token k = JNull.
Proof.
  intros Hinfo Hk. unfold dget.
  destruct (token !! k) as [v|] eqn:E; [|reflexivity].
  exfalso. apply Hk. apply (get_token_info_keys w mint token k Hinfo). eauto.
Qed.

(** ** token_utils.py: the dict of the effective liquidity *)

Lemma effective_liquidity_fields (w : world) (mint : string) (pools_info : dict) :
  compute_effective_liquidity_from_gecko w mint = Ok pools_info ->
  exists lp max_lp : Q,
    dget_or pools_info "effective_lp" (JNum 0) = JNum lp /\
    dget_or pools_info "max_pool_lp" (JNum 0) = JNum max_lp.
Proof.
  unfold compute_effective_liquidity_from_gecko, dget_or.
  assert (Hempty : exists lp max_lp : Q,
    default (JNum 0) (({[ "effective_lp"%string := JNum 0 ]} : dict) !! "effective_lp"%string) = JNum lp /\
    default (JNum 0) (({[ "effective_lp"%string := JNum 0 ]} : dict) !! "max_pool_lp"%string) = JNum max_lp).
  { exists 0%Q, 0%Q. rewrite lookup_singleton_eq, lookup_singleton_ne by done. split; reflexivity. }
  destruct (gecko_pools w mint) as [|st body].
  { intros [= <-]. exact Hempty. }
  destruct (raise_for_status st).
  { intros [= <-]. exact Hempty. }
  destruct (json_body body) as [data|]; cbn; [|discriminate].
  destruct (py_get data "data" (JArr [])) as [pools|]; cbn; [|discriminate].
  destruct (py_iter pools) as [items|]; cbn; [|discriminate].
  destruct (valid_pools w items) as [valid|]; cbn; [|discriminate].
  destruct valid as [|lp0 valid].
  { intros [= <-]. exact Hempty. }
  intros [= <-]. eexists _, _.
  rewrite lookup_insert_eq.
  rewrite lookup_insert_ne by done. rewrite lookup_insert_eq.
  split; reflexivity.
Qed.

(** ** scorer.py: what [score_token] returns *)

Lemma score_token_available (w : world) (mint : string) (token : dict) (i : score_inputs) :
  get_token_info w mint = Some token ->
  read_score_inputs w mint token = Ok i ->
  score_token w mint = Ok (final_score i, score_trace i).
Proof.
  intros Hinfo Hread. unfold score_token. rewrite Hinfo. cbn. rewrite Hread. reflexivity.
Qed.

Lemma score_token_of_inputs (w : world) (mint : string) (i : score_inputs) :
  score_inputs_of w mint = Some i ->
  score_token w mint = Ok (final_score i, score_trace i).
Proof.
  unfold score_inputs_of.
  destruct (get_token_info w mint) as [token|] eqn:Hinfo; [|discriminate].
  destruct (read_score_inputs w mint token) as [i0|] eqn:Hread; [|discriminate].
  intros [= <-]. exact (score_token_available w mint token i0 Hinfo Hread).
Qed.

Lemma score_token_inv (w : world) (mint : string) (score : Z) (trace : dict) :
  score_token w mint = Ok (score, trace) ->
  (get_token_info w mint = None /\ score = 0) \/
  (exists token i, get_token_info w mint = Some token /\
                   read_score_inputs w mint token = Ok i /\ score = final_score i).
Proof.
  unfold score_token.
  destruct (get_token_info w mint) as [token|] eqn:Hinfo.
  - cbn. destruct (read_score_inputs w mint token) as [i|] eqn:Hread; cbn; [|discriminate].
    intros [= <- <-]. right. exists token, i. auto.
  - intros [= <- <-]. left. auto.
Qed.

(** A number or a missing value converts, whatever the default after [or]. *)
Lemma py_float_or_numeric (w : world) (v : json) (z : Z) :
  numeric_or_null v -> exists q, py_float w (py_or v (JInt z)) = Ok q.
Proof.
  unfold py_or. destruct v as [| b | q | s | l | o]; cbn; try contradiction; intros _.
  - eauto.
  - destruct b; cbn; eauto.
  - destruct (negb (Qeq_bool q 0)); cbn; eauto.
Qed.

Lemma py_int_or_numeric (w : world) (v : json) (z : Z) :
  numeric_or_null v -> exists n, py_int w (py_or v (JInt z)) = Ok n.
Proof.
  unfold py_or. destruct v as [| b | q | s | l | o]; cbn; try contradiction; intros _.
  - eauto.
  - destruct b; cbn; eauto.
  - destruct (negb (Qeq_bool q 0)); cbn; eauto.
Qed.

(** [score_token] returns on a snapshot whose market cap and holder count
    are numbers or missing, once the pools call has returned. *)
Lemma read_score_inputs_total (w : world) (mint : string) (token pools_info : dict) :
  get_token_info w mint = Some token ->
  compute_effective_liquidity_from_gecko w mint = Ok pools_info ->
  numeric_or_null (dget token "mcap") ->
  numeric_or_null (dget token "holderCount") ->
  exists i, read_score_inputs w mint token = Ok i.
Proof.
  intros Hinfo Hpools Hmc Hh. unfold read_score_inputs.
  rewrite Hpools. cbn.
  destruct (effective_liquidity_fields w mint pools_info Hpools) as (lp & mx & -> & ->). cbn.
  rewrite (get_token_info_absent w mint token "fdv" Hinfo) by not_a_key.
  rewrite (get_token_info_absent w mint token "topHoldersPercentage" Hinfo)
    by not_a_key.
  replace (py_or JNull (JInt 0)) with (JInt 0) by reflexivity.
  destruct (py_float_or_numeric w _ 0 Hmc) as [mc ->]. cbn.
  destruct (py_int_or_numeric w _ 0 Hh) as [h ->]. cbn.
  eauto.
Qed.

(** The snapshot has no key "topHoldersPercentage": the concentration read
    by [score_token] is the default 100. *)
Lemma read_score_inputs_top_pct (w : world) (mint : string) (token : dict) (i : score_inputs) :
  get_token_info w mint = Some token ->
  read_score_inputs w mint token = Ok i ->
  si_top_pct i = inject_Z 100.
Proof.
  intros Hinfo. unfold read_score_inputs.
  rewrite (get_token_info_absent w mint token "topHoldersPercentage" Hinfo)
    by not_a_key.
  destruct (compute_effective_liquidity_from_gecko w mint) as [p|]; cbn; [|discriminate].
  destruct (py_float w (dget_or p "effective_lp" (JNum 0))); cbn; [|discriminate].
  destruct (py_float w (dget_or p "max_pool_lp" (JNum 0))); cbn; [|discriminate].
  destruct (py_float w _); cbn; [|discriminate].
  destruct (py_int w _); cbn; [|discriminate].
  intros [= <-]. reflexivity.
Qed.

Lemma final_score_without_concentration (i : score_inputs) :
  si_top_pct i = inject_Z 100 -> final_score i <= 50.
Proof.
  intros Htop. unfold final_score, total_score. rewrite Htop.
  pose proof (lp_mc_score_range (lp_mc i)).
  pose proof (age_score_range (si_age_minutes i)).
  pose proof (holders_score_range (si_holders i)).
  change (top_holders_score (inject_Z 100)) with 0.
  lia.
Qed.

Lemma score_token_at_most_50 (w : world) (mint : string) (score : Z) (trace : dict) :
  score_token w mint = Ok (score, trace) -> 0 <= score <= 50.
Proof.
  intros H. apply score_token_inv in H as [[_ ->] | (token & i & Hinfo & Hread & ->)].
  - lia.
  - pose proof (final_score_range i).
    pose proof (final_score_without_concentration i
                  (read_score_inputs_top_pct w mint token i Hinfo Hread)).
    lia.
Qed.

(** ** The state monad: computations that make no swap call *)

Lemma M_bind_unfold {A B : Type} (m : M A) (f : A -> M B) (st : state) :
  (m ≫= f) st =
  match m st with
  | (Ok a, st') => f a st'
  | (Raise e, st') => (Raise e, st')
  end.
Proof. reflexivity. Qed.

Lemma keeps_ret {A S : Type} (proj : state -> S) (a : A) : keeps proj (mret a : M A).
Proof. intros st. reflexivity. Qed.

Lemma keeps_lift {A S : Type} (proj : state -> S) (r : res A) : keeps proj (lift r).
Proof. intros st. reflexivity. Qed.

Lemma keeps_raise {A S : Type} (proj : state -> S) (e : pyexn) : keeps proj (raise e : M A).
Proof. intros st. reflexivity. Qed.

Lemma keeps_get_state {S : Type} (proj : state -> S) : keeps proj get_state.
Proof. intros st. reflexivity. Qed.

Lemma keeps_bind {A B S : Type} (proj : state -> S) (m : M A) (f : A -> M B) :
  keeps proj m -> (forall a, keeps proj (f a)) -> keeps proj (m ≫= f).
Proof.
  intros Hm Hf st. rewrite M_bind_unfold.
  specialize (Hm st). destruct (m st) as [[a|e] st']; cbn in *.
  - rewrite (Hf a st'). exact Hm.
  - exact Hm.
Qed.

Lemma keeps_try {A S : Type} (proj : state -> S) (m h : M A) :
  keeps proj m -> keeps proj h -> keeps proj (try_except m h).
Proof.
  intros Hm Hh st. unfold try_except.
  specialize (Hm st). destruct (m st) as [[a|e] st']; cbn in *.
  - exact Hm.
  - rewrite (Hh st'). exact Hm.
Qed.

Lemma keeps_modify {S : Type} (proj : state -> S) (f : state -> state) :
  (forall st, proj (f st) = proj st) -> keeps proj (modify f).
Proof. intros Hf st. apply Hf. Qed.

Create HintDb calls.
#[export] Hint Resolve keeps_ret keeps_lift keeps_raise keeps_get_state : calls.

(** Walks a computation along its binds and its case distinctions. *)
Ltac keeps :=
  repeat first
    [ apply keeps_ret | apply keeps_lift | apply keeps_raise | apply keeps_get_state
    | solve [auto with calls]
    | apply keeps_bind; [|intros ?]
    | apply keeps_try
    | apply keeps_modify; intros ?; reflexivity
    | match goal with
      | |- keeps _ (if ?b then _ else _) => destruct b
      | |- keeps _ (match ?x with _ => _ end) => destruct x
      | |- keeps _ (let '(_, _) := ?x in _) => destruct x
      end ].

Lemma keeps_log_swap (w : world) (a : log_args) : keeps_calls (log_swap w a).
Proof.
  intros st. unfold log_swap.
  destruct (negb (db_available w)); [reflexivity|].
  destruct (log_values w a (db_next_id st)); reflexivity.
Qed.

Lemma keeps_token_has_swap (w : world) (mint : string) : keeps_calls (token_has_swap w mint).
Proof. intros st. unfold token_has_swap. destruct (negb (db_available w)); reflexivity. Qed.

Lemma keeps_get_swaps_for_token (w : world) (mint : string) :
  keeps_calls (get_swaps_for_token w mint).
Proof. intros st. unfold get_swaps_for_token. destruct (negb (db_available w)); reflexivity. Qed.

Lemma keeps_get_wallet_tokens_cached (w : world) : keeps_calls (get_wallet_tokens_cached w).
Proof.
  intros st. unfold get_wallet_tokens_cached.
  destruct (cache_data st) as [[|t ts]|];
    repeat match goal with
    | |- context [if ?b then _ else _] => destruct b
    | |- context [match ?x with Ok _ => _ | Raise _ => _ end] => destruct x
    end; reflexivity.
Qed.

#[export] Hint Resolve keeps_log_swap keeps_token_has_swap keeps_get_swaps_for_token
  keeps_get_wallet_tokens_cached : calls.

Lemma keeps_already_closed_before (w : world) (mint : string) :
  keeps_calls (already_closed_before w mint).
Proof. unfold already_closed_before. keeps. Qed.

Lemma keeps_already_opened (w : world) (mint : string) : keeps_calls (already_opened w mint).
Proof. unfold already_opened. keeps. Qed.

Lemma keeps_can_open_position (w : world) : keeps_calls (can_open_position w).
Proof. unfold can_open_position. keeps. Qed.

Lemma keeps_send_telegram_message : keeps_calls send_telegram_message.
Proof. unfold send_telegram_message. keeps. Qed.

#[export] Hint Resolve keeps_already_closed_before keeps_already_opened
  keeps_can_open_position keeps_send_telegram_message : calls.

Lemma keeps_announce_token (w : world) (node : json) (mint : string) (token_info : dict) :
  keeps_calls (announce_token w node mint token_info).
Proof. unfold announce_token. keeps. Qed.

#[export] Hint Resolve keeps_announce_token : calls.

Lemma keeps_scan_node (w : world) (node : json) : keeps_calls (scan_node w node).
Proof. unfold scan_node. keeps. Qed.

#[export] Hint Resolve keeps_scan_node : calls.

Lemma keeps_scan_nodes (w : world) (data : list json) : keeps_calls (scan_nodes w data).
Proof.
  induction data as [|node rest IH]; cbn [scan_nodes]; keeps.
Qed.

#[export] Hint Resolve keeps_scan_nodes : calls.

Lemma keeps_fetch_tokens (w : world) : keeps_calls (fetch_tokens w).
Proof. unfold fetch_tokens. keeps. Qed.

#[export] Hint Resolve keeps_fetch_tokens : calls.

(** ** main.py: the score threshold of [process_token] *)

Lemma buy_below_min_score (w : world) (mint : string) (token_data : dict) (score : Z) :
  score < MIN_SCORE -> buy_if_qualified w mint token_data score = mret tt.
Proof.
  intros H. unfold buy_if_qualified.
  destruct (score <? MIN_SCORE) eqn:E; [reflexivity|].
  apply Z.ltb_ge in E. lia.
Qed.

Lemma keeps_score_and_buy (w : world) (mint : string) (token_data : dict) :
  keeps_calls (lift (score_token w mint) ≫= fun scored =>
               buy_if_qualified w mint token_data scored.1).
Proof.
  intros st. rewrite M_bind_unfold. unfold lift.
  destruct (score_token w mint) as [[score trace]|e] eqn:E; [|reflexivity].
  pose proof (score_token_at_most_50 w mint score trace E) as Hs.
  cbn [fst]. rewrite buy_below_min_score by (unfold MIN_SCORE; lia). reflexivity.
Qed.

Lemma keeps_process_token (w : world) (token : dict) : keeps_calls (process_token w token).
Proof.
  unfold process_token.
  destruct (negb (truthy (dget token "mint"))); [keeps|].
  destruct (dget token "mint") as [| | |mint| |]; try solve [keeps].
  apply keeps_bind; [keeps|intros closed]. destruct closed; [keeps|].
  apply keeps_bind; [keeps|intros opened]. destruct opened; [keeps|].
  apply keeps_bind; [keeps|intros can]. destruct (negb can); [keeps|].
  destruct (get_token_info w mint) as [token_data|]; [|keeps].
  apply keeps_score_and_buy.
Qed.

Lemma keeps_process_tokens (w : world) (tokens : list dict) :
  keeps_calls (process_tokens w tokens).
Proof.
  induction tokens as [|token rest IH]; cbn [process_tokens].
  - keeps.
  - apply keeps_bind; [apply keeps_process_token|intros _; exact IH].
Qed.

Lemma keeps_run_once (w : world) : keeps_calls (run_once w).
Proof.
  unfold run_once. apply keeps_try; [|keeps].
  apply keeps_bind; [apply keeps_fetch_tokens|intros tokens].
  destruct tokens as [[|t ts]|]; try solve [keeps].
  apply keeps_process_tokens.
Qed.

(** ** The claims on the scorer *)



(** C2. The snapshot of [get_token_info] has no key
    "topHoldersPercentage", so a score that [score_token] returns is at most
    50, below [MIN_SCORE]; [process_token] and [run_once] then make no call
    of the swap executor. *)
Theorem score_stays_below_min_score (w : world) (mint : string) (score : Z) :
  returned_score (score_token w mint) = Some score ->
  score <= 50 /\ score < MIN_SCORE /\
  (forall token, get_token_info w mint = Some token ->
                 token !! "topHoldersPercentage"%string = None) /\
  (forall token_data, buy_if_qualified w mint token_data score = mret tt) /\
  (forall token st, swap_calls (process_token w token st).2 = swap_calls st) /\
  (forall st, swap_calls (run_once w st).2 = swap_calls st).
Proof.
  intros H.
  destruct (score_token w mint) as [[s trace]|] eqn:E; [|discriminate].
  cbn in H. injection H as ->.
  pose proof (score_token_at_most_50 w mint score trace E) as Hs.
  assert (score < MIN_SCORE) by (unfold MIN_SCORE; lia).
  repeat split.
  - lia.
  - assumption.
  - intros token Hinfo.
    destruct (token !! "topHoldersPercentage"%string) eqn:Ek; [|reflexivity].
    exfalso.
    assert (Hin : "topHoldersPercentage"%string ∈ snapshot_keys)
      by (apply (get_token_info_keys w mint token _ Hinfo); eauto).
    revert Hin. not_a_key.
  - intros token_data. apply buy_below_min_score. assumption.
  - intros token. apply keeps_process_token.
  - apply keeps_run_once.
Qed.

(** [MINT_A] earns every point that can be earned: 26 + 12 + 12. *)
Lemma score_stays_below_min_score_witness :
  returned_score (score_token world_A MINT_A) = Some 50 /\
  50 <= 50 /\ 50 < MIN_SCORE /\
  swap_calls (process_token world_A {[ "mint"%string := JStr MINT_A ]} initial_state).2 = [].
Proof.
  assert (E : returned_score (score_token world_A MINT_A) = Some 50)
    by (vm_compute; reflexivity).
  destruct (score_stays_below_min_score world_A MINT_A 50 E) as (H1 & H2 & _ & _ & H5 & _).
  split; [exact E|]. split; [exact H1|]. split; [exact H2|].
  exact (H5 _ initial_state).
Defined.

(** ** The claim on the effective liquidity *)

Lemma valid_pool_gecko (w : world) (liquidity volume : Q) (dex : string) :
  valid_pool w (gecko_pool liquidity volume dex) =
  Ok (if Qleb VALID_POOL_LIQUIDITY liquidity && Qleb MIN_24H_VOLUME volume
      then if bool_decide (dex ∈ ALLOWED_DEXES) then Some liquidity else None
      else None).
Proof.
  unfold valid_pool, gecko_pool. cbn.
  destruct (Qleb VALID_POOL_LIQUIDITY liquidity && Qleb MIN_24H_VOLUME volume); reflexivity.
Qed.

(** C3. With the thresholds of config.py, on the pools 120,000 at an
    allowed DEX, 15,000 at an allowed DEX and 50,000 at a DEX that is not
    allowed, each with a 24h volume of at least 5,000, only the first pool
    is valid and the effective liquidity returned is exactly 120,000. *)
Theorem effective_liquidity_example (w : world) (mint : string)
    (d1 d2 d3 : string) (v1 v2 v3 : Q) :
  gecko_pools w mint = gecko_reply (example_pools d1 d2 d3 v1 v2 v3) ->
  d1 ∈ ALLOWED_DEXES -> d2 ∈ ALLOWED_DEXES -> d3 ∉ ALLOWED_DEXES ->
  (MIN_24H_VOLUME <= v1)%Q -> (MIN_24H_VOLUME <= v2)%Q -> (MIN_24H_VOLUME <= v3)%Q ->
  VALID_POOL_LIQUIDITY = 25000%Q /\ MIN_24H_VOLUME = 5000%Q /\
  MIN_POOL_SHARE = 0.10%Q /\ MIN_LIQUIDITY = 100000%Q /\
  valid_pools w (example_pools d1 d2 d3 v1 v2 v3) = Ok [120000%Q] /\
  exists pools_info,
    compute_effective_liquidity_from_gecko w mint = Ok pools_info /\
    pools_info !! "effective_lp"%string = Some (JNum 120000) /\
    pools_info !! "max_pool_lp"%string = Some (JNum 120000) /\
    pools_info !! "pools"%string = Some (JInt 1).
Proof.
  intros Hreply Hd1 Hd2 Hd3 Hv1 Hv2 Hv3.
  assert (Hvalid : valid_pools w (example_pools d1 d2 d3 v1 v2 v3) = Ok [120000%Q]).
  { unfold example_pools. cbn [valid_pools].
    rewrite !valid_pool_gecko.
    apply Qleb_le in Hv1, Hv2, Hv3. rewrite Hv1, Hv3.
    rewrite (bool_decide_eq_true_2 _ Hd1), (bool_decide_eq_false_2 _ Hd3).
    reflexivity. }
  repeat (split; [reflexivity|]).
  split; [exact Hvalid|].
  unfold compute_effective_liquidity_from_gecko.
  rewrite Hreply. unfold gecko_reply. cbn -[valid_pools example_pools].
  rewrite Hvalid. cbn.
  eexists. split; [reflexivity|].
  rewrite lookup_insert_eq.
  rewrite lookup_insert_ne by done. rewrite lookup_insert_eq.
  rewrite !lookup_insert_ne by done. rewrite lookup_insert_eq.
  split; [|split]; reflexivity.
Qed.

Lemma effective_liquidity_example_witness :
  exists pools_info,
    compute_effective_liquidity_from_gecko world_pools MINT_A = Ok pools_info /\
    pools_info !! "effective_lp"%string = Some (JNum 120000).
Proof.
  destruct (effective_liquidity_example world_pools MINT_A
              "raydium" "orca" "lifinity" 9000 5000 20000)
    as (_ & _ & _ & _ & _ & pools_info & Hc & Hlp & _).
  - reflexivity.
  - vm_compute. reflexivity.
  - vm_compute. reflexivity.
  - vm_compute. discriminate.
  - vm_compute. discriminate.
  - vm_compute. discriminate.
  - vm_compute. discriminate.
  - exists pools_info. split; assumption.
Defined.

(** ** db.py: the upsert on the transaction signature *)

Lemma rows_signed_fresh (sig : string) (rows : list swap_row) :
  Forall (fun r => tx_signature r <> sig) rows -> rows_signed sig rows = [].
Proof.
  unfold rows_signed. induction 1 as [|r rows Hr _ IH]; [reflexivity|].
  rewrite filter_cons, decide_False by exact Hr. exact IH.
Qed.

Lemma rows_not_signed_fresh (sig : string) (rows : list swap_row) :
  Forall (fun r => tx_signature r <> sig) rows -> rows_not_signed sig rows = rows.
Proof.
  unfold rows_not_signed. induction 1 as [|r rows Hr _ IH]; [reflexivity|].
  rewrite filter_cons, decide_True by exact Hr. f_equal. exact IH.
Qed.

Lemma upsert_fresh (new : swap_row) (rows : list swap_row) :
  Forall (fun r => tx_signature r <> tx_signature new) rows ->
  upsert new rows = rows ++ [new].
Proof.
  induction 1 as [|r rows Hr _ IH]; [reflexivity|].
  cbn [upsert]. apply String.eqb_neq in Hr. rewrite Hr, IH. reflexivity.
Qed.

Lemma upsert_last (new old : swap_row) (rows : list swap_row) :
  Forall (fun r => tx_signature r <> tx_signature new) rows ->
  tx_signature old = tx_signature new ->
  upsert new (rows ++ [old]) = rows ++ [update_status new old].
Proof.
  intros Hfresh Hsig. induction Hfresh as [|r rows Hr _ IH].
  - cbn. apply String.eqb_eq in Hsig. rewrite Hsig. reflexivity.
  - cbn [upsert app]. apply String.eqb_neq in Hr. rewrite Hr, IH. reflexivity.
Qed.

Lemma log_values_ok (w : world) (a : log_args) (next_id : Z) (liq : Q) :
  py_decimal w (arg_output_liqudation a) = Ok liq ->
  exists row,
    log_values w a next_id = Ok row /\
    row_id row = next_id /\ wallet row = arg_wallet a /\ action row = arg_action a /\
    entering_price row = arg_entering_price a /\ input_mint row = arg_input_mint a /\
    input_amount_ui row = arg_input_amount_ui a /\
    input_amount_raw row = arg_input_amount_raw a /\
    output_mint row = arg_output_mint a /\
    output_amount_ui row = arg_output_amount_ui a /\
    output_amount_raw row = arg_output_amount_raw a /\
    tx_signature row = str_signature (arg_tx_signature a) /\
    price_impact_pct row = arg_price_impact_pct a /\
    slippage_bps row = arg_slippage_bps a /\
    status row = arg_status a /\ error_message row = arg_error_message a /\
    output_liqudation row = liq /\ created_at row = db_now w /\ updated_at row = db_now w.
Proof.
  intros Hliq. unfold log_values. cbn. rewrite Hliq. cbn.
  eexists. split; [reflexivity|]. cbn. repeat split.
Qed.

Lemma log_swap_persists (w : world) (a : log_args) (st : state) (row : swap_row) :
  db_available w = true ->
  log_values w a (db_next_id st) = Ok row ->
  log_swap w a st = (Ok tt, set_db (upsert row (db_rows st)) (db_next_id st + 1) st).
Proof.
  intros Hdb Hrow. unfold log_swap. rewrite Hdb, Hrow. reflexivity.
Qed.

(** C8. Two calls of [log_swap] with the same transaction signature, the
    signature being new to the table before the first: after the second
    call the table holds exactly one row with that signature; its status,
    error message and update timestamp are those of the second call; every
    other column, the monetary ones among them, is as the first call wrote
    it; the other rows are untouched. *)
Theorem log_swap_twice_updates_status_only (w : world) (a1 a2 : log_args) (st : state)
    (liq1 liq2 : Q) :
  db_available w = true ->
  py_decimal w (arg_output_liqudation a1) = Ok liq1 ->
  py_decimal w (arg_output_liqudation a2) = Ok liq2 ->
  str_signature (arg_tx_signature a2) = str_signature (arg_tx_signature a1) ->
  Forall (fun r => tx_signature r <> str_signature (arg_tx_signature a1)) (db_rows st) ->
  let sig := str_signature (arg_tx_signature a1) in
  let st1 := (log_swap w a1 st).2 in
  let st2 := (log_swap w a2 st1).2 in
  exists first second,
    rows_signed sig (db_rows st1) = [first] /\
    rows_signed sig (db_rows st2) = [second] /\
    rows_not_signed sig (db_rows st2) = db_rows st /\
    (* written by the first call *)
    entering_price first = arg_entering_price a1 /\
    input_amount_ui first = arg_input_amount_ui a1 /\
    input_amount_raw first = arg_input_amount_raw a1 /\
    output_amount_ui first = arg_output_amount_ui a1 /\
    output_amount_raw first = arg_output_amount_raw a1 /\
    output_liqudation first = liq1 /\
    price_impact_pct first = arg_price_impact_pct a1 /\
    slippage_bps first = arg_slippage_bps a1 /\
    (* updated by the second call *)
    status second = arg_status a2 /\
    error_message second = arg_error_message a2 /\
    updated_at second = db_now w /\
    (* kept by the second call *)
    second = update_status second first /\
    entering_price second = entering_price first /\
    input_amount_ui second = input_amount_ui first /\
    input_amount_raw second = input_amount_raw first /\
    output_amount_ui second = output_amount_ui first /\
    output_amount_raw second = output_amount_raw first /\
    output_liqudation second = output_liqudation first /\
    price_impact_pct second = price_impact_pct first /\
    slippage_bps second = slippage_bps first.
Proof.
  intros Hdb Hl1 Hl2 Hsig Hfresh sig st1 st2.
  destruct (log_values_ok w a1 (db_next_id st) liq1 Hl1)
    as (r1 & Hr1 & _ & _ & _ & Hep & _ & Hiu & Hir & _ & Hou & Hor & Hs1 & Hpi & Hsb & _ & _ & Hliq & _).
  destruct (log_values_ok w a2 (db_next_id st1) liq2 Hl2)
    as (r2 & Hr2 & _ & _ & _ & _ & _ & _ & _ & _ & _ & _ & Hs2 & _ & _ & Hst2 & Herr2 & _ & _ & Hup2).
  assert (Hfresh1 : Forall (fun r => tx_signature r <> tx_signature r1) (db_rows st)).
  { rewrite Hs1. exact Hfresh. }
  assert (E1 : db_rows st1 = db_rows st ++ [r1]).
  { unfold st1. rewrite (log_swap_persists w a1 st r1 Hdb Hr1). cbn.
    apply upsert_fresh. exact Hfresh1. }
  assert (Hfresh2 : Forall (fun r => tx_signature r <> tx_signature r2) (db_rows st)).
  { rewrite Hs2, Hsig. exact Hfresh. }
  assert (E2 : db_rows st2 = db_rows st ++ [update_status r2 r1]).
  { unfold st2. rewrite (log_swap_persists w a2 st1 r2 Hdb Hr2). cbn.
    rewrite E1. apply upsert_last; [exact Hfresh2|]. rewrite Hs1, Hs2, Hsig. reflexivity. }
  exists r1, (update_status r2 r1).
  split.
  { rewrite E1. unfold rows_signed. rewrite filter_app.
    fold (rows_signed sig (db_rows st)). rewrite (rows_signed_fresh sig _ Hfresh).
    rewrite filter_cons, decide_True by exact Hs1. reflexivity. }
  split.
  { rewrite E2. unfold rows_signed. rewrite filter_app.
    fold (rows_signed sig (db_rows st)). rewrite (rows_signed_fresh sig _ Hfresh).
    rewrite filter_cons, decide_True by exact Hs1. reflexivity. }
  split.
  { rewrite E2. unfold rows_not_signed. rewrite filter_app.
    fold (rows_not_signed sig (db_rows st)). rewrite (rows_not_signed_fresh sig _ Hfresh).
    rewrite filter_cons, decide_False by (intros Hne; apply Hne; exact Hs1).
    apply app_nil_r. }
  cbn. repeat (split; [first [assumption | reflexivity]|]). reflexivity.
Qed.

(** A confirmed buy is logged, then logged again as timed out with other
    amounts: one row, the amounts of the first call, the status of the
    second. *)
Lemma log_swap_twice_updates_status_only_witness :
  exists row,
    rows_signed "5igSig"
      (db_rows (log_swap world_A buy_A_again (log_swap world_A buy_A_logged initial_state).2).2)
    = [row] /\
    status row = "timeout"%string /\
    entering_price row = 0.5%Q /\ input_amount_ui row = 1%Q /\
    output_amount_ui row = 2%Q /\ output_liqudation row = 150000%Q.
Proof.
  destruct (log_swap_twice_updates_status_only world_A buy_A_logged buy_A_again
              initial_state 150000 90000)
    as (r1 & r2 & _ & H2 & _ & Hep & Hiu & _ & Hou & _ & Hliq & _ & _ & Hst & _ & _ & _
        & Kep & Kiu & _ & Kou & _ & Kliq & _).
  - reflexivity.
  - reflexivity.
  - reflexivity.
  - reflexivity.
  - constructor.
  - exists r2. split; [exact H2|].
    rewrite Hst, Kep, Kiu, Kou, Kliq, Hep, Hiu, Hou, Hliq.
    repeat split.
Defined.

(** ** trader.py: every call of [swap] is recorded once *)

Lemma keeps_exits_log_swap (w : world) (a : log_args) : keeps exit_log (log_swap w a).
Proof.
  intros st. unfold log_swap.
  destruct (negb (db_available w)); [reflexivity|].
  destruct (log_values w a (db_next_id st)); reflexivity.
Qed.

#[export] Hint Resolve keeps_exits_log_swap : calls.

Lemma keeps_swap_with_quote {S : Type} (proj : state -> S) (w : world) (input_mint output_mint action wallet_str : string)
    (token_in token_out : option dict) (input_decimals output_decimals in_amount_raw : Z)
    (quote : json) :
  (forall a, keeps proj (log_swap w a)) ->
  keeps proj (swap_with_quote w input_mint output_mint action wallet_str token_in token_out
                input_decimals output_decimals in_amount_raw quote).
Proof.
  intros Hlog. unfold swap_with_quote. keeps; apply Hlog.
Qed.

Lemma keeps_swap_live {S : Type} (proj : state -> S) (w : world)
    (input_mint output_mint : string) (amount : Q) (action : string) :
  (forall a, keeps proj (log_swap w a)) ->
  keeps proj (swap_live w input_mint output_mint amount action).
Proof.
  intros Hlog. unfold swap_live.
  apply keeps_bind; [keeps|intros wallet_str].
  apply keeps_bind; [keeps|intros input_decimals].
  apply keeps_bind; [keeps|intros output_decimals].
  apply keeps_bind; [keeps|intros quote].
  destruct quote as [q|]; [|keeps].
  destruct (negb (truthy q)); [keeps|].
  apply keeps_swap_with_quote. exact Hlog.
Qed.

Lemma keeps_exits_swap (w : world) (input_mint output_mint : string) (amount : Q)
    (action : string) :
  keeps exit_log (swap w input_mint output_mint amount action).
Proof.
  unfold swap.
  apply keeps_bind; [apply keeps_modify; reflexivity|intros _].
  destruct TESTING_MODE; [keeps|].
  apply keeps_swap_live. apply keeps_exits_log_swap.
Qed.

Lemma swap_records_call (w : world) (input_mint output_mint : string) (amount : Q)
    (action : string) (st : state) :
  swap_calls (swap w input_mint output_mint amount action st).2 =
  swap_calls st ++ [ {| call_input_mint := input_mint; call_output_mint := output_mint;
                        call_amount := amount; call_action := action |} ].
Proof.
  unfold swap. rewrite M_bind_unfold. cbn [modify].
  destruct TESTING_MODE; [reflexivity|].
  rewrite (keeps_swap_live swap_calls w input_mint output_mint amount action
             (keeps_log_swap w)).
  reflexivity.
Qed.

(** ** wmain.py: the exits of the monitoring loop *)

Lemma exit_position_calls (w : world) (t : holding) (k : exit_kind) (st : state) :
  swap_calls (exit_position w t k st).2 = swap_calls st ++ [sell_call t].
Proof.
  unfold exit_position. rewrite M_bind_unfold. cbn [modify].
  unfold try_except. rewrite M_bind_unfold.
  pose proof (swap_records_call w (h_mint t) USDT (h_ui_amount t) "sell" (record_exit (h_mint t) k st)) as H.
  destruct (swap w (h_mint t) USDT (h_ui_amount t) "sell" (record_exit (h_mint t) k st))
    as [[status|e] st']; exact H.
Qed.

Lemma exit_position_exits (w : world) (t : holding) (k : exit_kind) (st : state) :
  exit_log (exit_position w t k st).2 = exit_log st ++ [(h_mint t, k)].
Proof.
  unfold exit_position. rewrite M_bind_unfold. cbn [modify].
  unfold try_except. rewrite M_bind_unfold.
  pose proof (keeps_exits_swap w (h_mint t) USDT (h_ui_amount t) "sell" (record_exit (h_mint t) k st)) as H.
  destruct (swap w (h_mint t) USDT (h_ui_amount t) "sell" (record_exit (h_mint t) k st))
    as [[status|e] st']; exact H.
Qed.

Lemma monitor_token_priced (w : world) (st : state) (t : holding)
    (rug_score : json) (price entry_price : Q) :
  position_priced w st t rug_score price entry_price ->
  monitor_token w t st = exit_tests w t rug_score price entry_price st.
Proof.
  intros (Hex & Hprice & [score Hscore] & Hrug & Hdb & (last_swap & Hlast & Hentry) & Hpos & Hpos').
  unfold monitor_token, price_of, rug_score_of in *.
  rewrite bool_decide_eq_false_2 by exact Hex.
  destruct (get_token_info w (h_mint t)) as [token_info|]; [|discriminate].
  injection Hprice as Hprice.
  rewrite M_bind_unfold. unfold lift at 1.
  destruct (score_token w (h_mint t)) as [scored|]; [|discriminate].
  destruct (get_token_rug_info w (h_mint t)) as [token_rug|]; [|discriminate].
  injection Hrug as Hrug.
  rewrite M_bind_unfold. unfold get_swaps_for_token. rewrite Hdb. cbn [negb].
  destruct (swaps_of (h_mint t) (db_rows st)) as [|l rest]; [discriminate|].
  injection Hlast as ->.
  rewrite Hentry, Hprice, Hrug.
  apply Qleb_gt in Hpos, Hpos'. rewrite Hpos, Hpos'. reflexivity.
Qed.

Lemma adds_none {A T : Type} (proj : state -> list T) (m : M A) :
  keeps proj m -> adds_at_most_one proj m.
Proof.
  intros H st. exists []. rewrite app_nil_r. split; [apply H|cbn; lia].
Qed.

Lemma adds_after {A B T : Type} (proj : state -> list T) (m : M A) (f : A -> M B) :
  keeps proj m -> (forall a, adds_at_most_one proj (f a)) ->
  adds_at_most_one proj (m ≫= f).
Proof.
  intros Hm Hf st. rewrite M_bind_unfold.
  specialize (Hm st). destruct (m st) as [[a|e] st']; cbn in *.
  - destruct (Hf a st') as (new & Hnew & Hlen). exists new. rewrite Hnew, Hm. auto.
  - exists []. rewrite app_nil_r. split; [exact Hm|cbn; lia].
Qed.

Lemma keeps_exits_get_swaps_for_token (w : world) (mint : string) :
  keeps exit_log (get_swaps_for_token w mint).
Proof. intros st. unfold get_swaps_for_token. destruct (negb (db_available w)); reflexivity. Qed.

Lemma exit_position_adds_call (w : world) (t : holding) (k : exit_kind) :
  adds_at_most_one swap_calls (exit_position w t k).
Proof.
  intros st. exists [sell_call t]. split; [apply exit_position_calls|cbn; lia].
Qed.

Lemma exit_position_adds_exit (w : world) (t : holding) (k : exit_kind) :
  adds_at_most_one exit_log (exit_position w t k).
Proof.
  intros st. exists [(h_mint t, k)]. split; [apply exit_position_exits|cbn; lia].
Qed.

(** Whatever the services answer, one pass over a held token enters at most
    one exit branch and calls the swap executor at most once. *)
Lemma monitor_token_at_most_one {T : Type} (proj : state -> list T) (w : world) (t : holding) :
  keeps proj (get_swaps_for_token w (h_mint t)) ->
  (forall k, adds_at_most_one proj (exit_position w t k)) ->
  adds_at_most_one proj (monitor_token w t).
Proof.
  intros Hswaps Hexit. unfold monitor_token.
  destruct (bool_decide (h_mint t ∈ EXCLUDED_TOKENS)); [apply adds_none; keeps|].
  destruct (get_token_info w (h_mint t)) as [token_info|]; [|apply adds_none; keeps].
  apply adds_after; [keeps|intros scored].
  destruct (get_token_rug_info w (h_mint t)) as [token_rug|]; [|apply adds_none; keeps].
  apply adds_after; [exact Hswaps|intros swaps].
  destruct swaps as [|last_swap rest]; [apply adds_none; keeps|].
  destruct (Qleb (entering_price last_swap) 0 || Qleb _ 0); [apply adds_none; keeps|].
  destruct (py_ne_int _ RUG_SCORE); [apply Hexit|].
  destruct (Qleb TAKE_PROFIT _); [apply Hexit|].
  destruct (Qleb _ STOP_LOSS); [apply Hexit|].
  apply adds_none; keeps.
Qed.

(** ** The claims on the monitoring loop *)


Lemma MINT_A_not_excluded : h_mint held_A ∉ EXCLUDED_TOKENS.
Proof.
  unfold EXCLUDED_TOKENS. rewrite not_elem_of_singleton. discriminate.
Qed.





(** ** The claim on the capital check *)

Lemma calculate_position_size_needs_usdt (w : world) (usdt_balance : Q) (r : bool) :
  get_token_balance w USDT = Ok usdt_balance ->
  (usdt_balance < AMOUNT_PER_TRADE)%Q ->
  calculate_position_size w = Ok r -> r = false.
Proof.
  intros Hbal Hlow. unfold calculate_position_size. rewrite Hbal. cbn.
  destruct (get_sol_balance w) as [sol_balance|]; cbn; [|discriminate].
  assert (Hcmp : Qltb AMOUNT_PER_TRADE usdt_balance = false).
  { apply Qltb_ge. apply Qlt_le_weak. exact Hlow. }
  destruct (get_token_price w WSOL) as [[| b | q | s | l | o]|]; cbn;
    try discriminate; try (intros [= <-]; reflexivity).
  - rewrite Hcmp. intros [= <-]. reflexivity.
  - rewrite Hcmp. intros [= <-]. reflexivity.
Qed.

Lemma keeps_buy_without_capital (w : world) (mint : string) (token_data : dict) (score : Z) :
  (forall r, calculate_position_size w = Ok r -> r = false) ->
  keeps_calls (buy_if_qualified w mint token_data score).
Proof.
  intros Hcap st. unfold buy_if_qualified.
  destruct (score <? MIN_SCORE); [reflexivity|].
  rewrite M_bind_unfold. unfold lift at 1.
  destruct (calculate_position_size w) as [enough|e] eqn:E; [|reflexivity].
  rewrite (Hcap enough eq_refl). reflexivity.
Qed.

(** C10. With a USDT balance below [AMOUNT_PER_TRADE], the capital check
    never answers True; it answers False whenever the SOL balance is read
    and the SOL price is a number or missing; and [process_token] makes no
    call of the swap executor, whatever the score handed to the purchase
    step. *)
Theorem low_usdt_balance_blocks_purchase (w : world) (usdt_balance : Q) :
  get_token_balance w USDT = Ok usdt_balance ->
  (usdt_balance < AMOUNT_PER_TRADE)%Q ->
  (forall r, calculate_position_size w = Ok r -> r = false) /\
  (forall sol_balance,
     get_sol_balance w = Ok sol_balance ->
     match get_token_price w WSOL with
     | Some sol_price => numeric_or_null sol_price
     | None => True
     end ->
     calculate_position_size w = Ok false) /\
  (forall mint token_data score st,
     swap_calls (buy_if_qualified w mint token_data score st).2 = swap_calls st) /\
  (forall token st, swap_calls (process_token w token st).2 = swap_calls st).
Proof.
  intros Hbal Hlow.
  assert (Hcap : forall r, calculate_position_size w = Ok r -> r = false).
  { intros r. apply (calculate_position_size_needs_usdt w usdt_balance r Hbal Hlow). }
  split; [exact Hcap|]. split; [|split].
  - intros sol_balance Hsol Hprice.
    destruct (calculate_position_size w) as [r|e] eqn:E.
    + rewrite (Hcap r eq_refl). reflexivity.
    + exfalso. revert E. unfold calculate_position_size. rewrite Hbal, Hsol. cbn.
      destruct (get_token_price w WSOL) as [[| b | q | s | l | o]|]; cbn;
        try discriminate; contradiction.
  - intros mint token_data score. apply keeps_buy_without_capital. exact Hcap.
  - intros token. apply keeps_process_token.
Qed.

(** Half a USDT in the wallet and a score of 100 handed to the purchase
    step: the capital check answers False and nothing is bought. *)
Lemma low_usdt_balance_blocks_purchase_witness :
  get_token_balance world_A_poor USDT = Ok 0.5%Q /\
  (0.5 < AMOUNT_PER_TRADE)%Q /\
  calculate_position_size world_A_poor = Ok false /\
  swap_calls (buy_if_qualified world_A_poor MINT_A ∅ 100 initial_state).2 = [].
Proof.
  assert (Hbal : get_token_balance world_A_poor USDT = Ok 0.5%Q) by reflexivity.
  assert (Hlow : (0.5 < AMOUNT_PER_TRADE)%Q) by (vm_compute; reflexivity).
  destruct (low_usdt_balance_blocks_purchase world_A_poor 0.5 Hbal Hlow)
    as (_ & Hfalse & Hbuy & _).
  split; [exact Hbal|]. split; [exact Hlow|]. split.
  - eapply Hfalse; [vm_compute; reflexivity|vm_compute; exact I].
  - exact (Hbuy MINT_A ∅ 100 initial_state).
Defined.

(** ** scanner.py: what reaches the candidate list *)

Lemma bind_Ok_inv {A B : Type} (m : M A) (f : A -> M B) (st st2 : state) (b : B) :
  (m ≫= f) st = (Ok b, st2) ->
  exists a st1, m st = (Ok a, st1) /\ f a st1 = (Ok b, st2).
Proof.
  rewrite M_bind_unfold. destruct (m st) as [[a|e] st1]; [|discriminate].
  intros H. exists a, st1. auto.
Qed.

Lemma ret_Ok_inv {A : Type} (a b : A) (st st2 : state) :
  (mret a : M A) st = (Ok b, st2) -> a = b /\ st = st2.
Proof. intros [= -> ->]. auto. Qed.

Lemma lift_Ok_inv {A : Type} (r : res A) (a : A) (st st2 : state) :
  lift r st = (Ok a, st2) -> r = Ok a /\ st = st2.
Proof. unfold lift. intros [= -> ->]. auto. Qed.

Lemma announce_token_result (w : world) (node : json) (mint : string) (token_info token : dict)
    (st st2 : state) :
  announce_token w node mint token_info st = (Ok token, st2) -> token = candidate mint.
Proof.
  unfold announce_token. intros H.
  apply bind_Ok_inv in H as (name & s1 & _ & H).
  apply bind_Ok_inv in H as (f1 & s2 & _ & H).
  apply bind_Ok_inv in H as (f2 & s3 & _ & H).
  apply bind_Ok_inv in H as (f3 & s4 & _ & H).
  apply bind_Ok_inv in H as (got & s5 & _ & H).
  destruct (bool_decide (mint ∈ SENT_MINTS got)).
  - apply ret_Ok_inv in H as [<- _]. reflexivity.
  - apply bind_Ok_inv in H as (f4 & s6 & _ & H).
    apply bind_Ok_inv in H as (f5 & s7 & _ & H).
    apply bind_Ok_inv in H as (f6 & s8 & _ & H).
    apply ret_Ok_inv in H as [<- _]. reflexivity.
Qed.

(** A node enters the list only with a rug report whose score equals
    [RUG_SCORE]. *)
Lemma scan_node_passed (w : world) (node : json) (token : dict) (st st2 : state) :
  scan_node w node st = (Ok (Some token), st2) ->
  exists mint rug_score,
    token = candidate mint /\
    rug_score_of w mint = Some rug_score /\
    py_ne_int rug_score RUG_SCORE = false.
Proof.
  unfold scan_node, rug_score_of. intros H.
  apply bind_Ok_inv in H as (mint_v & s1 & _ & H).
  destruct (negb (truthy mint_v)).
  { apply ret_Ok_inv in H as [[=] _]. }
  destruct mint_v as [| | |mint| |]; try (unfold raise in H; discriminate H).
  destruct (get_token_info w mint) as [token_info|].
  2:{ apply ret_Ok_inv in H as [[=] _]. }
  destruct (get_token_rug_info w mint) as [rug_info|] eqn:Er.
  2:{ apply ret_Ok_inv in H as [[=] _]. }
  apply bind_Ok_inv in H as (rug_score & s2 & Hrug & H).
  apply lift_Ok_inv in Hrug as [[= <-] _].
  apply bind_Ok_inv in H as (liquidity & s3 & _ & H).
  destruct (py_ne_int (dget rug_info "rug_score") RUG_SCORE) eqn:Ene.
  { apply ret_Ok_inv in H as [[=] _]. }
  destruct (Qltb liquidity MIN_LIQUIDITY).
  { apply ret_Ok_inv in H as [[=] _]. }
  apply bind_Ok_inv in H as (tok & s4 & Hann & H).
  apply ret_Ok_inv in H as [[= <-] _].
  apply announce_token_result in Hann as ->.
  exists mint, (dget rug_info "rug_score"). rewrite Er. auto.
Qed.

Lemma scan_nodes_passed (w : world) (data : list json) (tokens : list dict) (st st2 : state) :
  scan_nodes w data st = (Ok tokens, st2) ->
  Forall (fun token => exists mint rug_score,
            token = candidate mint /\
            rug_score_of w mint = Some rug_score /\
            py_ne_int rug_score RUG_SCORE = false) tokens.
Proof.
  revert tokens st st2. induction data as [|node rest IH]; intros tokens st st2 H.
  - apply ret_Ok_inv in H as [<- _]. constructor.
  - cbn [scan_nodes] in H.
    apply bind_Ok_inv in H as (t & s1 & Hnode & H).
    apply bind_Ok_inv in H as (ts & s2 & Hrest & H).
    apply ret_Ok_inv in H as [<- _].
    specialize (IH ts s1 s2 Hrest).
    destruct t as [token|]; [|exact IH].
    constructor; [|exact IH].
    apply (scan_node_passed w node token st s1 Hnode).
Qed.

Lemma fetch_tokens_passed (w : world) (tokens : list dict) (st st2 : state) :
  fetch_tokens w st = (Ok (Some tokens), st2) ->
  Forall (fun token => exists mint rug_score,
            token = candidate mint /\
            rug_score_of w mint = Some rug_score /\
            py_ne_int rug_score RUG_SCORE = false) tokens.
Proof.
  unfold fetch_tokens. intros H.
  destruct (pumpfun_feed w) as [|status body]; [unfold raise in H; discriminate H|].
  destruct (negb (status =? 200)).
  { apply ret_Ok_inv in H as [[=] _]. }
  apply bind_Ok_inv in H as (data & s1 & _ & H).
  destruct data as [| | | |nodes|]; try (apply ret_Ok_inv in H as [[=] _]).
  apply bind_Ok_inv in H as (ts & s2 & Hscan & H).
  apply ret_Ok_inv in H as [[= <-] _].
  apply (scan_nodes_passed w nodes ts s1 s2 Hscan).
Qed.

Lemma candidate_inj (m1 m2 : string) : candidate m1 = candidate m2 -> m1 = m2.
Proof.
  unfold candidate. intros H.
  assert (E : ({[ "mint"%string := JStr m1 ]} : dict) !! "mint"%string
              = ({[ "mint"%string := JStr m2 ]} : dict) !! "mint"%string) by (rewrite H; reflexivity).
  rewrite !lookup_singleton_eq in E. congruence.
Qed.

(** [run_once] hands to [process_token] the list of [fetch_tokens] and
    nothing else. *)
Lemma run_once_processes_candidates (w : world) (tokens : list dict) (st st1 : state) :
  fetch_tokens w st = (Ok (Some tokens), st1) ->
  run_once w st = try_except (process_tokens w tokens) (mret tt) st1.
Proof.
  intros H. unfold run_once, try_except. rewrite M_bind_unfold, H.
  destruct tokens as [|t ts]; reflexivity.
Qed.

(** ** The claim on the rug-score filter *)

(** C4. A token whose fetched rug score differs from [RUG_SCORE] is not in
    the candidate list of [fetch_tokens]; [run_once] hands only that list
    to [process_token], and records no swap call. *)
Theorem rug_score_filters_candidates (w : world) (st : state) (mint : string)
    (rug_score : json) :
  rug_score_of w mint = Some rug_score ->
  py_ne_int rug_score RUG_SCORE = true ->
  (forall tokens st1,
     fetch_tokens w st = (Ok (Some tokens), st1) ->
     (candidate mint ∉ tokens) /\
     run_once w st = try_except (process_tokens w tokens) (mret tt) st1) /\
  swap_calls (run_once w st).2 = swap_calls st.
Proof.
  intros Hrug Hne. split; [|apply keeps_run_once].
  intros tokens st1 Hfetch.
  split; [|exact (run_once_processes_candidates w tokens st st1 Hfetch)].
  intros Hin.
  pose proof (fetch_tokens_passed w tokens st st1 Hfetch) as Hall.
  rewrite Forall_forall in Hall.
  destruct (Hall _ Hin) as (m & r & Hc & Hr & He).
  apply candidate_inj in Hc as <-.
  rewrite Hrug in Hr. injection Hr as <-. congruence.
Qed.

(** The feed lists [MINT_A]: under a rug score of 500 the candidate list is
    empty, under a rug score of 1 the token is a candidate. *)
Lemma rug_score_filters_candidates_witness :
  rug_score_of world_feed_risky MINT_A = Some (JInt 500) /\
  (fetch_tokens world_feed_risky initial_state).1 = Ok (Some []) /\
  (fetch_tokens world_feed_clean initial_state).1 = Ok (Some [candidate MINT_A]) /\
  swap_calls (run_once world_feed_risky initial_state).2 = [].
Proof.
  assert (Hrug : rug_score_of world_feed_risky MINT_A = Some (JInt 500))
    by (vm_compute; reflexivity).
  destruct (rug_score_filters_candidates world_feed_risky initial_state MINT_A (JInt 500) Hrug)
    as [_ Hcalls].
  - vm_compute. reflexivity.
  - split; [exact Hrug|].
    split; [vm_compute; reflexivity|].
    split; [vm_compute; reflexivity|].
    exact Hcalls.
Defined.

(** ** trader.py: what [swap] persists *)

Lemma res_bind_Ok_inv {A B : Type} (m : res A) (f : A -> res B) (b : B) :
  m ≫= f = Ok b -> exists a, m = Ok a /\ f a = Ok b.
Proof. destruct m as [a|e]; [|discriminate]. intros H. eauto. Qed.

Lemma bind_lift_Ok {A B : Type} (a : A) (f : A -> M B) (st : state) :
  (lift (Ok a) ≫= f) st = f a st.
Proof. reflexivity. Qed.

Lemma py_item_truthy (v x : json) (k : string) : py_item v k = Ok x -> truthy v = true.
Proof.
  destruct v as [| | | | |o]; try discriminate. destruct o; [discriminate|reflexivity].
Qed.

(** What a quote that [get_quote] returned is known to contain. *)
Lemma get_quote_inv (w : world) (input_mint output_mint : string) (amount : Q) (quote : json) :
  get_quote w input_mint output_mint amount = Ok (Some quote) ->
  truthy quote = true /\
  (exists outAmount out_amount_raw,
     py_item quote "outAmount" = Ok outAmount /\ py_int w outAmount = Ok out_amount_raw) /\
  (exists priceImpactPct impact,
     py_get quote "priceImpactPct" (JInt 0) = Ok priceImpactPct /\
     py_float w priceImpactPct = Ok impact) /\
  (exists symbol, symbol_of (get_token_info w output_mint) = Ok symbol).
Proof.
  unfold get_quote. intros H.
  apply res_bind_Ok_inv in H as (din & _ & H).
  apply res_bind_Ok_inv in H as (dout & _ & H).
  destruct (jup_quote w input_mint output_mint _) as [|status body]; [discriminate|].
  destruct (negb (status =? 200)); [discriminate|].
  apply res_bind_Ok_inv in H as (data & _ & H).
  apply res_bind_Ok_inv in H as (inAmount & Hin & H).
  apply res_bind_Ok_inv in H as (in_raw & _ & H).
  apply res_bind_Ok_inv in H as (outAmount & Hout & H).
  apply res_bind_Ok_inv in H as (out_raw & Hout_raw & H).
  apply res_bind_Ok_inv in H as (fee & _ & H).
  apply res_bind_Ok_inv in H as (symbol & Hsym & H).
  apply res_bind_Ok_inv in H as (pi & Hpi & H).
  apply res_bind_Ok_inv in H as (impact & Himpact & H).
  injection H as <-.
  split; [exact (py_item_truthy _ _ _ Hin)|].
  split; [eauto|]. split; eauto.
Qed.

Lemma send_and_confirm_status (w : world) (signed_tx status : string) (sig : option string) :
  send_and_confirm w signed_tx = (status, sig) ->
  status = "success"%string \/ status = "timeout"%string \/ status = "failed"%string.
Proof.
  unfold send_and_confirm.
  destruct (rpc_send w signed_tx) as [s|]; [|intros [= <- _]; auto].
  destruct (rpc_confirm w s) as [[|]|]; intros [= <- _]; auto.
Qed.

(** The row of the signature is in the table after the upsert, with the
    status and error message of the new values. *)
Lemma upsert_has (new : swap_row) (rows : list swap_row) :
  exists row, row ∈ upsert new rows /\
              tx_signature row = tx_signature new /\
              status row = status new /\ error_message row = error_message new.
Proof.
  induction rows as [|r rest (row & Hin & Hrow)]; cbn [upsert].
  - exists new. split; [apply list_elem_of_singleton; reflexivity|auto].
  - destruct (String.eqb (tx_signature r) (tx_signature new)) eqn:E.
    + apply String.eqb_eq in E. exists (update_status new r).
      split; [apply elem_of_cons; auto|]. cbn. auto.
    + exists row. split; [apply elem_of_cons; auto|exact Hrow].
Qed.

Lemma swap_without_quote (w : world) (input_mint output_mint action : string) (amount : Q)
    (st : state) :
  get_quote w input_mint output_mint amount = Ok None ->
  db_rows (swap w input_mint output_mint amount action st).2 = db_rows st.
Proof.
  intros Hquote. unfold swap. rewrite M_bind_unfold. cbn [modify].
  unfold TESTING_MODE, swap_live. cbv zeta.
  rewrite M_bind_unfold. unfold lift at 1.
  destruct (get_wallet w) as [wallet_str|]; [|reflexivity].
  rewrite M_bind_unfold. unfold lift at 1.
  destruct (mint_decimals input_mint _) as [din|]; [|reflexivity].
  rewrite M_bind_unfold. unfold lift at 1.
  destruct (mint_decimals output_mint _) as [dout|]; [|reflexivity].
  rewrite Hquote, bind_lift_Ok. reflexivity.
Qed.

(** C6, amended. A call of [swap] in live mode that obtains a quote and a
    signed swap transaction returns the status of the send-and-confirm step
    (success, timeout, or failed when sending or confirming raised) and,
    the database being reachable and the liquidity of the output token
    being a number, leaves in the table a row with the signature and the
    status of that attempt. A call for which the quote endpoint does not
    answer 200 returns before the logging step and leaves the table as it
    was. *)
Theorem swap_logs_sent_attempt (w : world) (input_mint output_mint action : string)
    (amount : Q) (st : state) (wallet_str signed_tx outcome : string) (din dout : Z)
    (symbol_in liq_json quote swap_data encoded : json) (liq : Q) (sig : option string) :
  get_wallet w = Ok wallet_str ->
  mint_decimals input_mint (get_token_info w input_mint) = Ok din ->
  mint_decimals output_mint (get_token_info w output_mint) = Ok dout ->
  symbol_of (get_token_info w input_mint) = Ok symbol_in ->
  get_quote w input_mint output_mint amount = Ok (Some quote) ->
  Qeq_bool (inject_Z (Qtrunc (amount * pow10 din)) / pow10 din) 0 = false ->
  jup_swap w quote wallet_str = Reply 200 (Some swap_data) ->
  py_item swap_data "swapTransaction" = Ok encoded ->
  sign_tx w encoded = Ok signed_tx ->
  send_and_confirm w signed_tx = (outcome, sig) ->
  output_liquidity w output_mint = Some liq_json ->
  py_decimal w liq_json = Ok liq ->
  db_available w = true ->
  TESTING_MODE = false /\
  (swap w input_mint output_mint amount action st).1 = Ok outcome /\
  (outcome = "success"%string \/ outcome = "timeout"%string \/ outcome = "failed"%string) /\
  (exists row,
     row ∈ db_rows (swap w input_mint output_mint amount action st).2 /\
     tx_signature row = str_signature sig /\ status row = outcome) /\
  (forall w0 input0 output0 action0 amount0 st0,
     get_quote w0 input0 output0 amount0 = Ok None ->
     db_rows (swap w0 input0 output0 amount0 action0 st0).2 = db_rows st0).
Proof.
  intros Hwallet Hdin Hdout Hsym_in Hquote Hnz Hswap Hencoded Hsigned Hsend Hliqj Hliq Hdb.
  destruct (get_quote_inv w input_mint output_mint amount quote Hquote)
    as (Htruthy & (outAmount & out_raw & Hout & Hout_raw)
        & (pi & impact & Hpi & Himpact) & (symbol_out & Hsym_out)).
  split; [reflexivity|].
  assert (Hrun : exists row,
    swap w input_mint output_mint amount action st =
    (Ok outcome,
     set_db (upsert row (db_rows st)) (db_next_id st + 1)
       (record_call {| call_input_mint := input_mint; call_output_mint := output_mint;
                       call_amount := amount; call_action := action |} st)) /\
    tx_signature row = str_signature sig /\ status row = outcome).
  { unfold swap. rewrite M_bind_unfold. cbn [modify].
    unfold TESTING_MODE, swap_live. cbv zeta.
    rewrite Hwallet, bind_lift_Ok, Hdin, bind_lift_Ok, Hdout, bind_lift_Ok.
    rewrite Hquote, bind_lift_Ok, Htruthy. cbn [negb].
    unfold swap_with_quote. cbv zeta.
    rewrite Hout, bind_lift_Ok, Hout_raw, bind_lift_Ok.
    rewrite Hpi, bind_lift_Ok, Himpact, bind_lift_Ok.
    rewrite Hsym_in, bind_lift_Ok, Hsym_out, bind_lift_Ok.
    rewrite Hnz, Hswap.
    change (negb (200 =? 200)) with false. cbv iota.
    cbn [json_body]. rewrite bind_lift_Ok, Hencoded, bind_lift_Ok, Hsigned, bind_lift_Ok.
    rewrite Hsend.
    unfold output_liquidity in Hliqj.
    destruct (get_token_info w output_mint) as [token_out|]; [|discriminate].
    injection Hliqj as Hliqj. rewrite Hliqj, bind_lift_Ok.
    rewrite M_bind_unfold.
    match goal with
    | |- context [log_swap w ?a ?s] =>
        destruct (log_values_ok w a (db_next_id s) liq Hliq)
          as (row & Hrow & _ & _ & _ & _ & _ & _ & _ & _ & _ & _ & Hsig & _ & _ & Hst & _);
        rewrite (log_swap_persists w a s row Hdb Hrow)
    end.
    exists row. split; [reflexivity|]. split; [exact Hsig|exact Hst]. }
  destruct Hrun as (row & Hrun & Hsig & Hst).
  rewrite Hrun. cbn [fst snd].
  split; [reflexivity|].
  split; [exact (send_and_confirm_status w signed_tx outcome sig Hsend)|].
  split.
  - destruct (upsert_has row (db_rows st)) as (r & Hin & Hr_sig & Hr_st & _).
    exists r. split; [exact Hin|]. rewrite Hr_sig, Hr_st. auto.
  - intros w0 input0 output0 action0 amount0 st0. apply swap_without_quote.
Qed.

(** A buy of [MINT_A] whose confirmation times out: the call returns
    "timeout" and the row of the signature holds that status. *)
Lemma swap_logs_sent_attempt_witness :
  (swap world_timeout USDT MINT_A 1 "buy" initial_state).1 = Ok "timeout"%string /\
  exists row,
    row ∈ db_rows (swap world_timeout USDT MINT_A 1 "buy" initial_state).2 /\
    tx_signature row = "5igSig"%string /\ status row = "timeout"%string.
Proof.
  edestruct (swap_logs_sent_attempt world_timeout USDT MINT_A "buy" 1 initial_state
               "wallet" "signed" "timeout" 6 6 (JStr "TKN") (JNum 150000))
    as (_ & Hret & _ & Hrow & _).
  - reflexivity.
  - vm_compute. reflexivity.
  - vm_compute. reflexivity.
  - vm_compute. reflexivity.
  - vm_compute. reflexivity.
  - vm_compute. reflexivity.
  - vm_compute. reflexivity.
  - vm_compute. reflexivity.
  - vm_compute. reflexivity.
  - vm_compute. reflexivity.
  - vm_compute. reflexivity.
  - vm_compute. reflexivity.
  - reflexivity.
  - split; [exact Hret|exact Hrow].
Defined.

(** The claim as stated fails: in live mode, a call for which the quote
    endpoint answers 429 returns "failed" and leaves the table empty. *)
Lemma swap_without_quote_persists_nothing :
  TESTING_MODE = false /\
  get_quote world_no_quote USDT MINT_A 1 = Ok None /\
  (swap world_no_quote USDT MINT_A 1 "buy" initial_state).1 = Ok "failed"%string /\
  length (swap_calls (swap world_no_quote USDT MINT_A 1 "buy" initial_state).2) = 1%nat /\
  db_rows (swap world_no_quote USDT MINT_A 1 "buy" initial_state).2 = [].
Proof.
  split; [reflexivity|].
  split; [vm_compute; reflexivity|].
  split; [vm_compute; reflexivity|].
  split; vm_compute; reflexivity.
Qed.

(** ** The claim on upstream failures *)

Lemma gecko_transport_failure (w : world) (mint : string) :
  gecko_pools w mint = Transport ->
  compute_effective_liquidity_from_gecko w mint = Ok {[ "effective_lp"%string := JNum 0 ]}.
Proof.
  intros H. unfold compute_effective_liquidity_from_gecko. rewrite H. reflexivity.
Qed.

Lemma gecko_http_failure (w : world) (mint : string) (status : Z) (body : option json) :
  gecko_pools w mint = Reply status body -> raise_for_status status = true ->
  compute_effective_liquidity_from_gecko w mint = Ok {[ "effective_lp"%string := JNum 0 ]}.
Proof.
  intros H Hst. unfold compute_effective_liquidity_from_gecko. rewrite H, Hst. reflexivity.
Qed.

(** C7, at the failing inputs. [get_token_info] answers [None] when the
    asset search is down, but the monitoring loop calls [.get] on that
    answer: with [MINT_A] and [MINT_B] held, the pass over [MINT_A] raises
    AttributeError, the cycle ends, and [MINT_B], which a pass of its own
    sells, is never looked at. The discovery loop does the same after its
    filters: the failure on the first candidate ends the loop over the
    list. A body that is not JSON makes
    [compute_effective_liquidity_from_gecko] raise, since [r.json()] is
    outside its [try]. *)
Theorem upstream_failure_aborts_cycle :
  get_token_info world_down_held MINT_A = None /\
  (get_wallet_tokens_cached world_down_held state_B_bought).1 = Ok [held_A; held_B] /\
  (check_and_monitor world_down_held state_B_bought).1 = Raise AttributeError /\
  swap_calls (check_and_monitor world_down_held state_B_bought).2 = [] /\
  (monitor_tokens world_down_held [held_B] state_B_bought).1 = Ok tt /\
  swap_calls (monitor_tokens world_down_held [held_B] state_B_bought).2 = [sell_call held_B] /\
  (process_tokens world_down [candidate MINT_A; candidate MINT_B] initial_state).1
    = Raise AttributeError /\
  (process_tokens world_down [candidate MINT_B] initial_state).1 = Ok tt /\
  gecko_pools world_gecko_garbled MINT_A = Reply 200 None /\
  compute_effective_liquidity_from_gecko world_gecko_garbled MINT_A = Raise JSONDecodeError /\
  (score_token world_gecko_garbled MINT_A) = Raise JSONDecodeError.
Proof.
  split; [vm_compute; reflexivity|].
  split; [vm_compute; reflexivity|].
  split; [vm_compute; reflexivity|].
  split; [vm_compute; reflexivity|].
  split; [vm_compute; reflexivity|].
  split; [vm_compute; reflexivity|].
  split; [vm_compute; reflexivity|].
  split; [vm_compute; reflexivity|].
  split; [reflexivity|].
  split; vm_compute; reflexivity.
Qed.

(** * Further properties of the code *)

(** ** token_utils.py: the retry loop of the rug report *)

Lemma rug_retry_first (w : world) (token_mint : string) (attempt remaining : nat) :
  rug_retry w token_mint attempt remaining =
  head (omap (rug_attempt w token_mint) (seq attempt remaining)).
Proof.
  revert attempt. induction remaining as [|k IH]; intros attempt; [reflexivity|].
  cbn [rug_retry seq omap list_omap]. unfold rug_attempt at 1.
  destruct (rug_report w token_mint attempt) as [|status body]; [apply IH|].
  destruct (status =? 200); [|apply IH].
  destruct (rug_report_dict body); [reflexivity|apply IH].
Qed.

Lemma omap_all_none {A B : Type} (f : A -> option B) (l : list A) :
  Forall (fun x => f x = None) l -> omap f l = [].
Proof.
  induction 1 as [|x l Hx _ IH]; [reflexivity|].
  cbn [omap list_omap]. rewrite Hx. exact IH.
Qed.

(** X1. [get_token_rug_info] makes at most ten requests and returns the
    report of the first one that answers 200 with a readable body: earlier
    failures are skipped, later requests are not made, and ten failures in
    a row give [None] whatever an eleventh request would answer. *)
Theorem rug_report_first_of_ten (w : world) (token_mint : string) :
  get_token_rug_info w token_mint
    = head (omap (rug_attempt w token_mint) (seq 0 10)) /\
  (forall n d,
     (n < 10)%nat ->
     (forall k, (k < n)%nat -> rug_attempt w token_mint k = None) ->
     rug_attempt w token_mint n = Some d ->
     get_token_rug_info w token_mint = Some d) /\
  ((forall k, (k < 10)%nat -> rug_attempt w token_mint k = None) ->
   get_token_rug_info w token_mint = None).
Proof.
  assert (E : get_token_rug_info w token_mint
              = head (omap (rug_attempt w token_mint) (seq 0 10)))
    by apply rug_retry_first.
  split; [exact E|]. split.
  - intros n d Hn Hbefore Hat. rewrite E.
    replace (seq 0 10) with (seq 0 n ++ n :: seq (S n) (10 - S n)).
    + rewrite omap_app. rewrite (omap_all_none _ (seq 0 n)).
      * cbn [app omap list_omap]. rewrite Hat. reflexivity.
      * apply Forall_forall. intros k Hk. apply Hbefore.
        apply elem_of_seq in Hk. lia.
    + change (n :: seq (S n) (10 - S n)) with (seq n (S (10 - S n))).
      rewrite <- seq_app. f_equal. lia.
  - intros Hall. rewrite E. rewrite omap_all_none; [reflexivity|].
    apply Forall_forall. intros k Hk. apply Hall. apply elem_of_seq in Hk. lia.
Qed.

(** ** token_utils.py: the range of the effective liquidity *)

Lemma py_sum_from (l : list Q) (a m : Q) :
  (0 <= m)%Q -> Forall (fun x => (m <= x)%Q) l ->
  (a + (match l with [] => 0 | _ => m end) <= fold_left Qplus l a)%Q.
Proof.
  intros Hm H. revert a. induction H as [|x l Hx Hl IH]; intros a.
  - cbn. lra.
  - cbn [fold_left]. specialize (IH (a + x)%Q).
    destruct l as [|y l'].
    + cbn in *. lra.
    + lra.
Qed.

Lemma filter_Forall_bool {A : Type} (f : A -> bool) (l : list A) :
  Forall (fun x => f x = true) (filter (fun x => f x = true) l).
Proof.
  apply Forall_forall. intros x Hx. apply list_elem_of_filter in Hx as [Hx _]. exact Hx.
Qed.

(** X2. The effective liquidity that [score_token] reads is zero or at
    least [MIN_LIQUIDITY]: every pool that is summed has passed
    [lp >= MIN_LIQUIDITY], so no value strictly between is ever returned. *)
Theorem effective_liquidity_zero_or_min (w : world) (mint : string) (lp : Q) :
  effective_lp_of w mint = Some lp ->
  (lp == 0)%Q \/ (MIN_LIQUIDITY <= lp)%Q.
Proof.
  unfold effective_lp_of, compute_effective_liquidity_from_gecko, dget_or.
  assert (Hzero : forall q,
    match py_float w (default (JNum 0)
            (({[ "effective_lp"%string := JNum 0 ]} : dict) !! "effective_lp"%string)) with
    | Ok q0 => Some q0 | Raise _ => None end = Some q -> (q == 0)%Q \/ (MIN_LIQUIDITY <= q)%Q).
  { intros q. rewrite lookup_singleton_eq. cbn. intros [= <-]. left. reflexivity. }
  destruct (gecko_pools w mint) as [|st body]; [apply Hzero|].
  destruct (raise_for_status st); [apply Hzero|].
  destruct (json_body body) as [data|]; cbn; [|discriminate].
  destruct (py_get data "data" (JArr [])) as [pools|]; cbn; [|discriminate].
  destruct (py_iter pools) as [items|]; cbn; [|discriminate].
  destruct (valid_pools w items) as [valid|]; cbn -[py_sum py_max filter]; [|discriminate].
  destruct valid as [|lp0 valid]; [apply Hzero|].
  rewrite lookup_insert_eq. cbn -[py_sum py_max filter]. intros [= <-].
  match goal with |- context [py_sum ?l] => set (kept := l) end.
  assert (Hkept : Forall (fun x => (MIN_LIQUIDITY <= x)%Q) kept).
  { unfold kept. eapply Forall_impl; [apply filter_Forall_bool|].
    intros x Hx. cbn beta in Hx. apply andb_true_iff in Hx as [_ Hx].
    apply Qleb_le. exact Hx. }
  unfold py_sum.
  pose proof (py_sum_from kept 0 MIN_LIQUIDITY ltac:(unfold MIN_LIQUIDITY; lra) Hkept) as Hsum.
  destruct kept as [|x kept'].
  - left. reflexivity.
  - right. lra.
Qed.

Lemma effective_liquidity_zero_or_min_witness :
  effective_lp_of world_pools MINT_A = Some 120000%Q /\
  (MIN_LIQUIDITY <= 120000)%Q.
Proof.
  assert (E : effective_lp_of world_pools MINT_A = Some 120000%Q)
    by (vm_compute; reflexivity).
  destruct (effective_liquidity_zero_or_min world_pools MINT_A 120000 E) as [H|H].
  - exfalso. vm_compute in H. discriminate H.
  - split; [exact E|exact H].
Defined.

(** ** scorer.py: the labels of the scores that are returned *)

(** X3. A score that [score_token] returns is never labelled "A" or "A+":
    with at most 50 points, the discovery label is "B" from 45 points on,
    "C" from 30 points on and "D" below, and the monitoring label follows
    the same three bands. *)
Theorem returned_score_label (w : world) (mint : string) (score : Z) :
  returned_score (score_token w mint) = Some score ->
  (45 <= score /\
   get_score_label (inject_Z score) = "🟡 B | Medium (Watch / Small Size)"%string /\
   get_score_label_wallet (inject_Z score) = "🟡 B | Medium (Watch / Small Size)"%string) \/
  (30 <= score < 45 /\
   get_score_label (inject_Z score) = "🟠 C | Risky (Speculative)"%string /\
   get_score_label_wallet (inject_Z score) = "🟠 C | Risky (Speculative) - Sell"%string) \/
  (score < 30 /\
   get_score_label (inject_Z score) = "🔴 D | Weak / Skip"%string /\
   get_score_label_wallet (inject_Z score) = "🔴 D | Weak / Skip - Sell"%string).
Proof.
  intros H.
  destruct (score_token w mint) as [[s trace]|] eqn:E; [|discriminate].
  cbn in H. injection H as ->.
  pose proof (score_token_at_most_50 w mint score trace E) as Hs.
  assert (H75 : Qleb 75 (inject_Z score) = false).
  { apply Qleb_gt. change 75%Q with (inject_Z 75). rewrite <- Zlt_Qlt. lia. }
  assert (H60 : Qleb 60 (inject_Z score) = false).
  { apply Qleb_gt. change 60%Q with (inject_Z 60). rewrite <- Zlt_Qlt. lia. }
  unfold get_score_label, get_score_label_wallet. rewrite H75, H60.
  destruct (Qleb 45 (inject_Z score)) eqn:E45.
  - left. apply Qleb_le in E45. change 45%Q with (inject_Z 45) in E45.
    rewrite <- Zle_Qle in E45. auto.
  - apply Qleb_gt in E45. change 45%Q with (inject_Z 45) in E45.
    rewrite <- Zlt_Qlt in E45.
    destruct (Qleb 30 (inject_Z score)) eqn:E30.
    + right. left. apply Qleb_le in E30. change 30%Q with (inject_Z 30) in E30.
      rewrite <- Zle_Qle in E30. split; [lia|auto].
    + right. right. apply Qleb_gt in E30. change 30%Q with (inject_Z 30) in E30.
      rewrite <- Zlt_Qlt in E30. auto.
Qed.

Lemma returned_score_label_witness :
  returned_score (score_token world_A MINT_A) = Some 50 /\
  get_score_label (inject_Z 50) = "🟡 B | Medium (Watch / Small Size)"%string.
Proof.
  assert (E : returned_score (score_token world_A MINT_A) = Some 50)
    by (vm_compute; reflexivity).
  destruct (returned_score_label world_A MINT_A 50 E) as [(_ & H & _)|[(H & _)|(H & _)]].
  - split; [exact E|exact H].
  - exfalso. lia.
  - exfalso. lia.
Defined.

(** ** trader.py: the decimals of a mint *)

(** The snapshot has no key "decimals": every mint other than WSOL is
    given six decimals. *)
Lemma mint_decimals_snapshot (w : world) (mint : string) (d : Z) :
  mint_decimals mint (get_token_info w mint) = Ok d ->
  d = (if String.eqb mint WSOL then 9 else 6).
Proof.
  unfold mint_decimals. destruct (String.eqb mint WSOL); [intros [= <-]; reflexivity|].
  destruct (get_token_info w mint) as [t|] eqn:Hinfo; [|discriminate].
  unfold dget_or. destruct (t !! "decimals"%string) as [v|] eqn:E.
  - exfalso.
    assert (Hk : "decimals"%string ∈ snapshot_keys)
      by (apply (get_token_info_keys w mint t); eauto).
    revert Hk. not_a_key.
  - intros H. vm_compute in H. injection H as <-. reflexivity.
Qed.



(** ** trader.py: a trade that is sent and not recorded *)

(** A call that gets as far as sending hands one record to [log_swap] and
    returns the status of the send-and-confirm step. *)
Lemma swap_reaches_log (w : world) (input_mint output_mint action : string) (amount : Q)
    (st : state) (signed_tx outcome : string) (liq_json : json) (sig : option string) :
  reaches_send w input_mint output_mint amount signed_tx liq_json ->
  send_and_confirm w signed_tx = (outcome, sig) ->
  exists a,
    swap w input_mint output_mint amount action st =
      (log_swap w a ≫= fun logged => mret outcome)
        (record_call {| call_input_mint := input_mint; call_output_mint := output_mint;
                        call_amount := amount; call_action := action |} st) /\
    arg_action a = action /\ arg_input_mint a = input_mint /\
    arg_output_mint a = output_mint /\ arg_output_liqudation a = liq_json /\
    arg_tx_signature a = sig /\ arg_status a = outcome /\ arg_error_message a = None.
Proof.
  intros (wallet_str & din & dout & symbol_in & quote & swap_data & encoded &
          Hwallet & Hdin & Hdout & Hsym_in & Hquote & Hnz & Hswap & Hencoded & Hsigned & Hliqj)
         Hsend.
  destruct (get_quote_inv w input_mint output_mint amount quote Hquote)
    as (Htruthy & (outAmount & out_raw & Hout & Hout_raw)
        & (pi & impact & Hpi & Himpact) & (symbol_out & Hsym_out)).
  eexists. split.
  - unfold swap. rewrite M_bind_unfold. cbn [modify].
    unfold TESTING_MODE, swap_live. cbv zeta.
    rewrite Hwallet, bind_lift_Ok, Hdin, bind_lift_Ok, Hdout, bind_lift_Ok.
    rewrite Hquote, bind_lift_Ok, Htruthy. cbn [negb].
    unfold swap_with_quote. cbv zeta.
    rewrite Hout, bind_lift_Ok, Hout_raw, bind_lift_Ok.
    rewrite Hpi, bind_lift_Ok, Himpact, bind_lift_Ok.
    rewrite Hsym_in, bind_lift_Ok, Hsym_out, bind_lift_Ok.
    rewrite Hnz, Hswap.
    change (negb (200 =? 200)) with false. cbv iota.
    cbn [json_body]. rewrite bind_lift_Ok, Hencoded, bind_lift_Ok, Hsigned, bind_lift_Ok.
    rewrite Hsend.
    unfold output_liquidity in Hliqj.
    destruct (get_token_info w output_mint) as [token_out|]; [|discriminate].
    injection Hliqj as Hliqj. rewrite Hliqj, bind_lift_Ok.
    reflexivity.
  - cbn. auto 10.
Qed.

(** X5. A trade that is sent is not recorded when the liquidity of the
    output token does not convert to a decimal (the asset search reported
    none, say): [log_swap] catches the conversion error, so [swap] returns
    the status of the send-and-confirm step as if all went well, and the
    table is as it was before the call. *)
Theorem swap_sent_but_not_recorded (w : world) (input_mint output_mint action : string)
    (amount : Q) (st : state) (signed_tx outcome : string) (liq_json : json)
    (sig : option string) (e : pyexn) :
  reaches_send w input_mint output_mint amount signed_tx liq_json ->
  send_and_confirm w signed_tx = (outcome, sig) ->
  py_decimal w liq_json = Raise e ->
  db_available w = true ->
  (swap w input_mint output_mint amount action st).1 = Ok outcome /\
  db_rows (swap w input_mint output_mint amount action st).2 = db_rows st /\
  py_decimal w JNull = Raise DecimalError.
Proof.
  intros Hreach Hsend Hliq Hdb.
  destruct (swap_reaches_log w input_mint output_mint action amount st signed_tx outcome
              liq_json sig Hreach Hsend) as (a & -> & _ & _ & _ & Ha & _).
  rewrite M_bind_unfold. unfold log_swap, log_values. rewrite Hdb. cbn [negb].
  rewrite Ha, Hliq. cbn. auto.
Qed.

Lemma swap_sent_but_not_recorded_witness :
  output_liquidity world_A_no_liquidity MINT_A = Some JNull /\
  (swap world_A_no_liquidity USDT MINT_A 1 "buy" initial_state).1 = Ok "success"%string /\
  db_rows (swap world_A_no_liquidity USDT MINT_A 1 "buy" initial_state).2 = [].
Proof.
  assert (Hreach : reaches_send world_A_no_liquidity USDT MINT_A 1 "signed" JNull).
  { exists "wallet"%string, 6, 6, (JStr "TKN"),
      (JObj [ ("inAmount"%string, JInt 1000000); ("outAmount"%string, JInt 2000000);
              ("priceImpactPct"%string, JNum 0.01) ]),
      (JObj [ ("swapTransaction"%string, JStr "AQAB") ]), (JStr "AQAB").
    split; [reflexivity|].
    split; [vm_compute; reflexivity|].
    split; [vm_compute; reflexivity|].
    split; [vm_compute; reflexivity|].
    split; [vm_compute; reflexivity|].
    split; [vm_compute; reflexivity|].
    split; [vm_compute; reflexivity|].
    split; [vm_compute; reflexivity|].
    split; [vm_compute; reflexivity|].
    vm_compute; reflexivity. }
  destruct (swap_sent_but_not_recorded world_A_no_liquidity USDT MINT_A "buy" 1 initial_state
              "signed" "success" JNull (Some "5igSig"%string) DecimalError Hreach)
    as (Hret & Hrows & _).
  - vm_compute. reflexivity.
  - reflexivity.
  - reflexivity.
  - split; [vm_compute; reflexivity|]. split; [exact Hret|exact Hrows].
Defined.

(** ** Properties of the state that a computation keeps *)

Lemma preserves_ret {A : Type} (I : state -> Prop) (a : A) : preserves I (mret a : M A).
Proof. intros st H. exact H. Qed.

Lemma preserves_lift {A : Type} (I : state -> Prop) (r : res A) : preserves I (lift r).
Proof. intros st H. exact H. Qed.

Lemma preserves_raise {A : Type} (I : state -> Prop) (e : pyexn) : preserves I (raise e : M A).
Proof. intros st H. exact H. Qed.

Lemma preserves_get_state (I : state -> Prop) : preserves I get_state.
Proof. intros st H. exact H. Qed.

Lemma preserves_bind {A B : Type} (I : state -> Prop) (m : M A) (f : A -> M B) :
  preserves I m -> (forall a, preserves I (f a)) -> preserves I (m ≫= f).
Proof.
  intros Hm Hf st HI. rewrite M_bind_unfold.
  specialize (Hm st HI). destruct (m st) as [[a|e] st']; cbn in *.
  - apply Hf. exact Hm.
  - exact Hm.
Qed.

Lemma preserves_try {A : Type} (I : state -> Prop) (m h : M A) :
  preserves I m -> preserves I h -> preserves I (try_except m h).
Proof.
  intros Hm Hh st HI. unfold try_except.
  specialize (Hm st HI). destruct (m st) as [[a|e] st']; cbn in *.
  - exact Hm.
  - apply Hh. exact Hm.
Qed.

Lemma preserves_modify (I : state -> Prop) (f : state -> state) :
  (forall st, I st -> I (f st)) -> preserves I (modify f).
Proof. intros Hf st HI. apply Hf. exact HI. Qed.

(** ** trader.py: the state after a call of [swap] *)

(** A call of [swap] records itself and then either stops, or hands one
    record to [log_swap]: what holds of the state in both cases holds of
    the state after the call. *)
Lemma swap_state (w : world) (input_mint output_mint : string) (amount : Q) (action : string)
    (st : state) (P : state -> Prop) :
  P (record_call {| call_input_mint := input_mint; call_output_mint := output_mint;
                    call_amount := amount; call_action := action |} st) ->
  (forall a,
     logged_by a input_mint output_mint action ->
     P (log_swap w a
          (record_call {| call_input_mint := input_mint; call_output_mint := output_mint;
                          call_amount := amount; call_action := action |} st)).2) ->
  P (swap w input_mint output_mint amount action st).2.
Proof.
  intros Hstop Hlog.
  unfold swap. rewrite M_bind_unfold. cbn [modify].
  unfold TESTING_MODE, swap_live. cbv zeta.
  rewrite M_bind_unfold. unfold lift at 1.
  destruct (get_wallet w) as [wallet_str|]; [|exact Hstop].
  rewrite M_bind_unfold. unfold lift at 1.
  destruct (mint_decimals input_mint _) as [din|]; [|exact Hstop].
  rewrite M_bind_unfold. unfold lift at 1.
  destruct (mint_decimals output_mint _) as [dout|]; [|exact Hstop].
  rewrite M_bind_unfold. unfold lift at 1.
  destruct (get_quote w input_mint output_mint amount) as [[q|]|];
    [|exact Hstop|exact Hstop].
  destruct (negb (truthy q)); [exact Hstop|].
  unfold swap_with_quote. cbv zeta.
  rewrite M_bind_unfold. unfold lift at 1.
  destruct (py_item q "outAmount") as [outAmount|]; [|exact Hstop].
  rewrite M_bind_unfold. unfold lift at 1.
  destruct (py_int w outAmount) as [out_raw|]; [|exact Hstop].
  rewrite M_bind_unfold. unfold lift at 1.
  destruct (py_get q "priceImpactPct" (JInt 0)) as [pi|]; [|exact Hstop].
  rewrite M_bind_unfold. unfold lift at 1.
  destruct (py_float w pi) as [impact|]; [|exact Hstop].
  rewrite M_bind_unfold. unfold lift at 1.
  destruct (symbol_of (get_token_info w input_mint)) as [symbol_in|]; [|exact Hstop].
  rewrite M_bind_unfold. unfold lift at 1.
  destruct (symbol_of (get_token_info w output_mint)) as [symbol_out|]; [|exact Hstop].
  destruct (Qeq_bool _ 0); [exact Hstop|].
  destruct (jup_swap w q wallet_str) as [|status body]; [exact Hstop|].
  destruct (negb (status =? 200)); [exact Hstop|].
  rewrite M_bind_unfold. unfold lift at 1.
  destruct (json_body body) as [swap_data|]; [|exact Hstop].
  rewrite M_bind_unfold. unfold lift at 1.
  destruct (py_item swap_data "swapTransaction") as [encoded|]; [|exact Hstop].
  rewrite M_bind_unfold. unfold lift at 1.
  destruct (sign_tx w encoded) as [signed_tx|]; [|exact Hstop].
  destruct (send_and_confirm w signed_tx) as [outcome sig].
  rewrite M_bind_unfold. unfold lift at 1.
  destruct (get_token_info w output_mint) as [token_out|]; [|exact Hstop].
  rewrite M_bind_unfold.
  match goal with
  | |- context [log_swap w ?a ?s] =>
      specialize (Hlog a); destruct (log_swap w a s) as [[logged|e] st']
  end; apply Hlog; unfold logged_by; cbn; auto.
Qed.

Lemma upsert_Forall (P : swap_row -> Prop) (new : swap_row) (rows : list swap_row) :
  P new -> (forall old, P old -> P (update_status new old)) ->
  Forall P rows -> Forall P (upsert new rows).
Proof.
  intros Hnew Hupd H. induction H as [|r rest Hr Hrest IH]; cbn [upsert].
  - constructor; [exact Hnew|constructor].
  - destruct (String.eqb (tx_signature r) (tx_signature new)); constructor; auto.
Qed.

Lemma log_swap_state (w : world) (a : log_args) (st : state) :
  (log_swap w a st).2 = st \/
  exists new, log_values w a (db_next_id st) = Ok new /\
              (log_swap w a st).2 = set_db (upsert new (db_rows st)) (db_next_id st + 1) st.
Proof.
  unfold log_swap. destruct (negb (db_available w)); [left; reflexivity|].
  destruct (log_values w a (db_next_id st)) as [new|]; [right; eauto|left; reflexivity].
Qed.

Lemma log_values_inv (w : world) (a : log_args) (next_id : Z) (new : swap_row) :
  log_values w a next_id = Ok new ->
  output_mint new = arg_output_mint a /\ error_message new = arg_error_message a /\
  tx_signature new = str_signature (arg_tx_signature a) /\ status new = arg_status a /\
  entering_price new = arg_entering_price a /\ input_amount_ui new = arg_input_amount_ui a /\
  action new = arg_action a /\ row_id new = next_id.
Proof.
  unfold log_values. cbn.
  destruct (py_decimal w (arg_output_liqudation a)); cbn; [|discriminate].
  intros [= <-]. cbn. auto 10.
Qed.

(** ** Invariants of the table *)

Section TableInvariants.

Variable I : state -> Prop.
Hypothesis I_frame : forall st st', db_rows st' = db_rows st -> I st -> I st'.

Lemma preserves_frame {A : Type} (m : M A) : keeps db_rows m -> preserves I m.
Proof. intros H st HI. apply (I_frame st); [apply H|exact HI]. Qed.

Lemma preserves_swap (w : world) (input_mint output_mint : string) (amount : Q)
    (action : string) :
  (forall a, logged_by a input_mint output_mint action -> preserves I (log_swap w a)) ->
  preserves I (swap w input_mint output_mint amount action).
Proof.
  intros Hlog st HI. apply swap_state.
  - apply (I_frame st); [reflexivity|exact HI].
  - intros a Ha. apply (Hlog a Ha). apply (I_frame st); [reflexivity|exact HI].
Qed.

Hypothesis I_sell : forall w input_mint a,
  logged_by a input_mint USDT "sell" -> preserves I (log_swap w a).

Lemma preserves_exit_position (w : world) (t : holding) (k : exit_kind) :
  preserves I (exit_position w t k).
Proof.
  unfold exit_position.
  apply preserves_bind;
    [apply preserves_modify; intros st HI; apply (I_frame st); [reflexivity|exact HI]
    |intros _].
  apply preserves_try; [|apply preserves_ret].
  apply preserves_bind; [|intros status; apply preserves_ret].
  apply preserves_swap. intros a. apply I_sell.
Qed.

Lemma preserves_monitor_token (w : world) (t : holding) : preserves I (monitor_token w t).
Proof.
  unfold monitor_token.
  destruct (bool_decide (h_mint t ∈ EXCLUDED_TOKENS)); [apply preserves_ret|].
  destruct (get_token_info w (h_mint t)) as [token_info|]; [|apply preserves_raise].
  apply preserves_bind; [apply preserves_lift|intros scored].
  destruct (get_token_rug_info w (h_mint t)) as [token_rug|]; [|apply preserves_ret].
  apply preserves_bind.
  { apply preserves_frame. intros st. unfold get_swaps_for_token.
    destruct (negb (db_available w)); reflexivity. }
  intros swaps. destruct swaps as [|last_swap rest]; [apply preserves_ret|].
  destruct (Qleb (entering_price last_swap) 0 || Qleb _ 0); [apply preserves_ret|].
  destruct (py_ne_int _ RUG_SCORE); [apply preserves_exit_position|].
  destruct (Qleb TAKE_PROFIT _); [apply preserves_exit_position|].
  destruct (Qleb _ STOP_LOSS); [apply preserves_exit_position|].
  apply preserves_ret.
Qed.

Lemma preserves_monitor_tokens (w : world) (tokens : list holding) :
  preserves I (monitor_tokens w tokens).
Proof.
  induction tokens as [|t rest IH]; cbn [monitor_tokens].
  - apply preserves_ret.
  - apply preserves_bind; [apply preserves_monitor_token|intros _; exact IH].
Qed.

Lemma preserves_main_loop_cycle (w : world) : preserves I (main_loop_cycle w).
Proof.
  unfold main_loop_cycle, check_and_monitor.
  apply preserves_try; [|apply preserves_ret].
  apply preserves_bind; [apply preserves_lift|intros sol].
  apply preserves_bind; [apply preserves_lift|intros usdt].
  apply preserves_bind.
  { apply preserves_frame. intros st. unfold get_wallet_tokens_cached.
    destruct (cache_data st) as [[|t ts]|];
      repeat match goal with
      | |- context [if ?b then _ else _] => destruct b
      | |- context [match ?x with Ok _ => _ | Raise _ => _ end] => destruct x
      end; reflexivity. }
  intros tokens. destruct tokens as [|t ts]; [apply preserves_ret|].
  apply preserves_monitor_tokens.
Qed.

End TableInvariants.

(** ** main.py: what a discovery cycle leaves untouched *)

Section DiscoveryFrame.

Context {S : Type} (proj : state -> S).
Hypothesis proj_sent : forall s st, proj (set_sent s st) = proj st.
Hypothesis proj_cache : forall ts d st, proj (set_cache ts d st) = proj st.

Lemma frame_token_has_swap (w : world) (mint : string) : keeps proj (token_has_swap w mint).
Proof. intros st. unfold token_has_swap. destruct (negb (db_available w)); reflexivity. Qed.

Lemma frame_get_wallet_tokens_cached (w : world) : keeps proj (get_wallet_tokens_cached w).
Proof.
  intros st. unfold get_wallet_tokens_cached.
  destruct (cache_data st) as [[|t ts]|];
    repeat match goal with
    | |- context [if ?b then _ else _] => destruct b
    | |- context [match ?x with Ok _ => _ | Raise _ => _ end] => destruct x
    end; first [reflexivity|apply proj_cache].
Qed.

Lemma frame_already_closed_before (w : world) (mint : string) :
  keeps proj (already_closed_before w mint).
Proof.
  unfold already_closed_before.
  destruct (get_token_info w mint); [|keeps].
  apply keeps_bind; [apply frame_token_has_swap|intros swap]. keeps.
Qed.

Lemma frame_already_opened (w : world) (mint : string) : keeps proj (already_opened w mint).
Proof.
  unfold already_opened.
  apply keeps_bind; [apply frame_get_wallet_tokens_cached|intros tokens]. keeps.
Qed.

Lemma frame_can_open_position (w : world) : keeps proj (can_open_position w).
Proof.
  unfold can_open_position.
  apply keeps_bind; [apply frame_get_wallet_tokens_cached|intros tokens]. keeps.
Qed.

Lemma frame_announce_token (w : world) (node : json) (mint : string) (token_info : dict) :
  keeps proj (announce_token w node mint token_info).
Proof.
  unfold announce_token, send_telegram_message.
  apply keeps_bind; [keeps|intros name].
  apply keeps_bind; [keeps|intros fmt_name].
  apply keeps_bind; [keeps|intros fmt_symbol].
  apply keeps_bind; [keeps|intros fmt_price].
  apply keeps_bind; [keeps|intros st].
  destruct (bool_decide (mint ∈ SENT_MINTS st)); [keeps|].
  apply keeps_bind; [keeps|intros fmt_message].
  apply keeps_bind; [keeps|intros sent].
  apply keeps_bind; [|intros added; keeps].
  apply keeps_modify. intros st0. apply proj_sent.
Qed.

Lemma frame_scan_node (w : world) (node : json) : keeps proj (scan_node w node).
Proof.
  unfold scan_node.
  apply keeps_bind; [keeps|intros mint_v].
  destruct (negb (truthy mint_v)); [keeps|].
  destruct mint_v as [| | |mint| |]; try solve [keeps].
  destruct (get_token_info w mint) as [token_info|]; [|keeps].
  destruct (get_token_rug_info w mint) as [rug_info|]; [|keeps].
  apply keeps_bind; [keeps|intros rug_score].
  apply keeps_bind; [keeps|intros liquidity].
  destruct (py_ne_int rug_score RUG_SCORE); [keeps|].
  destruct (Qltb liquidity MIN_LIQUIDITY); [keeps|].
  apply keeps_bind; [apply frame_announce_token|intros token]. keeps.
Qed.

Lemma frame_scan_nodes (w : world) (data : list json) : keeps proj (scan_nodes w data).
Proof.
  induction data as [|node rest IH]; cbn [scan_nodes]; [keeps|].
  apply keeps_bind; [apply frame_scan_node|intros t].
  apply keeps_bind; [exact IH|intros ts]. keeps.
Qed.

Lemma frame_fetch_tokens (w : world) : keeps proj (fetch_tokens w).
Proof.
  unfold fetch_tokens.
  destruct (pumpfun_feed w) as [|status body]; [keeps|].
  destruct (negb (status =? 200)); [keeps|].
  apply keeps_bind; [keeps|intros data].
  destruct data as [| | | |nodes|]; try solve [keeps].
  apply keeps_bind; [apply frame_scan_nodes|intros tokens]. keeps.
Qed.

Lemma frame_process_token (w : world) (token : dict) : keeps proj (process_token w token).
Proof.
  unfold process_token.
  destruct (negb (truthy (dget token "mint"))); [keeps|].
  destruct (dget token "mint") as [| | |mint| |]; try solve [keeps].
  apply keeps_bind; [apply frame_already_closed_before|intros closed].
  destruct closed; [keeps|].
  apply keeps_bind; [apply frame_already_opened|intros opened]. destruct opened; [keeps|].
  apply keeps_bind; [apply frame_can_open_position|intros can]. destruct (negb can); [keeps|].
  destruct (get_token_info w mint) as [token_data|]; [|keeps].
  intros st. rewrite M_bind_unfold. unfold lift.
  destruct (score_token w mint) as [[score trace]|e] eqn:E; [|reflexivity].
  pose proof (score_token_at_most_50 w mint score trace E) as Hs.
  cbn [fst]. rewrite buy_below_min_score by (unfold MIN_SCORE; lia). reflexivity.
Qed.

Lemma frame_process_tokens (w : world) (tokens : list dict) :
  keeps proj (process_tokens w tokens).
Proof.
  induction tokens as [|token rest IH]; cbn [process_tokens].
  - keeps.
  - apply keeps_bind; [apply frame_process_token|intros _; exact IH].
Qed.

Lemma frame_run_once (w : world) : keeps proj (run_once w).
Proof.
  unfold run_once. apply keeps_try; [|keeps].
  apply keeps_bind; [apply frame_fetch_tokens|intros tokens].
  destruct tokens as [[|t ts]|]; try solve [keeps].
  apply frame_process_tokens.
Qed.

End DiscoveryFrame.

(** ** db.py and trader.py: no error text is ever stored *)

Lemma log_swap_no_error_text (w : world) (a : log_args) :
  arg_error_message a = None -> preserves no_error_text (log_swap w a).
Proof.
  intros Ha st H. destruct (log_swap_state w a st) as [-> | (new & Hnew & ->)]; [exact H|].
  unfold no_error_text. cbn [db_rows set_db].
  apply log_values_inv in Hnew as (_ & Herr & _).
  apply upsert_Forall; [congruence | intros old _; cbn; congruence | exact H].
Qed.

(** X6. No call of [swap] passes an error message to [log_swap], and the
    update of an existing row takes the error message of the new values: a
    table without error text stays without error text through any call of
    [swap], any monitoring cycle and any discovery cycle, also when the
    recorded status is "failed". *)
Theorem error_text_is_never_recorded (w : world) (st : state) :
  no_error_text st ->
  (forall input_mint output_mint amount action,
     no_error_text (swap w input_mint output_mint amount action st).2) /\
  no_error_text (main_loop_cycle w st).2 /\
  no_error_text (run_once w st).2.
Proof.
  intros H.
  assert (Hframe : forall s s', db_rows s' = db_rows s -> no_error_text s -> no_error_text s').
  { unfold no_error_text. intros s s' ->. auto. }
  split; [|split].
  - intros input_mint output_mint amount action.
    apply (preserves_swap no_error_text Hframe); [|exact H].
    intros a (_ & _ & _ & Ha). apply log_swap_no_error_text. exact Ha.
  - apply (preserves_main_loop_cycle no_error_text Hframe); [|exact H].
    intros w0 input a (_ & _ & _ & Ha). apply log_swap_no_error_text. exact Ha.
  - apply (Hframe st); [|exact H]. apply (frame_run_once db_rows); reflexivity.
Qed.

Lemma error_text_is_never_recorded_witness :
  no_error_text initial_state /\
  status <$> db_rows (swap world_send_fails USDT MINT_A 1 "buy" initial_state).2
    = ["failed"%string] /\
  no_error_text (swap world_send_fails USDT MINT_A 1 "buy" initial_state).2.
Proof.
  assert (H0 : no_error_text initial_state) by constructor.
  destruct (error_text_is_never_recorded world_send_fails initial_state H0) as (H & _ & _).
  split; [exact H0|]. split; [vm_compute; reflexivity|apply H].
Defined.

(** ** db.py and wmain.py: what a sell leaves of the entry records *)

Lemma upsert_entry_view (mint : string) (new : swap_row) (rows : list swap_row) :
  output_mint new <> mint -> entry_view mint (upsert new rows) = entry_view mint rows.
Proof.
  intros Hne. unfold entry_view, swaps_of. rewrite !fmap_reverse. f_equal.
  induction rows as [|r rest IH]; cbn [upsert].
  - rewrite filter_cons. cbn beta.
    destruct (decide (output_mint new = mint)); [contradiction|reflexivity].
  - destruct (String.eqb (tx_signature r) (tx_signature new)).
    + rewrite !filter_cons. cbn.
      destruct (decide (output_mint r = mint)); reflexivity.
    + rewrite !filter_cons. cbn beta.
      destruct (decide (output_mint r = mint)); [rewrite !fmap_cons, IH|]; auto.
Qed.

Lemma log_swap_entry_view (w : world) (a : log_args) (mint : string) (V : list (Q * Q * Q)) :
  arg_output_mint a <> mint ->
  preserves (fun st => entry_view mint (db_rows st) = V) (log_swap w a).
Proof.
  intros Hne st H. destruct (log_swap_state w a st) as [-> | (new & Hnew & ->)]; [exact H|].
  cbn [db_rows set_db].
  apply log_values_inv in Hnew as (Hout & _).
  rewrite upsert_entry_view by congruence. exact H.
Qed.

Lemma already_closed_before_view (w : world) (mint : string) (st st' : state) :
  entry_view mint (db_rows st') = entry_view mint (db_rows st) ->
  (already_closed_before w mint st').1 = (already_closed_before w mint st).1.
Proof.
  unfold entry_view, already_closed_before. intros H.
  destruct (get_token_info w mint) as [token_data|]; [|reflexivity].
  rewrite !M_bind_unfold. unfold token_has_swap.
  destruct (negb (db_available w)); [reflexivity|].
  destruct (swaps_of mint (db_rows st')) as [|r' l'], (swaps_of mint (db_rows st)) as [|r l];
    try discriminate H; [reflexivity|].
  rewrite !fmap_cons in H. injection H as _ _ Hliq _. cbn [head].
  rewrite Hliq.
  destruct (dget token_data "liquidity"); try reflexivity;
    match goal with |- context [py_int w ?v] => destruct (py_int w v) end; reflexivity.
Qed.

(** X7. A sell is recorded under the output mint USDT. For every other
    mint, the rows that [get_swaps_for_token] and [token_has_swap] return
    keep their entry price, trade size and liquidity through any exit and
    any whole monitoring cycle; [already_closed_before], which reads the
    liquidity of the latest of these rows, therefore answers after a
    position was sold what it answered before. *)
Theorem sells_leave_entry_records (w : world) (mint : string) (st : state) :
  mint <> USDT ->
  (forall t k,
     entry_view mint (db_rows (exit_position w t k st).2) = entry_view mint (db_rows st)) /\
  entry_view mint (db_rows (main_loop_cycle w st).2) = entry_view mint (db_rows st) /\
  (forall w', (already_closed_before w' mint (main_loop_cycle w st).2).1
              = (already_closed_before w' mint st).1).
Proof.
  intros Hmint.
  pose (I := fun s : state => entry_view mint (db_rows s) = entry_view mint (db_rows st)).
  assert (Hframe : forall s s', db_rows s' = db_rows s -> I s -> I s').
  { unfold I. intros s s' ->. auto. }
  assert (Hsell : forall w0 input a, logged_by a input USDT "sell" -> preserves I (log_swap w0 a)).
  { intros w0 input a (_ & _ & Hout & _). apply log_swap_entry_view. congruence. }
  assert (Hcycle : I (main_loop_cycle w st).2)
    by (apply (preserves_main_loop_cycle I Hframe Hsell); reflexivity).
  split; [|split].
  - intros t k. apply (preserves_exit_position I Hframe Hsell). reflexivity.
  - exact Hcycle.
  - intros w'. apply already_closed_before_view. exact Hcycle.
Qed.

Lemma sells_leave_entry_records_witness :
  action <$> db_rows (main_loop_cycle world_A_held_risky state_A_bought).2
    = ["buy"%string; "sell"%string] /\
  entry_view MINT_A (db_rows (main_loop_cycle world_A_held_risky state_A_bought).2)
    = entry_view MINT_A (db_rows state_A_bought).
Proof.
  assert (Hne : MINT_A <> USDT) by (intros E; vm_compute in E; discriminate E).
  destruct (sells_leave_entry_records world_A_held_risky MINT_A state_A_bought Hne)
    as (_ & H & _).
  split; [vm_compute; reflexivity|exact H].
Defined.

(** ** main.py: the books through a discovery cycle *)

Lemma sent_announce_token (x : string) (w : world) (node : json) (mint : string)
    (token_info : dict) :
  preserves (fun st => x ∈ SENT_MINTS st) (announce_token w node mint token_info).
Proof.
  unfold announce_token, send_telegram_message.
  repeat (apply preserves_bind; [first [apply preserves_lift|apply preserves_get_state]|intros ?]).
  match goal with |- preserves _ (if ?b then _ else _) => destruct b end;
    [apply preserves_ret|].
  apply preserves_bind; [apply preserves_lift|intros ?].
  apply preserves_bind; [apply preserves_ret|intros ?].
  apply preserves_bind; [|intros ?; apply preserves_ret].
  apply preserves_modify. intros st H. cbn. apply elem_of_union_r. exact H.
Qed.

Lemma sent_scan_node (x : string) (w : world) (node : json) :
  preserves (fun st => x ∈ SENT_MINTS st) (scan_node w node).
Proof.
  unfold scan_node.
  apply preserves_bind; [apply preserves_lift|intros mint_v].
  destruct (negb (truthy mint_v)); [apply preserves_ret|].
  destruct mint_v as [| | |mint| |]; try apply preserves_raise.
  destruct (get_token_info w mint) as [token_info|]; [|apply preserves_ret].
  destruct (get_token_rug_info w mint) as [rug_info|]; [|apply preserves_ret].
  apply preserves_bind; [apply preserves_lift|intros rug_score].
  apply preserves_bind; [apply preserves_lift|intros liquidity].
  destruct (py_ne_int rug_score RUG_SCORE); [apply preserves_ret|].
  destruct (Qltb liquidity MIN_LIQUIDITY); [apply preserves_ret|].
  apply preserves_bind; [apply sent_announce_token|intros token; apply preserves_ret].
Qed.

Lemma sent_scan_nodes (x : string) (w : world) (data : list json) :
  preserves (fun st => x ∈ SENT_MINTS st) (scan_nodes w data).
Proof.
  induction data as [|node rest IH]; cbn [scan_nodes]; [apply preserves_ret|].
  apply preserves_bind; [apply sent_scan_node|intros t].
  apply preserves_bind; [exact IH|intros ts; apply preserves_ret].
Qed.

Lemma sent_fetch_tokens (x : string) (w : world) :
  preserves (fun st => x ∈ SENT_MINTS st) (fetch_tokens w).
Proof.
  unfold fetch_tokens.
  destruct (pumpfun_feed w) as [|status body]; [apply preserves_raise|].
  destruct (negb (status =? 200)); [apply preserves_ret|].
  apply preserves_bind; [apply preserves_lift|intros data].
  destruct data as [| | | |nodes|]; try apply preserves_ret.
  apply preserves_bind; [apply sent_scan_nodes|intros tokens; apply preserves_ret].
Qed.

(** X8. A discovery cycle never raises and never trades: it leaves the
    table, its id counter, the capital and the record of exits as they
    were. All it changes is the wallet cache and the set of announced
    mints, which only grows. *)
Theorem discovery_cycle_keeps_the_books (w : world) (st : state) :
  (run_once w st).1 = Ok tt /\
  db_rows (run_once w st).2 = db_rows st /\
  db_next_id (run_once w st).2 = db_next_id st /\
  capital (run_once w st).2 = capital st /\
  exit_log (run_once w st).2 = exit_log st /\
  SENT_MINTS st ⊆ SENT_MINTS (run_once w st).2.
Proof.
  split.
  { unfold run_once, try_except.
    match goal with |- context [match ?m st with _ => _ end] => destruct (m st) as [[[]|e] st'] end;
      reflexivity. }
  split; [apply (frame_run_once db_rows); reflexivity|].
  split; [apply (frame_run_once db_next_id); reflexivity|].
  split; [apply (frame_run_once capital); reflexivity|].
  split; [apply (frame_run_once exit_log); reflexivity|].
  intros x Hx. revert st Hx.
  change (preserves (fun s => x ∈ SENT_MINTS s) (run_once w)).
  unfold run_once. apply preserves_try; [|apply preserves_ret].
  apply preserves_bind; [apply sent_fetch_tokens|intros tokens].
  destruct tokens as [[|t ts]|]; try apply preserves_ret.
  intros s Hs. rewrite (frame_process_tokens SENT_MINTS); [exact Hs|reflexivity].
Qed.

(** ** scanner.py: what a candidate is *)

Lemma announce_token_sent (w : world) (node : json) (mint : string) (token_info token : dict)
    (st st2 : state) :
  announce_token w node mint token_info st = (Ok token, st2) -> mint ∈ SENT_MINTS st2.
Proof.
  unfold announce_token, send_telegram_message. intros H.
  apply bind_Ok_inv in H as (name & s1 & _ & H).
  apply bind_Ok_inv in H as (f1 & s2 & _ & H).
  apply bind_Ok_inv in H as (f2 & s3 & _ & H).
  apply bind_Ok_inv in H as (f3 & s4 & _ & H).
  apply bind_Ok_inv in H as (got & s5 & Hgot & H).
  unfold get_state in Hgot. injection Hgot as <- <-.
  destruct (bool_decide (mint ∈ SENT_MINTS s4)) eqn:E.
  - apply ret_Ok_inv in H as [_ <-]. apply bool_decide_eq_true in E. exact E.
  - apply bind_Ok_inv in H as (f4 & s6 & H4 & H). apply lift_Ok_inv in H4 as [_ <-].
    apply bind_Ok_inv in H as (f5 & s7 & H5 & H). apply ret_Ok_inv in H5 as [_ <-].
    apply bind_Ok_inv in H as (f6 & s8 & H6 & H).
    unfold modify in H6. injection H6 as _ <-.
    apply ret_Ok_inv in H as [_ <-]. cbn.
    apply elem_of_union_l, elem_of_singleton. reflexivity.
Qed.

Lemma scan_node_listed (w : world) (node : json) (token : dict) (st st2 : state) :
  scan_node w node st = (Ok (Some token), st2) ->
  exists mint liquidity,
    token = candidate mint /\
    rounded_liquidity_of w mint = Some liquidity /\
    (MIN_LIQUIDITY <= liquidity)%Q /\
    mint ∈ SENT_MINTS st2.
Proof.
  unfold scan_node. intros H.
  apply bind_Ok_inv in H as (mint_v & s1 & _ & H).
  destruct (negb (truthy mint_v)).
  { apply ret_Ok_inv in H as [[=] _]. }
  destruct mint_v as [| | |mint| |]; try (unfold raise in H; discriminate H).
  destruct (get_token_info w mint) as [token_info|] eqn:Ei.
  2:{ apply ret_Ok_inv in H as [[=] _]. }
  destruct (get_token_rug_info w mint) as [rug_info|].
  2:{ apply ret_Ok_inv in H as [[=] _]. }
  apply bind_Ok_inv in H as (rug_score & s2 & _ & H).
  apply bind_Ok_inv in H as (liquidity & s3 & Hliq & H).
  apply lift_Ok_inv in Hliq as [Hliq _].
  destruct (py_ne_int rug_score RUG_SCORE).
  { apply ret_Ok_inv in H as [[=] _]. }
  destruct (Qltb liquidity MIN_LIQUIDITY) eqn:El.
  { apply ret_Ok_inv in H as [[=] _]. }
  apply Qltb_ge in El.
  apply bind_Ok_inv in H as (tok & s4 & Hann & H).
  apply ret_Ok_inv in H as [[= <-] <-].
  exists mint, liquidity. unfold rounded_liquidity_of. rewrite Ei, Hliq.
  split; [exact (announce_token_result _ _ _ _ _ _ _ Hann)|].
  split; [reflexivity|]. split; [exact El|].
  exact (announce_token_sent _ _ _ _ _ _ _ Hann).
Qed.

Lemma scan_nodes_listed (w : world) (data : list json) (tokens : list dict) (st st2 : state) :
  scan_nodes w data st = (Ok tokens, st2) ->
  Forall (fun token => exists mint liquidity,
            token = candidate mint /\
            rounded_liquidity_of w mint = Some liquidity /\
            (MIN_LIQUIDITY <= liquidity)%Q /\
            mint ∈ SENT_MINTS st2) tokens.
Proof.
  revert tokens st st2. induction data as [|node rest IH]; intros tokens st st2 H.
  - apply ret_Ok_inv in H as [<- _]. constructor.
  - cbn [scan_nodes] in H.
    apply bind_Ok_inv in H as (t & s1 & Hnode & H).
    apply bind_Ok_inv in H as (ts & s2 & Hrest & H).
    apply ret_Ok_inv in H as [<- <-].
    specialize (IH ts s1 s2 Hrest).
    destruct t as [token|]; [|exact IH].
    constructor; [|exact IH].
    destruct (scan_node_listed w node token st s1 Hnode) as (mint & liq & Ht & Hl & Hm & Hs).
    exists mint, liq. split; [exact Ht|]. split; [exact Hl|]. split; [exact Hm|].
    pose proof (sent_scan_nodes mint w rest s1 Hs) as Hkept.
    rewrite Hrest in Hkept. exact Hkept.
Qed.

(** X9. Every entry of the list [fetch_tokens] returns is a dict with the
    key "mint" alone, for a mint whose snapshot liquidity, rounded to two
    places, is at least [MIN_LIQUIDITY], and which is in [SENT_MINTS] once
    the call has returned. *)
Theorem candidates_are_liquid_and_announced (w : world) (st st2 : state)
    (tokens : list dict) :
  fetch_tokens w st = (Ok (Some tokens), st2) ->
  Forall (fun token => exists mint liquidity,
            token = candidate mint /\
            rounded_liquidity_of w mint = Some liquidity /\
            (MIN_LIQUIDITY <= liquidity)%Q /\
            mint ∈ SENT_MINTS st2) tokens.
Proof.
  unfold fetch_tokens. intros H.
  destruct (pumpfun_feed w) as [|status body]; [unfold raise in H; discriminate H|].
  destruct (negb (status =? 200)).
  { apply ret_Ok_inv in H as [[=] _]. }
  apply bind_Ok_inv in H as (data & s1 & _ & H).
  destruct data as [| | | |nodes|]; try (apply ret_Ok_inv in H as [[=] _]).
  apply bind_Ok_inv in H as (ts & s2 & Hscan & H).
  apply ret_Ok_inv in H as [[= <-] <-].
  apply (scan_nodes_listed w nodes ts s1 s2 Hscan).
Qed.

Lemma candidates_are_liquid_and_announced_witness :
  (fetch_tokens world_feed_clean initial_state).1 = Ok (Some [candidate MINT_A]) /\
  MINT_A ∈ SENT_MINTS (fetch_tokens world_feed_clean initial_state).2 /\
  exists liquidity,
    rounded_liquidity_of world_feed_clean MINT_A = Some liquidity /\
    (MIN_LIQUIDITY <= liquidity)%Q.
Proof.
  assert (E1 : (fetch_tokens world_feed_clean initial_state).1 = Ok (Some [candidate MINT_A]))
    by (vm_compute; reflexivity).
  assert (E : fetch_tokens world_feed_clean initial_state
              = (Ok (Some [candidate MINT_A]), (fetch_tokens world_feed_clean initial_state).2)).
  { rewrite <- E1. apply surjective_pairing. }
  pose proof (candidates_are_liquid_and_announced world_feed_clean initial_state _ _ E) as H.
  apply Forall_cons in H as [(mint & liq & Hc & Hl & Hm & Hs) _].
  apply candidate_inj in Hc as <-.
  split; [exact E1|]. split; [exact Hs|]. exists liq. split; [exact Hl|exact Hm].
Defined.

(** ** wallet_utils.py: the cache of the holdings *)

(** X10. Once [get_wallet_tokens_cached] has returned a list that is not
    empty, every call made less than [CACHE_TTL] seconds after the cache
    was filled returns that list and leaves the state alone, whatever the
    RPC node would answer by then: a token bought or sold in between is
    not seen, by [already_opened] either. *)
Theorem wallet_cache_answers_within_ttl (w w' : world) (st st1 : state)
    (t : holding) (ts : list holding) :
  get_wallet_tokens_cached w st = (Ok (t :: ts), st1) ->
  (time_now w' - cache_ts st1 < CACHE_TTL)%Q ->
  get_wallet_tokens_cached w' st1 = (Ok (t :: ts), st1) /\
  (forall mint,
     already_opened w' mint st1
     = (Ok (bool_decide (Exists (fun t0 => h_mint t0 = mint) (t :: ts))), st1)).
Proof.
  intros H Hfresh.
  assert (Hcache : cache_data st1 = Some (t :: ts)).
  { unfold get_wallet_tokens_cached in H.
    destruct (cache_data st) as [[|t0 ts0]|] eqn:Ec.
    - match type of H with context [match ?x with Ok _ => _ | Raise _ => _ end] =>
        destruct x as [tokens|]; [|discriminate H] end.
      injection H as <- <-. reflexivity.
    - destruct (Qltb (time_now w - cache_ts st) CACHE_TTL).
      + injection H as <- <- <-. exact Ec.
      + match type of H with context [match ?x with Ok _ => _ | Raise _ => _ end] =>
          destruct x as [tokens|]; [|discriminate H] end.
        injection H as <- <-. reflexivity.
    - match type of H with context [match ?x with Ok _ => _ | Raise _ => _ end] =>
        destruct x as [tokens|]; [|discriminate H] end.
      injection H as <- <-. reflexivity. }
  assert (Hhit : get_wallet_tokens_cached w' st1 = (Ok (t :: ts), st1)).
  { unfold get_wallet_tokens_cached. rewrite Hcache.
    apply Qltb_lt in Hfresh. rewrite Hfresh. reflexivity. }
  split; [exact Hhit|].
  intros mint. unfold already_opened. rewrite M_bind_unfold, Hhit. reflexivity.
Qed.

Lemma wallet_cache_answers_within_ttl_witness :
  (get_wallet_tokens_cached world_A initial_state).1 = Ok [] /\
  (get_wallet_tokens_cached world_A
     (get_wallet_tokens_cached world_down_held initial_state).2).1 = Ok [held_A; held_B].
Proof.
  assert (E1 : (get_wallet_tokens_cached world_down_held initial_state).1
               = Ok [held_A; held_B]) by (vm_compute; reflexivity).
  assert (E : get_wallet_tokens_cached world_down_held initial_state
              = (Ok [held_A; held_B], (get_wallet_tokens_cached world_down_held initial_state).2)).
  { rewrite <- E1. apply surjective_pairing. }
  destruct (wallet_cache_answers_within_ttl world_down_held world_A initial_state _ _ _ E)
    as [H _].
  - vm_compute. reflexivity.
  - split; [vm_compute; reflexivity|]. rewrite H. reflexivity.
Defined.

(** ** wmain.py: the exits in terms of prices *)

Lemma take_profit_price (price entry_price : Q) :
  (0 < entry_price)%Q ->
  (TAKE_PROFIT <= pnl_percent price entry_price)%Q <-> ((14 # 10) * entry_price <= price)%Q.
Proof.
  intros He. unfold pnl_percent, TAKE_PROFIT.
  assert (Hx : (entry_price * ((price - entry_price) / entry_price) == price - entry_price)%Q)
    by (apply Qmult_div_r; lra).
  set (x := ((price - entry_price) / entry_price)%Q) in *.
  assert (Hm : (entry_price * (2 # 5) <= entry_price * x <-> (2 # 5) <= x)%Q)
    by (apply Qmult_le_l; exact He).
  split; intros H.
  - assert (H0 : ((2 # 5) <= x)%Q) by lra. apply Hm in H0. lra.
  - assert (H0 : ((2 # 5) <= x)%Q) by (apply Hm; lra). lra.
Qed.

Lemma stop_loss_price (price entry_price : Q) :
  (0 < entry_price)%Q ->
  (pnl_percent price entry_price <= STOP_LOSS)%Q <-> (price <= (1 # 2) * entry_price)%Q.
Proof.
  intros He. unfold pnl_percent, STOP_LOSS.
  assert (Hx : (entry_price * ((price - entry_price) / entry_price) == price - entry_price)%Q)
    by (apply Qmult_div_r; lra).
  set (x := ((price - entry_price) / entry_price)%Q) in *.
  assert (Hm : (entry_price * x <= entry_price * - (1 # 2) <-> x <= - (1 # 2))%Q)
    by (apply Qmult_le_l; exact He).
  split; intros H.
  - assert (H0 : (x <= - (1 # 2))%Q) by lra. apply Hm in H0. lra.
  - assert (H0 : (x <= - (1 # 2))%Q) by (apply Hm; lra). lra.
Qed.



(** ** wmain.py: a holding without a price *)

(** X12. A held token whose current price reads as zero or less (the
    asset search reports none, or one that does not convert) is passed
    over before the exit tests: the pass leaves the whole state as it was,
    so the token is not sold, whatever its rug score and its entry price. *)
Theorem unpriced_holding_is_not_sold (w : world) (st : state) (t : holding) (price : Q) :
  price_of w (h_mint t) = Some price ->
  (price <= 0)%Q ->
  (monitor_token w t st).2 = st.
Proof.
  unfold price_of, monitor_token. intros Hprice Hle.
  destruct (bool_decide (h_mint t ∈ EXCLUDED_TOKENS)); [reflexivity|].
  destruct (get_token_info w (h_mint t)) as [token_info|]; [|discriminate].
  injection Hprice as Hprice.
  rewrite M_bind_unfold. unfold lift at 1.
  destruct (score_token w (h_mint t)) as [scored|]; [|reflexivity].
  destruct (get_token_rug_info w (h_mint t)) as [token_rug|]; [|reflexivity].
  rewrite M_bind_unfold. unfold get_swaps_for_token.
  destruct (negb (db_available w)); [reflexivity|].
  destruct (swaps_of (h_mint t) (db_rows st)) as [|last_swap rest]; [reflexivity|].
  rewrite Hprice. apply Qleb_le in Hle. rewrite Hle, orb_true_r. reflexivity.
Qed.

Lemma unpriced_holding_is_not_sold_witness :
  price_of world_A_unpriced_risky MINT_A = Some 0%Q /\
  rug_score_of world_A_unpriced_risky MINT_A = Some (JInt 500) /\
  (monitor_token world_A_unpriced_risky held_A state_A_bought).2 = state_A_bought.
Proof.
  assert (E : price_of world_A_unpriced_risky (h_mint held_A) = Some 0%Q)
    by (vm_compute; reflexivity).
  pose proof (unpriced_holding_is_not_sold world_A_unpriced_risky state_A_bought held_A 0 E
                ltac:(vm_compute; discriminate)) as H.
  split; [exact E|]. split; [vm_compute; reflexivity|exact H].
Defined.

(** ** wmain.py: what a monitoring cycle sells *)

(** One pass over a held token makes no swap call, or one that sells this
    token, which is then not an excluded one. *)
Lemma monitor_token_calls (w : world) (t : holding) (st : state)
    (P : list swap_call -> Prop) :
  P (swap_calls st) ->
  (h_mint t ∉ EXCLUDED_TOKENS -> P (swap_calls st ++ [sell_call t])) ->
  P (swap_calls (monitor_token w t st).2).
Proof.
  intros Hnone Hsell. unfold monitor_token.
  destruct (bool_decide (h_mint t ∈ EXCLUDED_TOKENS)) eqn:Ex; [exact Hnone|].
  apply bool_decide_eq_false in Ex. specialize (Hsell Ex).
  destruct (get_token_info w (h_mint t)) as [token_info|]; [|exact Hnone].
  rewrite M_bind_unfold. unfold lift at 1.
  destruct (score_token w (h_mint t)) as [scored|]; [|exact Hnone].
  destruct (get_token_rug_info w (h_mint t)) as [token_rug|]; [|exact Hnone].
  rewrite M_bind_unfold. unfold get_swaps_for_token.
  destruct (negb (db_available w)); [exact Hnone|].
  destruct (swaps_of (h_mint t) (db_rows st)) as [|last_swap rest]; [exact Hnone|].
  destruct (Qleb (entering_price last_swap) 0 || Qleb _ 0); [exact Hnone|].
  destruct (py_ne_int _ RUG_SCORE); [rewrite exit_position_calls; exact Hsell|].
  destruct (Qleb TAKE_PROFIT _); [rewrite exit_position_calls; exact Hsell|].
  destruct (Qleb _ STOP_LOSS); [rewrite exit_position_calls; exact Hsell|].
  exact Hnone.
Qed.

Lemma monitor_tokens_calls (w : world) (tokens : list holding) (st : state) :
  exists sold : list holding,
    sold `sublist_of` tokens /\
    Forall (fun t => h_mint t ∉ EXCLUDED_TOKENS) sold /\
    swap_calls (monitor_tokens w tokens st).2 = swap_calls st ++ (sell_call <$> sold).
Proof.
  revert st. induction tokens as [|t rest IH]; intros st.
  - exists []. split; [constructor|]. split; [constructor|].
    cbn. rewrite app_nil_r. reflexivity.
  - cbn [monitor_tokens]. rewrite M_bind_unfold.
    pose proof (monitor_token_calls w t st
      (fun l => l = swap_calls st \/
                ((h_mint t ∉ EXCLUDED_TOKENS) /\ l = swap_calls st ++ [sell_call t]))
      (or_introl eq_refl) (fun Hex => or_intror (conj Hex eq_refl))) as Ht.
    cbv beta in Ht.
    destruct (monitor_token w t st) as [[u|e] s1]; cbn [snd] in Ht; cbv beta iota.
    + destruct (IH s1) as (sold & Hsub & Hall & Hcalls).
      destruct Ht as [Ht | [Hex Ht]].
      * exists sold. split; [apply sublist_cons; exact Hsub|]. split; [exact Hall|].
        rewrite Hcalls, Ht. reflexivity.
      * exists (t :: sold). split; [apply sublist_skip; exact Hsub|].
        split; [constructor; assumption|].
        rewrite Hcalls, Ht, fmap_cons, <- app_assoc. reflexivity.
    + destruct Ht as [Ht | [Hex Ht]].
      * exists []. split; [apply sublist_nil_l|]. split; [constructor|].
        cbn. rewrite app_nil_r. exact Ht.
      * exists [t]. split; [apply sublist_skip, sublist_nil_l|].
        split; [constructor; [exact Hex|constructor]|]. exact Ht.
Qed.

(** The cycle stopped before any sell. *)
Ltac nothing_sold :=
  exists []; split;
    [rewrite fmap_nil, app_nil_r; solve [reflexivity | assumption]
    |split; [constructor | intros; apply sublist_nil_l]].

Lemma try_state {A : Type} (m : M A) (a : A) (st : state) :
  (try_except m (mret a) st).2 = (m st).2.
Proof. unfold try_except. destruct (m st) as [[x|e] st']; reflexivity. Qed.

(** X13. The swap calls of a monitoring cycle are sells for USDT of
    tokens of the wallet list, each for its whole balance, in the order of
    the list and at most one per entry; no excluded token is sold, and the
    cycle makes no other swap call. *)
Theorem monitoring_sells_only_holdings (w : world) (st : state) :
  exists sold : list holding,
    swap_calls (main_loop_cycle w st).2 = swap_calls st ++ (sell_call <$> sold) /\
    Forall (fun t => h_mint t ∉ EXCLUDED_TOKENS) sold /\
    (forall tokens st1,
       get_wallet_tokens_cached w st = (Ok tokens, st1) -> sold `sublist_of` tokens).
Proof.
  unfold main_loop_cycle. rewrite try_state. unfold check_and_monitor.
  rewrite M_bind_unfold. unfold lift at 1.
  destruct (get_sol_balance w) as [sol|]; [|nothing_sold].
  rewrite M_bind_unfold. unfold lift at 1.
  destruct (get_token_balance w USDT) as [usdt|]; [|nothing_sold].
  rewrite M_bind_unfold.
  pose proof (keeps_get_wallet_tokens_cached w st) as Hk.
  destruct (get_wallet_tokens_cached w st) as [[tokens|e] s1]; cbn [snd] in Hk; cbv beta iota.
  - destruct tokens as [|t ts]; [nothing_sold|].
    destruct (monitor_tokens_calls w (t :: ts) s1) as (sold & Hsub & Hall & Hc).
    exists sold. split; [rewrite Hc, Hk; reflexivity|]. split; [exact Hall|].
    intros tokens st1 [= <- _]. exact Hsub.
  - nothing_sold.
Qed.

(** ** token_utils.py: when there is a snapshot *)

(** X14. [get_token_info] returns a snapshot exactly when the asset search
    answers, with a status that [raise_for_status] accepts, a list whose
    first entry is an object in which "stats1h" and "audit" are objects or
    missing; an entry with ["audit": null] gives no snapshot. The snapshot
    is that of this first entry, whose id is not compared with the mint
    asked for; a missing "audit" reads as both authorities disabled. *)
Theorem snapshot_of_first_hit (w : world) (mint : string) :
  (is_Some (get_token_info w mint) <->
   exists status o rest,
     jup_search w mint = Reply status (Some (JArr (JObj o :: rest))) /\
     raise_for_status status = false /\
     dict_or_missing o "stats1h" /\ dict_or_missing o "audit") /\
  (forall status o rest token,
     jup_search w mint = Reply status (Some (JArr (JObj o :: rest))) ->
     get_token_info w mint = Some token ->
     dget token "mint" = default JNull (obj_get o "id") /\
     dget token "usdPrice" = default JNull (obj_get o "usdPrice") /\
     dget token "liquidity" = default JNull (obj_get o "liquidity") /\
     dget token "holderCount" = default (JInt 0) (obj_get o "holderCount") /\
     (obj_get o "audit" = None ->
      dget token "mint_authority" = JBool true /\
      dget token "freeze_authority" = JBool true)).
Proof.
  split; [split|].
  - intros [token H]. revert H. unfold get_token_info, get_token_info_try.
    destruct (jup_search w mint) as [|status body]; [discriminate|].
    destruct (raise_for_status status) eqn:Est; [discriminate|].
    destruct body as [data|]; [|discriminate]. cbn.
    destruct (truthy data); cbn; [|discriminate].
    destruct data as [| | |s|l|o0]; cbn; try discriminate.
    { destruct s; cbn; discriminate. }
    destruct l as [|tok rest]; cbn; [discriminate|].
    destruct tok as [| | | | |o]; cbn; try discriminate.
    intros H. exists status, o, rest. split; [reflexivity|]. split; [exact Est|].
    unfold dict_or_missing.
    destruct (obj_get o "stats1h") as [[| | | | |stats]|]; cbn in H; try discriminate H;
      destruct (obj_get o "audit") as [[| | | | |audit]|]; cbn in H; try discriminate H;
      split; exact Logic.I.
  - intros (status & o & rest & Hjup & Hst & Hstats & Haudit).
    unfold get_token_info, get_token_info_try. rewrite Hjup, Hst. cbn.
    unfold dict_or_missing in Hstats, Haudit.
    destruct (obj_get o "stats1h") as [[| | | | |stats]|]; try contradiction;
      destruct (obj_get o "audit") as [[| | | | |audit]|]; try contradiction;
      cbn; eauto.
  - intros status o rest token Hjup.
    unfold get_token_info, get_token_info_try. rewrite Hjup.
    destruct (raise_for_status status); [discriminate|]. cbn.
    destruct (obj_get o "stats1h") as [[| | | | |stats]|]; cbn; try discriminate;
      destruct (obj_get o "audit") as [[| | | | |audit]|]; cbn; try discriminate;
      intros [= <-]; unfold dget;
      (split; [repeat (rewrite lookup_insert_ne by done); rewrite lookup_insert_eq; reflexivity|]);
      (split; [repeat (rewrite lookup_insert_ne by done); rewrite lookup_insert_eq; reflexivity|]);
      (split; [repeat (rewrite lookup_insert_ne by done); rewrite lookup_insert_eq; reflexivity|]);
      (split; [repeat (rewrite lookup_insert_ne by done); rewrite lookup_insert_eq; reflexivity|]);
      intros Hnone; try discriminate Hnone;
      split; repeat (rewrite lookup_insert_ne by done); rewrite lookup_insert_eq; reflexivity.
Qed.

(** ** trader.py and db.py: attempts whose send failed *)

Lemma swap_logs_row (w : world) (mint_in mint_out act : string) (amount : Q) (st : state)
    (signed_tx outcome : string) (liq_json : json) (sig : option string) (liq : Q) :
  reaches_send w mint_in mint_out amount signed_tx liq_json ->
  send_and_confirm w signed_tx = (outcome, sig) ->
  py_decimal w liq_json = Ok liq ->
  db_available w = true ->
  exists row,
    db_rows (swap w mint_in mint_out amount act st).2 = upsert row (db_rows st) /\
    tx_signature row = str_signature sig /\ status row = outcome /\
    input_mint row = mint_in /\ output_mint row = mint_out /\ action row = act.
Proof.
  intros Hreach Hsend Hliq Hdb.
  destruct (swap_reaches_log w mint_in mint_out act amount st signed_tx outcome liq_json sig
              Hreach Hsend) as (a & Hrun & Hact & Hin & Hout & Hl & Hsig & Hst & Herr).
  rewrite <- Hl in Hliq.
  destruct (log_values_ok w a (db_next_id st) liq Hliq)
    as (row & Hrow & _ & _ & Haction & _ & Hinput & _ & _ & Houtput & _ & _ & Hrsig & _ & _
        & Hrst & _).
  exists row. rewrite Hrun, M_bind_unfold.
  match goal with
  | |- context [log_swap w a ?s] => rewrite (log_swap_persists w a s row Hdb Hrow)
  end.
  split; [reflexivity|]. rewrite Hrsig, Hrst, Hinput, Houtput, Haction, Hsig. auto 10.
Qed.

(** X15. An attempt whose [send_raw_transaction] raised is logged with
    the signature text "None". With the signature as the key of the table,
    a second such attempt adds no row: it only sets status, error message
    and update time of the row of the first one, whose mints, action and
    entry price stay, so the table holds nothing of the second attempt. *)
Theorem failed_sends_share_one_row (w : world) (in1 out1 act1 in2 out2 act2 : string)
    (amount1 amount2 : Q) (st : state) (signed1 signed2 : string) (liq1 liq2 : json)
    (q1 q2 : Q) (e1 e2 : pyexn) :
  reaches_send w in1 out1 amount1 signed1 liq1 -> rpc_send w signed1 = Raise e1 ->
  reaches_send w in2 out2 amount2 signed2 liq2 -> rpc_send w signed2 = Raise e2 ->
  py_decimal w liq1 = Ok q1 -> py_decimal w liq2 = Ok q2 ->
  db_available w = true ->
  Forall (fun r => tx_signature r <> "None"%string) (db_rows st) ->
  let st1 := (swap w in1 out1 amount1 act1 st).2 in
  let st2 := (swap w in2 out2 amount2 act2 st1).2 in
  exists row1 row2,
    db_rows st1 = db_rows st ++ [row1] /\
    db_rows st2 = db_rows st ++ [row2] /\
    tx_signature row2 = "None"%string /\ status row2 = "failed"%string /\
    input_mint row2 = in1 /\ output_mint row2 = out1 /\ action row2 = act1 /\
    entering_price row2 = entering_price row1 /\
    output_liqudation row2 = output_liqudation row1.
Proof.
  intros Hr1 Hs1 Hr2 Hs2 Hq1 Hq2 Hdb Hfresh st1 st2.
  assert (Hf1 : send_and_confirm w signed1 = ("failed"%string, None))
    by (unfold send_and_confirm; rewrite Hs1; reflexivity).
  assert (Hf2 : send_and_confirm w signed2 = ("failed"%string, None))
    by (unfold send_and_confirm; rewrite Hs2; reflexivity).
  destruct (swap_logs_row w in1 out1 act1 amount1 st signed1 "failed" liq1 None q1
              Hr1 Hf1 Hq1 Hdb) as (row1 & Hrows1 & Hsig1 & Hst1 & Hin1 & Hout1 & Hact1).
  destruct (swap_logs_row w in2 out2 act2 amount2 st1 signed2 "failed" liq2 None q2
              Hr2 Hf2 Hq2 Hdb) as (new & Hrows2 & Hsig2 & Hst2 & _).
  cbn [str_signature] in Hsig1, Hsig2.
  fold st1 in Hrows1. fold st2 in Hrows2.
  rewrite upsert_fresh in Hrows1 by (rewrite Hsig1; exact Hfresh).
  rewrite Hrows1, upsert_last in Hrows2
    by (first [rewrite Hsig2; exact Hfresh | congruence]).
  exists row1, (update_status new row1).
  split; [exact Hrows1|]. split; [exact Hrows2|]. cbn. auto 10.
Qed.

Lemma failed_sends_share_one_row_witness :
  exists row,
    db_rows (swap world_send_fails USDT MINT_B 1 "buy"
               (swap world_send_fails USDT MINT_A 1 "buy" initial_state).2).2 = [row] /\
    tx_signature row = "None"%string /\ status row = "failed"%string /\
    output_mint row = MINT_A.
Proof.
  assert (HA : reaches_send world_send_fails USDT MINT_A 1 "signed" (JNum 150000)).
  { exists "wallet"%string, 6, 6, (JStr "TKN"),
      (JObj [ ("inAmount"%string, JInt 1000000); ("outAmount"%string, JInt 2000000);
              ("priceImpactPct"%string, JNum 0.01) ]),
      (JObj [ ("swapTransaction"%string, JStr "AQAB") ]), (JStr "AQAB").
    split; [reflexivity|].
    split; [vm_compute; reflexivity|].
    split; [vm_compute; reflexivity|].
    split; [vm_compute; reflexivity|].
    split; [vm_compute; reflexivity|].
    split; [vm_compute; reflexivity|].
    split; [vm_compute; reflexivity|].
    split; [vm_compute; reflexivity|].
    split; [vm_compute; reflexivity|].
    vm_compute; reflexivity. }
  assert (HB : reaches_send world_send_fails USDT MINT_B 1 "signed" (JNum 120000)).
  { exists "wallet"%string, 6, 6, (JStr "TKN"),
      (JObj [ ("inAmount"%string, JInt 1000000); ("outAmount"%string, JInt 2000000);
              ("priceImpactPct"%string, JNum 0.01) ]),
      (JObj [ ("swapTransaction"%string, JStr "AQAB") ]), (JStr "AQAB").
    split; [reflexivity|].
    split; [vm_compute; reflexivity|].
    split; [vm_compute; reflexivity|].
    split; [vm_compute; reflexivity|].
    split; [vm_compute; reflexivity|].
    split; [vm_compute; reflexivity|].
    split; [vm_compute; reflexivity|].
    split; [vm_compute; reflexivity|].
    split; [vm_compute; reflexivity|].
    vm_compute; reflexivity. }
  destruct (failed_sends_share_one_row world_send_fails USDT MINT_A "buy" USDT MINT_B "buy"
              1 1 initial_state "signed" "signed" (JNum 150000) (JNum 120000)
              150000 120000 OSError OSError HA eq_refl HB eq_refl eq_refl eq_refl eq_refl
              ltac:(constructor))
    as (row1 & row2 & _ & Hrows & Hsig & Hst & _ & Hout & _).
  exists row2. split; [exact Hrows|]. split; [exact Hsig|]. split; [exact Hst|exact Hout].
Defined.

(** ** db.py: a logged trade is read back *)

Lemma swaps_of_snoc (mint : string) (rows : list swap_row) (row : swap_row) :
  output_mint row = mint -> swaps_of mint (rows ++ [row]) = row :: swaps_of mint rows.
Proof.
  intros H. unfold swaps_of.
  rewrite filter_app, reverse_app, filter_cons_True by exact H.
  rewrite filter_nil. reflexivity.
Qed.

(** X16. A record that [log_swap] stores under a signature the table
    does not hold yet is the first row [get_swaps_for_token] returns for
    its output mint, ahead of the rows that were there, and the row
    [token_has_swap] returns: it carries the next id of the table, and the
    entry price, trade size, status and liquidity read back are those
    passed to [log_swap]. *)
Theorem logged_trade_is_read_back (w : world) (a : log_args) (st : state) (liq : Q) :
  db_available w = true ->
  py_decimal w (arg_output_liqudation a) = Ok liq ->
  Forall (fun r => tx_signature r <> str_signature (arg_tx_signature a)) (db_rows st) ->
  let st' := (log_swap w a st).2 in
  exists row,
    (token_has_swap w (arg_output_mint a) st').1 = Ok (Some row) /\
    (get_swaps_for_token w (arg_output_mint a) st').1
      = Ok (row :: swaps_of (arg_output_mint a) (db_rows st)) /\
    row_id row = db_next_id st /\
    entering_price row = arg_entering_price a /\
    input_amount_ui row = arg_input_amount_ui a /\
    output_liqudation row = liq /\
    status row = arg_status a.
Proof.
  intros Hdb Hliq Hfresh st'.
  destruct (log_values_ok w a (db_next_id st) liq Hliq)
    as (row & Hrow & Hid & _ & _ & Hprice & _ & Hinui & _ & Hout & _ & _ & Hsig & _ & _
        & Hst & _ & Hrliq & _).
  assert (Hrows : db_rows st' = db_rows st ++ [row]).
  { unfold st'. rewrite (log_swap_persists w a st row Hdb Hrow). cbn [snd db_rows set_db].
    apply upsert_fresh. rewrite Hsig. exact Hfresh. }
  exists row.
  unfold token_has_swap, get_swaps_for_token. rewrite Hdb. cbn [negb fst].
  rewrite Hrows, (swaps_of_snoc _ _ _ Hout). cbn [head].
  auto 10.
Qed.

Lemma logged_trade_is_read_back_witness :
  exists row,
    (token_has_swap world_A MINT_A (log_swap world_A buy_A_logged initial_state).2).1
      = Ok (Some row) /\
    row_id row = 1 /\ entering_price row = 0.5%Q /\ status row = "success"%string.
Proof.
  destruct (logged_trade_is_read_back world_A buy_A_logged initial_state 150000
              eq_refl eq_refl ltac:(constructor))
    as (row & Hhas & _ & Hid & Hprice & _ & _ & Hst).
  exists row. split; [exact Hhas|]. split; [exact Hid|]. split; [exact Hprice|exact Hst].
Defined.

(** ** trader.py: what [swap] returns *)

(** The result of a call of [swap]: an exception, "failed" before anything
    was sent, or the status of the send-and-confirm step once the record
    went to [log_swap]. *)
Lemma swap_result (w : world) (mint_in mint_out : string) (amount : Q) (act : string)
    (st : state) (P : res string * state -> Prop) :
  (forall e s, P (Raise e, s)) ->
  (forall s, P (Ok "failed"%string, s)) ->
  (forall a signed_tx outcome sig s,
     logged_by a mint_in mint_out act ->
     send_and_confirm w signed_tx = (outcome, sig) ->
     P ((log_swap w a ≫= fun logged => mret outcome) s)) ->
  P (swap w mint_in mint_out amount act st).
Proof.
  intros Hraise Hfail Hlog.
  unfold swap. rewrite M_bind_unfold. cbn [modify].
  unfold TESTING_MODE, swap_live. cbv zeta.
  rewrite M_bind_unfold. unfold lift at 1.
  destruct (get_wallet w) as [wallet_str|]; [|exact (Hraise _ _)].
  rewrite M_bind_unfold. unfold lift at 1.
  destruct (mint_decimals mint_in _) as [din|]; [|exact (Hraise _ _)].
  rewrite M_bind_unfold. unfold lift at 1.
  destruct (mint_decimals mint_out _) as [dout|]; [|exact (Hraise _ _)].
  rewrite M_bind_unfold. unfold lift at 1.
  destruct (get_quote w mint_in mint_out amount) as [[q|]|];
    [|exact (Hfail _)|exact (Hraise _ _)].
  destruct (negb (truthy q)); [exact (Hfail _)|].
  unfold swap_with_quote. cbv zeta.
  rewrite M_bind_unfold. unfold lift at 1.
  destruct (py_item q "outAmount") as [outAmount|]; [|exact (Hraise _ _)].
  rewrite M_bind_unfold. unfold lift at 1.
  destruct (py_int w outAmount) as [out_raw|]; [|exact (Hraise _ _)].
  rewrite M_bind_unfold. unfold lift at 1.
  destruct (py_get q "priceImpactPct" (JInt 0)) as [pi|]; [|exact (Hraise _ _)].
  rewrite M_bind_unfold. unfold lift at 1.
  destruct (py_float w pi) as [impact|]; [|exact (Hraise _ _)].
  rewrite M_bind_unfold. unfold lift at 1.
  destruct (symbol_of (get_token_info w mint_in)) as [symbol_in|]; [|exact (Hraise _ _)].
  rewrite M_bind_unfold. unfold lift at 1.
  destruct (symbol_of (get_token_info w mint_out)) as [symbol_out|]; [|exact (Hraise _ _)].
  destruct (Qeq_bool _ 0); [exact (Hraise _ _)|].
  destruct (jup_swap w q wallet_str) as [|status body]; [exact (Hraise _ _)|].
  destruct (negb (status =? 200)); [exact (Hfail _)|].
  rewrite M_bind_unfold. unfold lift at 1.
  destruct (json_body body) as [swap_data|]; [|exact (Hraise _ _)].
  rewrite M_bind_unfold. unfold lift at 1.
  destruct (py_item swap_data "swapTransaction") as [encoded|]; [|exact (Hraise _ _)].
  rewrite M_bind_unfold. unfold lift at 1.
  destruct (sign_tx w encoded) as [signed_tx|]; [|exact (Hraise _ _)].
  destruct (send_and_confirm w signed_tx) as [outcome sig] eqn:Es.
  rewrite M_bind_unfold. unfold lift at 1.
  destruct (get_token_info w mint_out) as [token_out|]; [|exact (Hraise _ _)].
  apply (Hlog _ signed_tx outcome sig); [unfold logged_by; cbn; auto|exact Es].
Qed.

(** X17. A call of [swap] that returns gives "success", "timeout" or
    "failed" and nothing else, and it gives "success" only when a
    transaction was sent and [confirm_transaction] reported it confirmed. *)
Theorem swap_returns_one_of_three (w : world) (mint_in mint_out : string) (amount : Q)
    (act : string) (st : state) (outcome : string) :
  (swap w mint_in mint_out amount act st).1 = Ok outcome ->
  (outcome = "success"%string \/ outcome = "timeout"%string \/ outcome = "failed"%string) /\
  (outcome = "success"%string ->
   exists signed_tx sig, rpc_send w signed_tx = Ok sig /\ rpc_confirm w sig = Ok true).
Proof.
  revert outcome. apply swap_result.
  - intros e s outcome [=].
  - intros s outcome [= <-]. split; [auto|discriminate].
  - intros a signed_tx result sig s _ Hsend outcome H.
    rewrite M_bind_unfold in H.
    destruct (log_swap w a s) as [[logged|e] s']; [|discriminate H].
    injection H as <-.
    split; [exact (send_and_confirm_status w signed_tx result sig Hsend)|].
    intros ->. unfold send_and_confirm in Hsend.
    destruct (rpc_send w signed_tx) as [sg|] eqn:Esend; [|discriminate Hsend].
    destruct (rpc_confirm w sg) as [[|]|] eqn:Econf; try discriminate Hsend.
    exists signed_tx, sg. auto.
Qed.

Lemma swap_returns_one_of_three_witness :
  (swap world_A USDT MINT_A 1 "buy" initial_state).1 = Ok "success"%string /\
  exists signed_tx sig,
    rpc_send world_A signed_tx = Ok sig /\ rpc_confirm world_A sig = Ok true.
Proof.
  assert (E : (swap world_A USDT MINT_A 1 "buy" initial_state).1 = Ok "success"%string)
    by (vm_compute; reflexivity).
  destruct (swap_returns_one_of_three world_A USDT MINT_A 1 "buy" initial_state "success" E)
    as [_ H].
  split; [exact E|exact (H eq_refl)].
Defined.

(** ** wallet_utils.py: what counts as an open position *)

Lemma fetch_tokens_funded (w : world) (program_id : program) (accounts : list rpc_account)
    (pubkey : string) :
  get_wallet w = Ok pubkey ->
  rpc_parsed_accounts w program_id = Ok accounts ->
  exists tokens,
    _fetch_tokens w program_id = Ok tokens /\
    h_mint <$> tokens = rpc_mint <$> funded accounts /\
    Forall (fun t => h_amount t <> 0) tokens.
Proof.
  intros Hw Ha. unfold _fetch_tokens. rewrite Hw, Ha. cbn [mbind res_bind].
  eexists. split; [reflexivity|]. unfold funded.
  clear Ha.
  induction accounts as [|acc rest [IHm IHa]]; [split; [reflexivity|apply Forall_nil_2]|].
  cbn [omap list_omap]. rewrite filter_cons.
  destruct (rpc_amount acc =? 0) eqn:E; cbv beta iota.
  - apply Z.eqb_eq in E. destruct (decide (rpc_amount acc <> 0)); [contradiction|].
    split; assumption.
  - apply Z.eqb_neq in E. destruct (decide (rpc_amount acc <> 0)); [|contradiction].
    rewrite !fmap_cons, IHm. split; [reflexivity|]. constructor; [exact E|exact IHa].
Qed.

Lemma count_by_mint {A : Type} (f : A -> string) (l : list A) :
  length (filter (fun x => f x ∉ EXCLUDED_TOKENS) l)
  = length (filter (fun mint => mint ∉ EXCLUDED_TOKENS) (f <$> l)).
Proof.
  induction l as [|x l IH]; [reflexivity|].
  rewrite fmap_cons, !filter_cons.
  destruct (decide (f x ∉ EXCLUDED_TOKENS)); cbn [length]; rewrite IH; reflexivity.
Qed.

(** X18. With an empty cache, the holdings are the accounts of the two
    token programs whose balance is not zero. [can_open_position] counts
    those of them whose mint is not excluded and allows a position while
    there are fewer than [MAX_OPEN_POSITIONS]; [already_opened] looks for
    the mint among them. An emptied account is neither a holding nor a
    position, and the USDT account is no position. *)
Theorem positions_are_funded_accounts (w : world) (st : state) (pubkey : string)
    (accounts accounts_2022 : list rpc_account) :
  get_wallet w = Ok pubkey ->
  rpc_parsed_accounts w TOKEN_PROGRAM_ID = Ok accounts ->
  rpc_parsed_accounts w TOKEN_2022_PROGRAM_ID = Ok accounts_2022 ->
  cache_data st = None ->
  let mints := rpc_mint <$> (funded accounts ++ funded accounts_2022) in
  (exists tokens,
     (get_wallet_tokens_cached w st).1 = Ok tokens /\
     h_mint <$> tokens = mints /\
     Forall (fun t => h_amount t <> 0) tokens) /\
  (can_open_position w st).1
    = Ok (bool_decide
            (Z.of_nat (length (filter (fun mint => mint ∉ EXCLUDED_TOKENS) mints))
             < MAX_OPEN_POSITIONS)) /\
  (forall mint, (already_opened w mint st).1 = Ok (bool_decide (mint ∈ mints))).
Proof.
  intros Hw Ha Hb Hcache mints.
  destruct (fetch_tokens_funded w TOKEN_PROGRAM_ID accounts pubkey Hw Ha)
    as (ta & Hta & Hma & Hza).
  destruct (fetch_tokens_funded w TOKEN_2022_PROGRAM_ID accounts_2022 pubkey Hw Hb)
    as (tb & Htb & Hmb & Hzb).
  assert (Hrun : get_wallet_tokens_cached w st
                 = (Ok (ta ++ tb), set_cache (time_now w) (Some (ta ++ tb)) st)).
  { unfold get_wallet_tokens_cached. rewrite Hcache, Hta, Htb. reflexivity. }
  assert (Hm : h_mint <$> ta ++ tb = mints).
  { unfold mints. rewrite !fmap_app, Hma, Hmb. reflexivity. }
  split; [|split].
  - exists (ta ++ tb). rewrite Hrun. split; [reflexivity|]. split; [exact Hm|].
    apply Forall_app. split; assumption.
  - unfold can_open_position. rewrite M_bind_unfold, Hrun. cbn [fst mret M_ret].
    rewrite (count_by_mint h_mint), Hm. reflexivity.
  - intros mint. unfold already_opened. rewrite M_bind_unfold, Hrun. cbn [fst mret M_ret].
    f_equal. apply bool_decide_ext. rewrite <- Hm, Exists_exists, list_elem_of_fmap.
    split.
    + intros (t & Hin & Ht). exists t. split; [symmetry; exact Ht|exact Hin].
    + intros (t & Ht & Hin). exists t. split; [exact Hin|symmetry; exact Ht].
Qed.

Lemma positions_are_funded_accounts_witness :
  (can_open_position world_A_after_exit initial_state).1 = Ok true /\
  (already_opened world_A_after_exit MINT_A initial_state).1 = Ok true /\
  (already_opened world_A_after_exit MINT_B initial_state).1 = Ok false.
Proof.
  destruct (positions_are_funded_accounts world_A_after_exit initial_state "wallet"
              [account_A; account_B_emptied; account_USDT] [] eq_refl eq_refl eq_refl eq_refl)
    as (_ & Hcan & Hopened).
  split; [rewrite Hcan; vm_compute; reflexivity|].
  split; rewrite Hopened; vm_compute; reflexivity.
Defined.
